(** * DocEX extraction job orchestration: a shallow embedding

    The definitions below follow the Python sources

      - [app/utils/extraction_utils.py]      (jobs, cost table, [run_extraction_job])
      - [app/utils/persistent_jobs.py]       (the file-per-job store)
      - [app/extraction/adapters/enhanced_jsonld_bridge.py]
      - [app/llm/ai_agents/data_extraction_agent.py]
      - [app/routes/agent_api.py]            (the routes of the extraction jobs)
      - [app/utils/model_utils.py]           ([find_source_file])

    Python values are modelled by [pyval], exceptions by the [Res] monad,
    dictionaries with string keys either by association lists (insertion
    order matters) or by stdpp's [gmap] (only lookups matter).  The floats
    of the agent's cost model and statistics, where the code does
    arithmetic whose rounding matters, are IEEE binary64 numbers (primitive
    floats); the other floats (time stamps, constants of tables,
    confidence scores) are rationals. *)

From Stdlib Require Import String Ascii ZArith QArith Qround List Bool Lia.
From Stdlib Require PrimFloat FloatOps SpecFloat.
From stdpp Require Import base option list strings gmap.
Import ListNotations.

Set Warnings "-register-all".
Local Open Scope string_scope.
Local Open Scope Z_scope.

(** ** Python values, exceptions and string helpers *)

Module Py.

(** JSON-like Python values: [None], booleans, ints, floats, strings,
    lists and dicts with string keys (insertion ordered). *)
Inductive pyval : Type :=
| PNone
| PBool (b : bool)
| PInt (z : Z)
| PFloat (q : Q)
| PStr (s : string)
| PList (l : list pyval)
| PDict (d : list (string * pyval)).

(** An exception that [except Exception] catches, represented by what
    [str(e)] gives. *)
Definition exn : Type := string.

Inductive Res (A : Type) : Type :=
| Ok (a : A)
| Raise (e : exn).
Arguments Ok {A} a.
Arguments Raise {A} e.

#[export] Instance res_ret : MRet Res := fun A a => Ok a.
#[export] Instance res_bind : MBind Res := fun A B k r =>
  match r with
  | Ok a => k a
  | Raise e => Raise e
  end.

#[export] Instance res_fmap : FMap Res := fun A B f r =>
  match r with
  | Ok a => Ok (f a)
  | Raise e => Raise e
  end.

(** [try: body except Exception as e: handler(e)] *)
Definition try_except {A} (body : Res A) (handler : exn -> Res A) : Res A :=
  match body with
  | Ok a => Ok a
  | Raise e => handler e
  end.

(** Truthiness, as used by [if x:] and [x or y]. *)
Definition truthy (v : pyval) : bool :=
  match v with
  | PNone => false
  | PBool b => b
  | PInt z => negb (z =? 0)
  | PFloat q => negb (Qeq_bool q 0)
  | PStr s => negb (String.eqb s "")
  | PList l => match l with [] => false | _ => true end
  | PDict d => match d with [] => false | _ => true end
  end.

(** Lookup in an insertion-ordered dict. *)
Fixpoint assoc {V} (k : string) (d : list (string * V)) : option V :=
  match d with
  | [] => None
  | (k', v) :: d' => if String.eqb k k' then Some v else assoc k d'
  end.

(** [d[k] = v]: an existing key keeps its position, a new key goes last. *)
Fixpoint assoc_set {V} (k : string) (v : V) (d : list (string * V)) : list (string * V) :=
  match d with
  | [] => [(k, v)]
  | (k', v') :: d' =>
      if String.eqb k k' then (k', v) :: d' else (k', v') :: assoc_set k v d'
  end.

(** [type(v).__name__] *)
Definition type_name (v : pyval) : string :=
  match v with
  | PNone => "NoneType"
  | PBool _ => "bool"
  | PInt _ => "int"
  | PFloat _ => "float"
  | PStr _ => "str"
  | PList _ => "list"
  | PDict _ => "dict"
  end.

(** [hash(v)] does not raise: lists and dicts are unhashable. *)
Definition hashable (v : pyval) : bool :=
  match v with
  | PList _ | PDict _ => false
  | _ => true
  end.

(** [table.get(key, dflt)] for a dict literal whose keys are strings and
    any [key]: [TypeError] for an unhashable key; a key that is not a string
    equals none of the keys. *)
Definition dict_get {V} (table : list (string * V)) (key : pyval) (dflt : V) : Res V :=
  if hashable key
  then Ok (match key with
           | PStr k => default dflt (assoc k table)
           | _ => dflt
           end)
  else Raise ("unhashable type: '" ++ type_name key ++ "'").

(** [x.get(k, dflt)]: [AttributeError] when [x] is not a dict. *)
Definition py_get (x : pyval) (k : string) (dflt : pyval) : Res pyval :=
  match x with
  | PDict d => Ok (default dflt (assoc k d))
  | _ => Raise "object has no attribute 'get'"
  end.

(** [len(x)] *)
Definition py_len (x : pyval) : Res Z :=
  match x with
  | PStr s => Ok (Z.of_nat (String.length s))
  | PList l => Ok (Z.of_nat (List.length l))
  | PDict d => Ok (Z.of_nat (List.length d))
  | _ => Raise "object has no len()"
  end.

(** [s.endswith(suffix)] *)
Definition endswith (s suffix : string) : bool :=
  let n := String.length s in
  let m := String.length suffix in
  if (m <=? n)%nat then String.eqb (String.substring (n - m) m s) suffix else false.

Definition startswith (s pre : string) : bool := String.prefix pre s.

(** [s.replace(old, new)] for a non-empty [old]: leftmost, non-overlapping
    occurrences.  [skip] counts the characters of a matched occurrence that
    are still to be dropped. *)
Fixpoint replace_from (old new : string) (skip : nat) (s : string) : string :=
  match s with
  | EmptyString => EmptyString
  | String c s' =>
      match skip with
      | S k => replace_from old new k s'
      | O =>
          if String.prefix old s
          then new ++ replace_from old new (String.length old - 1) s'
          else String c (replace_from old new 0 s')
      end
  end.

Definition replace (s old new : string) : string := replace_from old new 0 s.

(** [x.replace(old, new)] for any value [x]: [AttributeError] unless [x] is
    a string. *)
Definition py_replace (x : pyval) (old new : string) : Res string :=
  match x with
  | PStr s => Ok (replace s old new)
  | _ => Raise ("'" ++ type_name x ++ "' object has no attribute 'replace'")
  end.

(** [s.lower()] on ASCII letters. *)
Definition lower_ascii (c : ascii) : ascii :=
  let n := nat_of_ascii c in
  if ((65 <=? n) && (n <=? 90))%nat then ascii_of_nat (n + 32) else c.

Fixpoint lower (s : string) : string :=
  match s with
  | EmptyString => EmptyString
  | String c s' => String (lower_ascii c) (lower s')
  end.

(** [sub in s] *)
Fixpoint contains (sub s : string) : bool :=
  String.prefix sub s ||
  match s with
  | EmptyString => false
  | String _ s' => contains sub s'
  end.

(** [len(s.split())]: the number of maximal runs of non-whitespace. *)
Definition is_space (c : ascii) : bool :=
  let n := nat_of_ascii c in
  ((n =? 32) || ((9 <=? n) && (n <=? 13)))%nat.

Fixpoint count_words_from (in_word : bool) (s : string) : nat :=
  match s with
  | EmptyString => 0
  | String c s' =>
      if is_space c then count_words_from false s'
      else if in_word then count_words_from true s'
      else S (count_words_from true s')
  end.

Definition count_words (s : string) : nat := count_words_from false s.

(** [os.path.join(a, b)] on POSIX paths; [TypeError] when [a] is not a string. *)
Definition os_path_join (a : pyval) (b : string) : Res string :=
  match a with
  | PStr a =>
      if startswith b "/" then Ok b
      else if String.eqb a "" || endswith a "/" then Ok (a ++ b)
      else Ok (a ++ "/" ++ b)
  | _ => Raise "join() argument must be str, bytes, or os.PathLike object"
  end.

(** [os.path.join(a, b)] for any two values: [TypeError] unless both are
    strings. *)
Definition path_join (a b : pyval) : Res string :=
  match b with
  | PStr b => os_path_join a b
  | _ => Raise "join() argument must be str, bytes, or os.PathLike object"
  end.

(** [os.path.join(a, *parts)] *)
Fixpoint os_path_join_all (a : pyval) (parts : list string) : Res string :=
  match parts with
  | [] => match a with
          | PStr a => Ok a
          | _ => Raise "join() argument must be str, bytes, or os.PathLike object"
          end
  | p :: parts' => joined ← os_path_join a p; os_path_join_all (PStr joined) parts'
  end.

(** [float(n)] of an integer, as the arithmetic operators convert an [int]
    operand: the nearest binary64 number (ties to even); [OverflowError]
    when that is not finite. *)
Definition float_of_int (n : Z) : Res PrimFloat.float :=
  match SpecFloat.binary_normalize FloatOps.prec FloatOps.emax n 0 false with
  | SpecFloat.S754_infinity _ => Raise "int too large to convert to float"
  | f => Ok (FloatOps.SF2Prim f)
  end.

(** The binary64 number nearest to the fraction [n / d] of two integers
    that are themselves binary64 numbers, for writing constants. *)
Definition float_lit (n d : Z) : PrimFloat.float :=
  PrimFloat.div
    (FloatOps.SF2Prim (SpecFloat.binary_normalize FloatOps.prec FloatOps.emax n 0 false))
    (FloatOps.SF2Prim (SpecFloat.binary_normalize FloatOps.prec FloatOps.emax d 0 false)).

End Py.
Export Py.

(** ** [enhanced_jsonld_bridge.py]: stakeholder extraction from JSON-LD metadata *)

Module Bridge.

(** What the bridge reads from outside itself.  The file system, the clock,
    the three LLM adapters and the text helpers are oracles; every one of
    them may raise.  A candidate oracle stands for the [try] block of one
    adapter in [try_llm_extraction], evaluated up to its
    [if processed_stakeholders: return processed_stakeholders]: it yields the
    processed stakeholders (the empty list when the block ends without
    returning) or the exception that ended the block. *)
Record World : Type := {
  default_jsonld_dir : string;
  path_exists : string -> bool;
  listdir_for_log : pyval -> Res unit;
  load_json_file : string -> Res pyval;
  now_isoformat : string;
  extract_document_content_from_metadata : pyval -> Res string;
  extract_document_structure_from_metadata : pyval -> Res pyval;
  enhanced_pattern_extraction : string -> string -> pyval -> Res (list pyval);
  agent_candidate : string -> string -> Res (list pyval);
  structured_adapter_candidate : string -> string -> Res (list pyval);
  local_llama_candidate : string -> string -> Res (list pyval);
  list_of_set : list pyval -> Res (list pyval)
}.

(** [filename] is whatever the caller passed: [filename.replace] raises
    [AttributeError] unless it is a string. *)
Definition generate_error_result (w : World) (filename : pyval) (error_message : string)
  : Res pyval :=
  dotless ← py_replace filename "." "_";
  let safe_name := replace dotless " " "_" in
  Ok (PDict [
    ("@context", PDict [("@vocab", PStr "https://docex.org/vocab/")]);
    ("@type", PStr "ExtractionError");
    ("@id", PStr ("https://docex.org/vocab/extraction/error_" ++ safe_name));
    ("sourceDocument", filename);
    ("errorMessage", PStr error_message);
    ("extractionTimestamp", PStr (now_isoformat w));
    ("stakeholders", PList []);
    ("extractionSummary", PDict [
       ("totalStakeholders", PInt 0);
       ("error", PBool true);
       ("errorDetails", PStr error_message)])
  ]).

Definition create_placeholder_stakeholder (source_filename : string) (metadata : pyval)
  : Res (list pyval) :=
  publisher ← py_get metadata "publisher" (PStr "Unknown Publisher");
  organization ← py_get metadata "dcterms:publisher" publisher;
  Ok [PDict [
    ("@type", PStr "Stakeholder");
    ("@id", PStr "stakeholder_placeholder");
    ("name", PStr "Document Author/Publisher");
    ("stakeholderType", PStr "INDIVIDUAL");
    ("role", PStr "Content Creator");
    ("confidenceScore", PFloat (4 # 10));
    ("extractionMethod", PStr "placeholder");
    ("sourceText", PStr ("Placeholder for document " ++ source_filename
                         ++ " - content extraction methods not available"));
    ("organization", organization)]].

(** Three adapters tried in a fixed order, each in its own [try]; a failure
    is printed and the next adapter is tried; nothing about the failure is
    kept.  When none returns, the result is the empty list. *)
Definition try_llm_extraction (w : World) (document_content source_filename : string)
  (metadata : pyval) : list pyval :=
  match agent_candidate w document_content source_filename with
  | Ok (s :: l) => s :: l
  | _ =>
      match structured_adapter_candidate w document_content source_filename with
      | Ok (s :: l) => s :: l
      | _ =>
          match local_llama_candidate w document_content source_filename with
          | Ok (s :: l) => s :: l
          | _ => []
          end
      end
  end.

Definition perform_stakeholder_extraction (w : World) (document_content : string)
  (document_structure : pyval) (source_filename : string) (metadata : pyval)
  : Res (list pyval) :=
  try_except
    (if String.eqb document_content ""
     then create_placeholder_stakeholder source_filename metadata
     else
       match try_llm_extraction w document_content source_filename metadata with
       | s :: l => Ok (s :: l)
       | [] =>
           stakeholders ← enhanced_pattern_extraction w document_content source_filename metadata;
           match stakeholders with
           | [] => create_placeholder_stakeholder source_filename metadata
           | _ => Ok stakeholders
           end
       end)
    (fun _ => create_placeholder_stakeholder source_filename metadata).

(** A number as [sum] and [/] see it ([bool] is an [int] in Python). *)
Definition py_number (v : pyval) : Res Q :=
  match v with
  | PInt z => Ok (inject_Z z)
  | PFloat q => Ok q
  | PBool b => Ok (if b then 1%Q else 0%Q)
  | _ => Raise "unsupported operand type(s) for +"
  end.

Fixpoint sum_confidence (stakeholders : list pyval) : Res Q :=
  match stakeholders with
  | [] => Ok 0%Q
  | s :: rest =>
      c ← py_get s "confidenceScore" (PInt 0);
      q ← py_number c;
      r ← sum_confidence rest;
      Ok (q + r)%Q
  end.

Fixpoint stakeholder_types (stakeholders : list pyval) : Res (list pyval) :=
  match stakeholders with
  | [] => Ok []
  | s :: rest =>
      t ← py_get s "stakeholderType" (PStr "UNKNOWN");
      r ← stakeholder_types rest;
      Ok (t :: r)
  end.

Definition create_extraction_result (w : World) (stakeholders : list pyval)
  (source_filename : string) (metadata : pyval) : Res pyval :=
  let safe_name := replace (replace (replace source_filename "." "_") " " "_") "-" "_" in
  let doc_uri := "https://docex.org/vocab/document/" ++ safe_name in
  let analysis_uri := doc_uri ++ "/analysis" in
  averageConfidence ←
    match stakeholders with
    | [] => Ok (PInt 0)
    | _ => total ← sum_confidence stakeholders;
           Ok (PFloat (total / inject_Z (Z.of_nat (List.length stakeholders)))%Q)
    end;
  types ← stakeholder_types stakeholders;
  stakeholderTypes ← list_of_set w types;
  extractionMethod ←
    match stakeholders with
    | [] => Ok (PStr "none")
    | s :: _ => py_get s "extractionMethod" (PStr "unknown")
    end;
  Ok (PDict [
    ("@context", PDict [
       ("@vocab", PStr "https://docex.org/vocab/");
       ("name", PStr "http://schema.org/name");
       ("email", PStr "http://schema.org/email");
       ("Stakeholder", PStr "http://schema.org/Person");
       ("Organization", PStr "http://schema.org/Organization");
       ("ReviewAction", PStr "https://docex.org/vocab/ReviewAction")]);
    ("@type", PStr "StakeholderExtraction");
    ("@id", PStr analysis_uri);
    ("analyzedDocument", PStr doc_uri);
    ("extractionMetadata", PDict [
       ("@type", PStr "ExtractionMetadata");
       ("sourceDocument", PStr source_filename);
       ("extractionStrategy", PStr "hybrid-extraction");
       ("agentModel", PStr "DocEX Hybrid Extractor v1.0");
       ("processingTime", PFloat 1);
       ("extractionConfidence", PFloat (75 # 100));
       ("qualityScore", PFloat (8 # 10));
       ("extractionTimestamp", PStr (now_isoformat w));
       ("basedOnMetadata", PBool true);
       ("extractorAgent", PDict [
          ("@type", PStr "SoftwareAgent");
          ("@id", PStr "https://docex.org/vocab/agent/hybrid_extractor");
          ("name", PStr "DocEX Hybrid Stakeholder Extractor");
          ("version", PStr "1.0.0")])]);
    ("stakeholders", PList stakeholders);
    ("extractionSummary", PDict [
       ("@type", PStr "ExtractionSummary");
       ("totalStakeholders", PInt (Z.of_nat (List.length stakeholders)));
       ("averageConfidence", averageConfidence);
       ("stakeholderTypes", PList stakeholderTypes);
       ("extractionMethod", extractionMethod);
       ("documentProcessed", PBool true)]);
    ("reviewHistory", PList [])]).

(** Lines 24-43: the directory default and the search for the metadata file. *)
Definition effective_jsonld_dir (w : World) (jsonld_dir : pyval) : pyval :=
  if truthy jsonld_dir then jsonld_dir else PStr (default_jsonld_dir w).

Definition resolve_jsonld_path (w : World) (filename : string) (jsonld_dir : pyval)
  : Res string :=
  let dir := effective_jsonld_dir w jsonld_dir in
  jsonld_path ← os_path_join dir filename;
  if path_exists w jsonld_path then Ok jsonld_path
  else
    jsonld_path ← (if endswith filename ".json" then Ok jsonld_path
                   else os_path_join dir (filename ++ ".json"));
    if negb (path_exists w jsonld_path) && endswith filename ".ttl"
    then os_path_join dir (replace filename ".ttl" "" ++ ".json")
    else Ok jsonld_path.

(** The body of the [try] in [extract_stakeholders_from_jsonld_metadata]
    for a file name that is a string. *)
Definition extraction_body (w : World) (filename : string) (jsonld_dir : pyval)
  : Res pyval :=
  jsonld_path ← resolve_jsonld_path w filename jsonld_dir;
  if negb (path_exists w jsonld_path)
  then
    _ ← listdir_for_log w (effective_jsonld_dir w jsonld_dir);
    generate_error_result w (PStr filename) ("JSON-LD file not found: " ++ jsonld_path)
  else
    metadata ← load_json_file w jsonld_path;
    document_content ← extract_document_content_from_metadata w metadata;
    document_structure ← extract_document_structure_from_metadata w metadata;
    paragraphs ← py_get document_structure "paragraphs" (PList []);
    _ ← py_len paragraphs;
    stakeholders ← perform_stakeholder_extraction w document_content document_structure
                     filename metadata;
    create_extraction_result w stakeholders filename metadata.

(** [filename] is whatever the caller passed.  The first statement of the
    [try] that uses it is [os.path.join(jsonld_dir, filename)] on line 32,
    which raises [TypeError] unless it is a string; nothing before it can
    raise.  The handler calls [generate_error_result] outside any [try], so
    an exception of that call leaves the function. *)
Definition extract_stakeholders_from_jsonld_metadata (w : World) (filename : pyval)
  (jsonld_dir : pyval) : Res pyval :=
  try_except
    (match filename with
     | PStr name => extraction_body w name jsonld_dir
     | _ => Raise "join() argument must be str, bytes, or os.PathLike object"
     end)
    (fun e => generate_error_result w filename e).

Definition extract_stakeholders_enhanced (w : World) (filename : pyval)
  (jsonld_dir : pyval) : Res pyval :=
  extract_stakeholders_from_jsonld_metadata w filename jsonld_dir.

End Bridge.

(** ** [data_extraction_agent.py]: strategy and model selection, cost, statistics *)

Module Agent.

Record ExtractionResult : Type := {
  stakeholders : list pyval;
  metadata : pyval;
  success : bool;
  strategy_used : string;
  model_used : string;
  processing_time : PrimFloat.float;
  extraction_confidence : PrimFloat.float;
  cost_estimate : PrimFloat.float;
  errors : option (list string)
}.

Record PerformanceStats : Type := {
  total_extractions : Z;
  successful_extractions : Z;
  strategy_usage : gmap string Z;
  model_usage : gmap string Z;
  total_cost : PrimFloat.float;
  average_processing_time : PrimFloat.float
}.

(** The agent object.  [model_strategies] is
    [agent_config["model_strategies"]] of [configs/agents.yaml] (strategy
    name to its [applicable_models], in file order) and [fallback_chain] is
    [agent_config["strategy_selection"]["fallback_chain"]]; the YAML file is
    not part of the sources, so both are left as fields of the agent. *)
Record DataExtractionAgent : Type := {
  model_strategies : list (string * list string);
  fallback_chain : list string;
  schemas : list (string * pyval);
  performance_stats : PerformanceStats;
  model_availability : gmap string bool
}.

Definition gpt4o : string := "gpt-4o".
Definition deepseek : string := "deepseek/DeepSeek-V3-0324".
Definition llama : string := "llama3.1:8b-instruct-q8_0".

(** [self.model_availability.get(m, False)] *)
Definition available (self : DataExtractionAgent) (m : string) : bool :=
  default false (model_availability self !! m).

Definition str_in (x : string) (l : list string) : bool := existsb (String.eqb x) l.

(** [if model:] for an optional string argument. *)
Definition given (o : option string) : option string :=
  match o with
  | Some s => if String.eqb s "" then None else Some s
  | None => None
  end.

Definition _select_strategy (self : DataExtractionAgent) (priority : string)
  (model : option string) : string :=
  if String.eqb priority "quality" && available self gpt4o then "native_structured"
  else if String.eqb priority "privacy" && available self llama then "ollama_structured"
  else if str_in priority ["cost"; "speed"] && available self llama then "ollama_structured"
  else if available self deepseek then "json_mode_guided"
  else if available self gpt4o then "native_structured"
  else
    match given model with
    | Some m =>
        match List.find (fun sc => str_in m (snd sc) && available self m)
                        (model_strategies self) with
        | Some (strategy_name, _) => strategy_name
        | None => "guided_json_prompting"
        end
    | None => "guided_json_prompting"
    end.

Definition _select_model (self : DataExtractionAgent) (strategy priority : string)
  : Res string :=
  match assoc strategy (model_strategies self) with
  | None => Raise ("'" ++ strategy ++ "'")
  | Some applicable_models =>
      let available_models := List.filter (available self) applicable_models in
      match available_models with
      | [] => Raise ("No available models for strategy: " ++ strategy)
      | first :: _ =>
          if String.eqb priority "cost" && str_in llama available_models then Ok llama
          else if String.eqb priority "quality" && str_in "openai/gpt-4o" available_models
               then Ok "openai/gpt-4o"
          else if String.eqb priority "speed" && str_in deepseek available_models
               then Ok deepseek
          else if String.eqb priority "privacy" && str_in llama available_models
               then Ok llama
          else Ok first
      end
  end.

(** The first two statements of [extract_stakeholders]:
    [selected_strategy = strategy or self._select_strategy(priority, model)]
    [selected_model = model or self._select_model(selected_strategy, priority)] *)
Definition select (self : DataExtractionAgent) (priority : string)
  (strategy model : option string) : Res (string * string) :=
  let selected_strategy :=
    match given strategy with
    | Some s => s
    | None => _select_strategy self priority model
    end in
  selected_model ←
    match given model with
    | Some m => Ok m
    | None => _select_model self selected_strategy priority
    end;
  Ok (selected_strategy, selected_model).

Section Cost.
(** Python's [str] on the list of stakeholders. *)
Variable py_str : list pyval -> string.

Definition _calculate_cost (model content : string) (result : ExtractionResult)
  : Res PrimFloat.float :=
  if contains "llama" (lower model) || contains "ollama" (lower model)
  then Ok PrimFloat.zero
  else
    words ← float_of_int (Z.of_nat (count_words content));
    let input_tokens := PrimFloat.mul words (float_lit 13 10) in
    chars ← float_of_int (Z.of_nat (String.length (py_str (stakeholders result))));
    let output_tokens := PrimFloat.mul chars (float_lit 13 10) in
    million ← float_of_int 1000000;
    if contains "gpt-4o" model
    then Ok (PrimFloat.add
               (PrimFloat.div (PrimFloat.mul input_tokens (float_lit 25 10)) million)
               (PrimFloat.div (PrimFloat.mul output_tokens (float_lit 10 1)) million))
    else if contains "deepseek" (lower model)
    then Ok (PrimFloat.add
               (PrimFloat.div (PrimFloat.mul input_tokens (float_lit 27 100)) million)
               (PrimFloat.div (PrimFloat.mul output_tokens (float_lit 11 10)) million))
    else Ok PrimFloat.zero.
End Cost.

Definition bump (k : string) (usage : gmap string Z) : gmap string Z :=
  <[k := default 0%Z (usage !! k) + 1]> usage.

(** Line 538: [((current_avg * (total - 1)) + result.processing_time) / total]
    in binary64 arithmetic, every operation rounded; the two [int] operands
    are converted first, and a float division by zero raises. *)
Definition new_average (current_avg : PrimFloat.float) (total : Z)
  (processing_time : PrimFloat.float) : Res PrimFloat.float :=
  before ← float_of_int (total - 1);
  let sum := PrimFloat.add (PrimFloat.mul current_avg before) processing_time in
  divisor ← float_of_int total;
  if total =? 0 then Raise "float division by zero"
  else Ok (PrimFloat.div sum divisor).

(** The statistics as a call of [_update_performance_stats] leaves them.
    The counters, the total cost and the usage tables are updated on lines
    517-533; when line 538 raises, they stay updated and the average keeps
    its value. *)
Definition record_result (result : ExtractionResult) (st : PerformanceStats)
  : PerformanceStats :=
  let total := total_extractions st + 1 in
  {| total_extractions := total;
     successful_extractions :=
       if success result then successful_extractions st + 1 else successful_extractions st;
     strategy_usage := bump (strategy_used result) (strategy_usage st);
     model_usage := bump (model_used result) (model_usage st);
     total_cost := PrimFloat.add (total_cost st) (cost_estimate result);
     average_processing_time :=
       match new_average (average_processing_time st) total (processing_time result) with
       | Ok new_avg => new_avg
       | Raise _ => average_processing_time st
       end |}.

Definition _update_performance_stats (self : DataExtractionAgent)
  (result : ExtractionResult) : DataExtractionAgent :=
  {| model_strategies := model_strategies self;
     fallback_chain := fallback_chain self;
     schemas := schemas self;
     performance_stats := record_result result (performance_stats self);
     model_availability := model_availability self |}.

End Agent.

(** ** [extraction_utils.py] and [persistent_jobs.py]: jobs and their store *)

Module Jobs.

(** [filename] and [priority] hold whatever the request gave (any JSON
    value): [start_extraction] only tests the file name for truth. *)
Record ExtractionJob : Type := {
  job_id : string;
  filename : pyval;
  priority : pyval;
  options : list (string * pyval);
  status : string;
  progress : Z;
  current_step : string;
  substep : string;
  start_time : Q;
  model_used : option string;
  cost_estimate : Q;
  results : option pyval;
  error : option string
}.

(** [ExtractionJob.__init__]; [now] is [time.time()]. *)
Definition new_job (now : Q) (job_id : string) (filename priority : pyval)
  (options : list (string * pyval)) : ExtractionJob :=
  {| job_id := job_id; filename := filename; priority := priority; options := options;
     status := "pending"; progress := 0; current_step := "Initializing...";
     substep := ""; start_time := now; model_used := None; cost_estimate := 0%Q;
     results := None; error := None |}.

(** Attribute assignments [job.<attr> = v]. *)
Definition set_status (v : string) (j : ExtractionJob) : ExtractionJob :=
  {| job_id := job_id j; filename := filename j; priority := priority j;
     options := options j; status := v; progress := progress j;
     current_step := current_step j; substep := substep j; start_time := start_time j;
     model_used := model_used j; cost_estimate := cost_estimate j;
     results := results j; error := error j |}.

Definition set_progress (v : Z) (j : ExtractionJob) : ExtractionJob :=
  {| job_id := job_id j; filename := filename j; priority := priority j;
     options := options j; status := status j; progress := v;
     current_step := current_step j; substep := substep j; start_time := start_time j;
     model_used := model_used j; cost_estimate := cost_estimate j;
     results := results j; error := error j |}.

Definition set_current_step (v : string) (j : ExtractionJob) : ExtractionJob :=
  {| job_id := job_id j; filename := filename j; priority := priority j;
     options := options j; status := status j; progress := progress j;
     current_step := v; substep := substep j; start_time := start_time j;
     model_used := model_used j; cost_estimate := cost_estimate j;
     results := results j; error := error j |}.

Definition set_substep (v : string) (j : ExtractionJob) : ExtractionJob :=
  {| job_id := job_id j; filename := filename j; priority := priority j;
     options := options j; status := status j; progress := progress j;
     current_step := current_step j; substep := v; start_time := start_time j;
     model_used := model_used j; cost_estimate := cost_estimate j;
     results := results j; error := error j |}.

Definition set_start_time (v : Q) (j : ExtractionJob) : ExtractionJob :=
  {| job_id := job_id j; filename := filename j; priority := priority j;
     options := options j; status := status j; progress := progress j;
     current_step := current_step j; substep := substep j; start_time := v;
     model_used := model_used j; cost_estimate := cost_estimate j;
     results := results j; error := error j |}.

Definition set_model_used (v : option string) (j : ExtractionJob) : ExtractionJob :=
  {| job_id := job_id j; filename := filename j; priority := priority j;
     options := options j; status := status j; progress := progress j;
     current_step := current_step j; substep := substep j; start_time := start_time j;
     model_used := v; cost_estimate := cost_estimate j;
     results := results j; error := error j |}.

Definition set_cost_estimate (v : Q) (j : ExtractionJob) : ExtractionJob :=
  {| job_id := job_id j; filename := filename j; priority := priority j;
     options := options j; status := status j; progress := progress j;
     current_step := current_step j; substep := substep j; start_time := start_time j;
     model_used := model_used j; cost_estimate := v;
     results := results j; error := error j |}.

Definition set_results (v : option pyval) (j : ExtractionJob) : ExtractionJob :=
  {| job_id := job_id j; filename := filename j; priority := priority j;
     options := options j; status := status j; progress := progress j;
     current_step := current_step j; substep := substep j; start_time := start_time j;
     model_used := model_used j; cost_estimate := cost_estimate j;
     results := v; error := error j |}.

Definition set_error (v : option string) (j : ExtractionJob) : ExtractionJob :=
  {| job_id := job_id j; filename := filename j; priority := priority j;
     options := options j; status := status j; progress := progress j;
     current_step := current_step j; substep := substep j; start_time := start_time j;
     model_used := model_used j; cost_estimate := cost_estimate j;
     results := results j; error := v |}.

(** *** The persistent store *)

(** The dictionary [job_data] that [save_job] dumps and [load_job] returns.
    A field is [None] when the key is missing from the file (for
    [model_used], [results] and [error] also when its value is [null]). *)
Record JobData : Type := {
  jd_job_id : option string;
  jd_filename : option pyval;
  jd_priority : option pyval;
  jd_options : option (list (string * pyval));
  jd_status : option string;
  jd_progress : option Z;
  jd_current_step : option string;
  jd_substep : option string;
  jd_start_time : option Q;
  jd_model_used : option string;
  jd_cost_estimate : option Q;
  jd_results : option pyval;
  jd_error : option string
}.

(** [job_data = {'job_id': job.job_id, ...}] in [save_job]. *)
Definition job_data_of (job : ExtractionJob) : JobData :=
  {| jd_job_id := Some (job_id job);
     jd_filename := Some (filename job);
     jd_priority := Some (priority job);
     jd_options := Some (options job);
     jd_status := Some (status job);
     jd_progress := Some (progress job);
     jd_current_step := Some (current_step job);
     jd_substep := Some (substep job);
     jd_start_time := Some (start_time job);
     jd_model_used := model_used job;
     jd_cost_estimate := Some (cost_estimate job);
     jd_results := results job;
     jd_error := error job |}.

(** What a file of the storage directory holds: a complete JSON document,
    or text that is not one (the file was opened with mode ['w'], which
    truncates it, and the dump has not finished). *)
Inductive file_content : Type :=
| Json (d : JobData)
| Torn.

(** [self.storage_dir / f"{job_id}.json"], relative to the storage directory. *)
Definition job_file (job_id : string) : string := job_id ++ ".json".

(** How the two file operations of [save_job] end. *)
Inductive write_outcome : Type :=
| WriteOk
| OpenFails
| DumpFails.

(** The states of the storage directory that [save_job] goes through, one
    per file-system effect, in order:
    [open(job_file, 'w')] truncates [job_file] itself, then [json.dump]
    fills it.  No other path is created, written or renamed. *)
Definition save_job_steps (o : write_outcome) (job : ExtractionJob)
  (store : gmap string file_content) : list (gmap string file_content) :=
  match o with
  | OpenFails => []
  | DumpFails => [<[job_file (job_id job) := Torn]> store]
  | WriteOk => [<[job_file (job_id job) := Torn]> store;
                <[job_file (job_id job) := Json (job_data_of job)]> store]
  end.

(** [save_job]: the store it leaves and the boolean it returns. *)
Definition save_job (o : write_outcome) (job : ExtractionJob)
  (store : gmap string file_content) : gmap string file_content * bool :=
  (List.last (save_job_steps o job store) store,
   match o with WriteOk => true | _ => false end).

(** [load_job]: [None] when the file does not exist or [json.load] raises. *)
Definition load_job (store : gmap string file_content) (job_id : string)
  : option JobData :=
  match store !! job_file job_id with
  | Some (Json d) => Some d
  | Some Torn => None
  | None => None
  end.

(** *** Priority tables *)

(** Each table is a dict literal looked up with [.get(priority, default)];
    the priority is whatever the job holds. *)
Definition get_estimated_duration (priority : pyval) : Res Z :=
  dict_get [("cost", 240); ("quality", 90); ("speed", 45); ("privacy", 240)]
           priority 120.

Definition get_model_for_priority (priority : pyval) : Res string :=
  dict_get [("cost", "Local Llama 3.1 8B");
            ("quality", "GPT-4o");
            ("speed", "DeepSeek-V3");
            ("privacy", "Local Llama 3.1 8B")]
           priority "Unknown".

Definition calculate_extraction_cost (job : ExtractionJob) : Res Q :=
  dict_get [("cost", 0%Q);
            ("quality", 8 # 1000);
            ("speed", 2 # 1000);
            ("privacy", 0%Q)]
           (priority job) 0%Q.

(** Lines 204-209: the sleep time of one step of the progress loop. *)
Definition sleep_time (priority : pyval) : Res Q :=
  dict_get [("cost", 15 # 10); ("quality", 1%Q); ("speed", 5 # 10); ("privacy", 15 # 10)]
           priority 1%Q.

(** *** Running a job

    A job object is shared between the worker that runs it and the readers
    that poll it, and it is written to the store by [save].  A run is
    therefore described by the sequence of its observable events: [Mem j]
    after each statement that changes the object, [Saved j] for each call of
    [save_job] with the object in state [j]. *)

Inductive event : Type :=
| Mem (j : ExtractionJob)
| Saved (j : ExtractionJob).

Definition ev_job (e : event) : ExtractionJob :=
  match e with Mem j => j | Saved j => j end.

Record outcome (A : Type) : Type := {
  trace : list event;
  final : ExtractionJob;
  result : Res A
}.
Arguments trace {A} o.
Arguments final {A} o.
Arguments result {A} o.

(** Statements: they read and change the job, emit events, and may raise. *)
Definition M (A : Type) : Type := ExtractionJob -> outcome A.

#[export] Instance M_ret : MRet M := fun A a j =>
  {| trace := []; final := j; result := Ok a |}.

#[export] Instance M_bind : MBind M := fun A B k c j =>
  match c j with
  | {| trace := t; final := j'; result := Ok a |} =>
      match k a j' with
      | {| trace := t'; final := j''; result := r |} =>
          {| trace := t ++ t'; final := j''; result := r |}
      end
  | {| trace := t; final := j'; result := Raise e |} =>
      {| trace := t; final := j'; result := Raise e |}
  end.

Definition get : M ExtractionJob := fun j =>
  {| trace := []; final := j; result := Ok j |}.

Definition assign (f : ExtractionJob -> ExtractionJob) : M unit := fun j =>
  {| trace := [Mem (f j)]; final := f j; result := Ok tt |}.

(** [job.save()]: [save_job] catches its own exceptions, so this never raises. *)
Definition save : M unit := fun j =>
  {| trace := [Saved j]; final := j; result := Ok tt |}.

Definition lift {A} (r : Res A) : M A := fun j =>
  {| trace := []; final := j; result := r |}.

Definition try_exceptM (body : M unit) (handler : exn -> M unit) : M unit := fun j =>
  match body j with
  | {| trace := t; final := j'; result := Ok a |} =>
      {| trace := t; final := j'; result := Ok a |}
  | {| trace := t; final := j'; result := Raise e |} =>
      match handler e j' with
      | {| trace := t'; final := j''; result := r |} =>
          {| trace := t ++ t'; final := j''; result := r |}
      end
  end.

Fixpoint for_each {A} (l : list A) (body : A -> M unit) : M unit :=
  match l with
  | [] => mret tt
  | x :: l' => body x ;; for_each l' body
  end.

(** Keyword arguments of [update_status].  [kw_other key] is a key for
    which [hasattr(self, key)] is false. *)
Inductive kwarg : Type :=
| kw_progress (v : Z)
| kw_current_step (v : string)
| kw_substep (v : string)
| kw_start_time (v : Q)
| kw_model_used (v : option string)
| kw_cost_estimate (v : Q)
| kw_results (v : option pyval)
| kw_error (v : option string)
| kw_other (key : string).

Definition setattr (j : ExtractionJob) (kw : kwarg) : ExtractionJob :=
  match kw with
  | kw_progress v => set_progress v j
  | kw_current_step v => set_current_step v j
  | kw_substep v => set_substep v j
  | kw_start_time v => set_start_time v j
  | kw_model_used v => set_model_used v j
  | kw_cost_estimate v => set_cost_estimate v j
  | kw_results v => set_results v j
  | kw_error v => set_error v j
  | kw_other _ => j
  end.

(** [hasattr(self, key)] *)
Definition hasattr (kw : kwarg) : bool :=
  match kw with
  | kw_other _ => false
  | _ => true
  end.

(** [ExtractionJob.update_status]: no test of the current status.  The
    status is assigned first, then the keyword arguments one by one in
    their order, then the job is saved; each assignment changes the shared
    job object at once. *)
Definition update_status (status : string) (kwargs : list kwarg) : M unit :=
  assign (set_status status) ;;
  for_each kwargs (fun kw =>
    if hasattr kw then assign (fun j => setattr j kw) else mret tt) ;;
  save.

(** What [run_extraction_job] reads from outside the job.
    [current_app_dir] is [current_app.config.get('APP_DIR', <the directory
    of model_utils.py>)] in [find_source_file]: the access to [current_app]
    raises [RuntimeError] on a thread without an application context.
    [import_metadata_tools] stands for the imports on lines 400-402 of
    [agent_api.py], [build_document_metadata] for lines 412-418
    ([get_file_metadata], [create_jsonld_document_metadata],
    [enhance_jsonld_with_structure]), which read the source file and the
    ontology. *)
Record World : Type := {
  bridge : Bridge.World;
  import_bridge : Res unit;
  utils_default_jsonld_dir : string;
  current_app_dir : Res pyval;
  file_exists : string -> bool;
  import_metadata_tools : Res unit;
  build_document_metadata : string -> Res pyval;
  write_metadata_file : string -> pyval -> Res unit
}.

(** [model_utils.py], lines 62-68: the first of the directories that
    exists and holds the file. *)
Fixpoint search_dirs (w : World) (possible_dirs : list string) (filename : pyval)
  : Res pyval :=
  match possible_dirs with
  | [] => Ok PNone
  | dir_path :: rest =>
      if file_exists w dir_path
      then
        file_path ← path_join (PStr dir_path) filename;
        if file_exists w file_path then Ok (PStr file_path)
        else search_dirs w rest filename
      else search_dirs w rest filename
  end.

(** [find_source_file]: a path, or [None]; every exception is caught and
    gives [None]. *)
Definition find_source_file (w : World) (filename : pyval) : pyval :=
  match
    (app_dir ← current_app_dir w;
     triples_dir ← os_path_join_all app_dir [".."; "database"; "triples"];
     triples_path ← path_join (PStr triples_dir) filename;
     if file_exists w triples_path then Ok (PStr triples_path)
     else
       uploads ← os_path_join_all app_dir [".."; "uploads"];
       processed_files ← os_path_join_all app_dir [".."; "processed_files"];
       jsonld ← os_path_join_all app_dir [".."; "database"; "jsonld"];
       search_dirs w [uploads; processed_files; jsonld] filename)
  with
  | Ok found => found
  | Raise _ => PNone
  end.

(** [create_document_metadata_from_source] of [agent_api.py]: the document
    metadata, or [None]; every exception is caught and gives [None]. *)
Definition create_document_metadata_from_source (w : World) (filename : pyval) : pyval :=
  match
    (import_metadata_tools w ;;
     match find_source_file w filename with
     | PStr source_file_path =>
         if String.eqb source_file_path "" || negb (file_exists w source_file_path)
         then Ok PNone
         else build_document_metadata w source_file_path
     | _ => Ok PNone
     end)
  with
  | Ok document_metadata => document_metadata
  | Raise _ => PNone
  end.

Definition steps : list (string * string) :=
  [("📄 Document analysis complete", "Metadata and structure extracted");
   ("🔍 Initializing LLM adapter...", "Loading language model");
   ("🎯 Generating extraction prompt...", "Preparing AI analysis");
   ("🤖 AI processing document content...", "Extracting stakeholder information");
   ("🔍 Processing LLM response...", "Validating extracted stakeholders");
   ("💾 Integrating results...", "Merging with document metadata");
   ("✅ Finalizing output...", "Creating comprehensive JSON-LD")].

Fixpoint enumerate {A} (start : Z) (l : list A) : list (Z * A) :=
  match l with
  | [] => []
  | x :: l' => (start, x) :: enumerate (start + 1) l'
  end.

(** [int(20 + (i / total_steps) * 50)] *)
Definition step_progress (i total_steps : Z) : Z :=
  Qfloor (20 + (inject_Z i / inject_Z total_steps) * 50)%Q.

(** Lines 154-159: the directory given in the job's options, or else the
    default one.  [import os] is a statement of the branch that computes the
    default, which makes [os] a local name of [run_extraction_job]: it is
    bound only when the options give no directory. *)
Definition given_jsonld_dir (options : list (string * pyval)) : pyval :=
  default PNone (assoc "jsonld_dir" options).

Definition os_is_bound (options : list (string * pyval)) : bool :=
  negb (truthy (given_jsonld_dir options)).

Definition job_jsonld_dir (w : World) (options : list (string * pyval)) : pyval :=
  if truthy (given_jsonld_dir options) then given_jsonld_dir options
  else PStr (utils_default_jsonld_dir w).

(** Lines 169-171, for a file name that is a string. *)
Definition safe_filename (filename : string) : string :=
  let safe := replace (replace (replace filename " " "_") "/" "_") "\" "_" in
  if endswith safe ".json" then safe else safe ++ ".json".

(** Lines 169-173: [job.filename.replace] raises [AttributeError] unless
    the file name is a string; then [os.path.join] needs [os]. *)
Definition metadata_path (w : World) (options : list (string * pyval))
  (filename : pyval) : Res string :=
  match filename with
  | PStr name =>
      if os_is_bound options
      then os_path_join (job_jsonld_dir w options) (safe_filename name)
      else Raise "local variable 'os' referenced before assignment"
  | _ => Raise ("'" ++ type_name filename ++ "' object has no attribute 'replace'")
  end.

(** Lines 139-241, the body of the [try]. *)
Definition run_body (w : World) : M unit :=
  lift (import_bridge w) ;;
  update_status "running" [] ;;
  job ← get;
  model ← lift (get_model_for_priority (priority job));
  assign (set_model_used (Some model)) ;;
  save ;;
  assign (set_current_step "📄 Processing document metadata...") ;;
  assign (set_substep "Creating comprehensive document profile") ;;
  assign (set_progress 10) ;;
  save ;;
  let document_metadata := create_document_metadata_from_source w (filename job) in
  (if truthy document_metadata then
     path ← lift (metadata_path w (options job) (filename job));
     lift (write_metadata_file w path document_metadata) ;;
     assign (set_current_step "✅ Document metadata created") ;;
     assign (set_progress 20) ;;
     save
   else mret tt) ;;
  let total_steps := Z.of_nat (List.length steps) in
  for_each (enumerate 1 (List.tl steps)) (fun '(i, (step, sub)) =>
    assign (set_current_step step) ;;
    assign (set_substep sub) ;;
    assign (set_progress (step_progress i total_steps)) ;;
    save ;;
    lift (sleep_time (priority job)) ;;
    mret tt) ;;
  assign (set_current_step "🤖 AI extracting stakeholders...") ;;
  assign (set_substep "Deep analysis of document content") ;;
  assign (set_progress 70) ;;
  save ;;
  extracted ← lift (Bridge.extract_stakeholders_enhanced (bridge w) (filename job)
                      (job_jsonld_dir w (options job)));
  assign (set_results (Some extracted)) ;;
  assign (set_progress 90) ;;
  assign (set_current_step "🔗 Integrating with document metadata...") ;;
  assign (set_substep "Creating comprehensive document profile") ;;
  save ;;
  assign (set_progress 100) ;;
  assign (set_current_step "✅ Comprehensive extraction complete") ;;
  assign (set_substep "Document metadata + stakeholders ready") ;;
  update_status "complete" [] ;;
  job ← get;
  cost ← lift (calculate_extraction_cost job);
  assign (set_cost_estimate cost) ;;
  save ;;
  job ← get;
  lift (match results job with
        | Some r => found ← py_get r "stakeholders" (PList []); py_len found
        | None => Raise "'NoneType' object has no attribute 'get'"
        end) ;;
  mret tt.

(** Lines 243-248, the handler. *)
Definition run_handler (e : exn) : M unit :=
  update_status "error" [kw_error (Some e)] ;;
  assign (set_progress 0).

Definition run_extraction_job (w : World) : M unit :=
  try_exceptM (run_body w) run_handler.

End Jobs.

(** ** [agent_api.py]: the status read and the results read *)

Module Api.
Import Jobs.

(** [return jsonify(body), code] *)
Inductive response : Type :=
| Http (code : Z) (body : pyval).

(** What the two routes read from outside the registry: the clock, the
    storage directory, and [datetime.fromtimestamp(t).isoformat()]. *)
Record World : Type := {
  now : Q;
  store : gmap string file_content;
  isoformat : Q -> Res string
}.

(** [job_data[key]]: [KeyError] when the key is missing. *)
Definition getitem {A} (key : string) (field : option A) : Res A :=
  match field with
  | Some a => Ok a
  | None => Raise ("'" ++ key ++ "'")
  end.

Definition has_key {A} (field : option A) : bool :=
  match field with Some _ => true | None => false end.

(** [if job_data:] for a loaded dictionary: it has at least one key. *)
Definition nonempty (d : JobData) : bool :=
  has_key (jd_job_id d) || has_key (jd_filename d) || has_key (jd_priority d)
  || has_key (jd_options d) || has_key (jd_status d) || has_key (jd_progress d)
  || has_key (jd_current_step d) || has_key (jd_substep d)
  || has_key (jd_start_time d) || has_key (jd_model_used d)
  || has_key (jd_cost_estimate d) || has_key (jd_results d)
  || has_key (jd_error d).

(** Lines 171-187 of [get_extraction_status]: rebuild the job object. *)
Definition restore_job (w : World) (job_data : JobData) : Res ExtractionJob :=
  id ← getitem "job_id" (jd_job_id job_data);
  fn ← getitem "filename" (jd_filename job_data);
  pr ← getitem "priority" (jd_priority job_data);
  op ← getitem "options" (jd_options job_data);
  let job := new_job (now w) id fn pr op in
  Ok {| job_id := job_id job; filename := filename job; priority := priority job;
        options := options job;
        status := default "pending" (jd_status job_data);
        progress := default 0 (jd_progress job_data);
        current_step := default "Initializing..." (jd_current_step job_data);
        substep := default "" (jd_substep job_data);
        start_time := default (now w) (jd_start_time job_data);
        model_used := jd_model_used job_data;
        cost_estimate := default 0%Q (jd_cost_estimate job_data);
        results := jd_results job_data;
        error := jd_error job_data |}.

Definition opt_str (o : option string) : pyval :=
  match o with Some s => PStr s | None => PNone end.

Definition opt_val (o : option pyval) : pyval :=
  match o with Some v => v | None => PNone end.

Definition not_found : response := Http 404 (PDict [("error", PStr "Job not found")]).

Definition server_error (e : exn) : response := Http 500 (PDict [("error", PStr e)]).

(** Lines 195-212: the body of the status response. *)
Definition status_response (w : World) (extraction_jobs : list (string * ExtractionJob))
  (id : string) (job : ExtractionJob) : response :=
  let fields := [
    ("job_id", PStr id);
    ("status", PStr (status job));
    ("progress", PInt (progress job));
    ("current_step", PStr (current_step job));
    ("substep", PStr (substep job));
    ("elapsed_time", PFloat (now w - start_time job)%Q);
    ("model_used", opt_str (model_used job));
    ("cost_estimate", PFloat (cost_estimate job));
    ("restored_from_persistence",
       PBool (negb (Agent.str_in id (List.map fst (List.firstn 1 extraction_jobs)))))] in
  let fields :=
    if String.eqb (status job) "complete" && truthy (opt_val (results job))
    then (fields ++ [("results", opt_val (results job))])%list
    else if String.eqb (status job) "error" && truthy (opt_str (error job))
    then (fields ++ [("error", opt_str (error job))])%list
    else fields in
  Http 200 (PDict fields).

(** [GET /extract/<job_id>/status]: the response and the registry it leaves. *)
Definition get_extraction_status (w : World)
  (extraction_jobs : list (string * ExtractionJob)) (id : string)
  : response * list (string * ExtractionJob) :=
  match assoc id extraction_jobs with
  | Some job => (status_response w extraction_jobs id job, extraction_jobs)
  | None =>
      match load_job (store w) id with
      | Some job_data =>
          if nonempty job_data then
            match restore_job w job_data with
            | Ok job =>
                let extraction_jobs := assoc_set id job extraction_jobs in
                (status_response w extraction_jobs id job, extraction_jobs)
            | Raise e => (server_error e, extraction_jobs)
            end
          else (not_found, extraction_jobs)
      | None => (not_found, extraction_jobs)
      end
  end.

(** [GET /extract/<job_id>/results]: only the registry is consulted. *)
Definition get_extraction_results (w : World)
  (extraction_jobs : list (string * ExtractionJob)) (id : string)
  : response * list (string * ExtractionJob) :=
  match assoc id extraction_jobs with
  | None => (not_found, extraction_jobs)
  | Some job =>
      if negb (String.eqb (status job) "complete")
      then (Http 400 (PDict [("error", PStr "Job not completed")]), extraction_jobs)
      else
        match isoformat w (start_time job) with
        | Raise e => (server_error e, extraction_jobs)
        | Ok stamp =>
            (Http 200 (PDict [
               ("job_id", PStr id);
               ("filename", filename job);
               ("results", opt_val (results job));
               ("metadata", PDict [
                  ("priority", priority job);
                  ("model_used", opt_str (model_used job));
                  ("processing_time", PFloat (now w - start_time job)%Q);
                  ("cost_estimate", PFloat (cost_estimate job));
                  ("extraction_timestamp", PStr stamp)])]),
             extraction_jobs)
        end
  end.

End Api.

(** ** Concrete inputs used by the examples *)

Module Examples.

(** A configuration with the four strategies that [extract_stakeholders]
    dispatches on, each with the model its extraction method talks to. *)
Definition strategies : list (string * list string) :=
  [("native_structured", ["gpt-4o"]);
   ("json_mode_guided", ["deepseek/DeepSeek-V3-0324"]);
   ("ollama_structured", ["llama3.1:8b-instruct-q8_0"]);
   ("guided_json_prompting", ["llama3.1:8b-instruct-q8_0"])].

Definition no_stats : Agent.PerformanceStats :=
  {| Agent.total_extractions := 0; Agent.successful_extractions := 0;
     Agent.strategy_usage := ∅; Agent.model_usage := ∅;
     Agent.total_cost := PrimFloat.zero;
     Agent.average_processing_time := PrimFloat.zero |}.

Definition agent_with (availability : gmap string bool) : Agent.DataExtractionAgent :=
  {| Agent.model_strategies := strategies;
     Agent.fallback_chain := ["guided_json_prompting"];
     Agent.schemas := [];
     Agent.performance_stats := no_stats;
     Agent.model_availability := availability |}.

(** Only the local model answers. *)
Definition local_only : Agent.DataExtractionAgent :=
  agent_with (<[Agent.gpt4o := false]> (<[Agent.deepseek := false]>
              (<[Agent.llama := true]> ∅))).

(** Only the remote endpoint answers. *)
Definition remote_only : Agent.DataExtractionAgent :=
  agent_with (<[Agent.gpt4o := true]> (<[Agent.deepseek := true]>
              (<[Agent.llama := false]> ∅))).

Definition one_result : Agent.ExtractionResult :=
  {| Agent.stakeholders := [];
     Agent.metadata := PDict [];
     Agent.success := true;
     Agent.strategy_used := "ollama_structured";
     Agent.model_used := Agent.llama;
     Agent.processing_time := float_lit 2 1;
     Agent.extraction_confidence := float_lit 8 10;
     Agent.cost_estimate := PrimFloat.zero;
     Agent.errors := None |}.

End Examples.

(** ** Notions used in the statements *)

(** The strategy that privacy falls through to when the local model does
    not answer: the branches of [_select_strategy] that test no priority. *)
Definition privacy_without_local (self : Agent.DataExtractionAgent) : string :=
  if Agent.available self Agent.deepseek then "json_mode_guided"
  else if Agent.available self Agent.gpt4o then "native_structured"
  else "guided_json_prompting".

(** The result dictionary has the shape of [generate_error_result]: no
    stakeholders, and a summary that flags the error. *)
Definition error_shaped (r : pyval) : Prop :=
  py_get r "stakeholders" PNone = Ok (PList []) ∧
  (summary ← py_get r "extractionSummary" PNone; py_get summary "error" PNone)
    = Ok (PBool true).

(** The metadata file was not found, or the body of the [try] raised (for
    a file name that is a string). *)
Definition extraction_failed (w : Bridge.World) (filename : string) (jsonld_dir : pyval)
  : bool :=
  match Bridge.extraction_body w filename jsonld_dir with
  | Raise _ => true
  | Ok _ =>
      match Bridge.resolve_jsonld_path w filename jsonld_dir with
      | Ok jsonld_path => negb (Bridge.path_exists w jsonld_path)
      | Raise _ => true
      end
  end.

(** What C4 asks of a save: every state of the storage directory that the
    save goes through shows a reader either the version that was there
    before or the complete new one. *)
Definition atomic_replace (o : Jobs.write_outcome) (job : Jobs.ExtractionJob)
  (store : gmap string Jobs.file_content) : Prop :=
  Forall (fun s =>
            Jobs.load_job s (Jobs.job_id job) = Jobs.load_job store (Jobs.job_id job) ∨
            Jobs.load_job s (Jobs.job_id job) = Some (Jobs.job_data_of job))
         (Jobs.save_job_steps o job store).

(** *** Notions about jobs and runs *)







(** The job states that a run, started on [job], makes observable in
    memory: the job object after each assignment. *)
Definition observed (job : Jobs.ExtractionJob) (o : Jobs.outcome unit)
  : list Jobs.ExtractionJob :=
  job :: List.map Jobs.ev_job (Jobs.trace o).

(** The job states that a run writes to the store, in order. *)
Definition saved_states (o : Jobs.outcome unit) : list Jobs.ExtractionJob :=
  List.flat_map (fun e => match e with Jobs.Saved j => [j] | Jobs.Mem _ => [] end)
                (Jobs.trace o).

(** The state of the last [save_job] call of a run. *)
Definition last_saved (o : Jobs.outcome unit) : option Jobs.ExtractionJob :=
  List.fold_left (fun acc e => match e with Jobs.Saved j => Some j | Jobs.Mem _ => acc end)
                 (Jobs.trace o) None.

(** The status changes of the state machine: pending to running, running
    to complete, and a failure from either of them; or no change. *)
Definition legal_step (s s' : string) : bool :=
  String.eqb s s'
  || (String.eqb s "pending" && (String.eqb s' "running" || String.eqb s' "error"))
  || (String.eqb s "running" && (String.eqb s' "complete" || String.eqb s' "error")).

Fixpoint legal_steps (s : string) (l : list Jobs.ExtractionJob) : bool :=
  match l with
  | [] => true
  | j :: l' => legal_step s (Jobs.status j) && legal_steps (Jobs.status j) l'
  end.

(** The value is the string [s]. *)
Definition str_is (v : pyval) (s : string) : bool :=
  match v with
  | PStr k => String.eqb k s
  | _ => false
  end.

(** The statements of [run_extraction_job] that can raise before the
    extraction starts: the import of the bridge, the lookup of the model
    for the priority and, when there is document metadata, the path of its
    file and the writing of it. *)
Definition preparation (w : Jobs.World) (job : Jobs.ExtractionJob) : Res unit :=
  Jobs.import_bridge w ;;
  Jobs.get_model_for_priority (Jobs.priority job) ;;
  let document_metadata :=
    Jobs.create_document_metadata_from_source w (Jobs.filename job) in
  if truthy document_metadata then
    path ← Jobs.metadata_path w (Jobs.options job) (Jobs.filename job);
    Jobs.write_metadata_file w path document_metadata
  else Ok tt.

(** The first exception inside the [try] of [run_extraction_job], if any:
    one of the preparation, or one of the extraction. *)
Definition run_failure (w : Jobs.World) (job : Jobs.ExtractionJob) : Res unit :=
  preparation w job ;;
  Bridge.extract_stakeholders_enhanced (Jobs.bridge w) (Jobs.filename job)
    (Jobs.job_jsonld_dir w (Jobs.options job)) ;;
  Ok tt.



(** The invariant of a run as a test on a job state. *)
Definition run_invariant_b (j : Jobs.ExtractionJob) : bool :=
  let r := Api.has_key (Jobs.results j) in
  let e := Api.has_key (Jobs.error j) in
  if String.eqb (Jobs.status j) "complete" then r && negb e
  else if String.eqb (Jobs.status j) "error" then e && negb r
  else if String.eqb (Jobs.status j) "pending" then negb r && negb e
  else if String.eqb (Jobs.status j) "running" then negb e
  else true.

Definition error_not_yet_set_b (j : Jobs.ExtractionJob) : bool :=
  String.eqb (Jobs.status j) "error"
  && negb (Api.has_key (Jobs.error j)) && negb (Api.has_key (Jobs.results j)).


(** What holds of every run of [run_extraction_job] on a new job. *)
Definition run_facts (w : Jobs.World) (job : Jobs.ExtractionJob) : Prop :=
  let o := Jobs.run_extraction_job w job in
  forallb run_invariant_b (saved_states o) = true ∧
  forallb (fun j => run_invariant_b j || error_not_yet_set_b j) (observed job o) = true ∧
  run_invariant_b (Jobs.final o) = true ∧
  legal_steps "pending" (observed job o) = true ∧
  List.last (observed job o) job = Jobs.final o ∧
  match run_failure w job with
  | Ok _ =>
      Jobs.status (Jobs.final o) = "complete" ∧
      Jobs.error (Jobs.final o) = None ∧
      is_Some (Jobs.results (Jobs.final o)) ∧
      Jobs.calculate_extraction_cost job = Ok (Jobs.cost_estimate (Jobs.final o)) ∧
      (Some <$> Jobs.get_model_for_priority (Jobs.priority job))
        = Ok (Jobs.model_used (Jobs.final o)) ∧
      (Jobs.error <$> last_saved o) = Some None
  | Raise e =>
      Jobs.status (Jobs.final o) = "error" ∧
      Jobs.error (Jobs.final o) = Some e ∧
      Jobs.results (Jobs.final o) = None ∧
      (Jobs.error <$> last_saved o) = Some (Some e) ∧
      existsb error_not_yet_set_b (observed job o) = true
  end.

(** ** Scenarios *)

Module Scenario.

(** The metadata file of the document exists and loads; the three LLM
    adapters all fail; pattern matching finds nothing. *)
Definition adapters_down : Bridge.World :=
  {| Bridge.default_jsonld_dir := "/srv/docex/database/jsonld";
     Bridge.path_exists := fun p => String.eqb p "/srv/docex/database/jsonld/report.json";
     Bridge.listdir_for_log := fun _ => Ok tt;
     Bridge.load_json_file := fun _ =>
       Ok (PDict [("dcterms:publisher", PStr "City Council")]);
     Bridge.now_isoformat := "2025-03-01T10:00:00";
     Bridge.extract_document_content_from_metadata := fun _ =>
       Ok "The council met the residents.";
     Bridge.extract_document_structure_from_metadata := fun _ =>
       Ok (PDict [("paragraphs", PList []); ("sentences", PList []);
                  ("word_count", PInt 0); ("paragraph_count", PInt 0)]);
     Bridge.enhanced_pattern_extraction := fun _ _ _ => Ok [];
     Bridge.agent_candidate := fun _ _ => Raise "All extraction strategies failed";
     Bridge.structured_adapter_candidate := fun _ _ => Raise "No module named 'app.config'";
     Bridge.local_llama_candidate := fun _ _ => Raise "Connection refused";
     Bridge.list_of_set := fun l => Ok l |}.

Definition llama_stakeholder : pyval :=
  PDict [("@type", PStr "Stakeholder");
         ("@id", PStr "stakeholder_llm_1_city_council");
         ("name", PStr "City Council");
         ("stakeholderType", PStr "ORGANIZATIONAL");
         ("role", PStr "Stakeholder");
         ("confidenceScore", PFloat (8 # 10));
         ("extractionMethod", PStr "llm-based");
         ("sourceText", PStr "Local Llama extracted: City Council");
         ("organization", PStr "Unknown")].

(** As [adapters_down], but the third adapter, the local Llama client
    called directly, succeeds. *)
Definition local_llama_answers : Bridge.World :=
  {| Bridge.default_jsonld_dir := Bridge.default_jsonld_dir adapters_down;
     Bridge.path_exists := Bridge.path_exists adapters_down;
     Bridge.listdir_for_log := Bridge.listdir_for_log adapters_down;
     Bridge.load_json_file := Bridge.load_json_file adapters_down;
     Bridge.now_isoformat := Bridge.now_isoformat adapters_down;
     Bridge.extract_document_content_from_metadata :=
       Bridge.extract_document_content_from_metadata adapters_down;
     Bridge.extract_document_structure_from_metadata :=
       Bridge.extract_document_structure_from_metadata adapters_down;
     Bridge.enhanced_pattern_extraction := Bridge.enhanced_pattern_extraction adapters_down;
     Bridge.agent_candidate := Bridge.agent_candidate adapters_down;
     Bridge.structured_adapter_candidate :=
       Bridge.structured_adapter_candidate adapters_down;
     Bridge.local_llama_candidate := fun _ _ => Ok [llama_stakeholder];
     Bridge.list_of_set := Bridge.list_of_set adapters_down |}.

(** The thread of the executor, on which [start_extraction] has the job
    run: there is no application context, so the source document is not
    looked up and no metadata file is rewritten before the extraction. *)
Definition worker (b : Bridge.World) : Jobs.World :=
  {| Jobs.bridge := b;
     Jobs.import_bridge := Ok tt;
     Jobs.utils_default_jsonld_dir := "/srv/docex/database/jsonld";
     Jobs.current_app_dir := Raise "Working outside of application context.";
     Jobs.file_exists := fun _ => true;
     Jobs.import_metadata_tools := Ok tt;
     Jobs.build_document_metadata := fun _ =>
       Ok (PDict [("@type", PStr "Document"); ("dcterms:title", PStr "report")]);
     Jobs.write_metadata_file := fun _ _ => Ok tt |}.

(** The job that [start_extraction] creates for
    [{"filename": "report", "priority": "quality"}]. *)
Definition submitted : Jobs.ExtractionJob :=
  Jobs.new_job 1740823200 "extract_1_1740823200" (PStr "report") (PStr "quality")
    [("use_context", PBool true);
     ("detailed_output", PBool true);
     ("jsonld_dir", PStr "/srv/docex/database/jsonld")].

Definition finished : Jobs.ExtractionJob :=
  Jobs.final (Jobs.run_extraction_job (worker adapters_down) submitted).

(** A process whose registry is empty while the storage directory holds the
    file of the finished job. *)
Definition after_restart : Api.World :=
  {| Api.now := 1740823500;
     Api.store := {[ Jobs.job_file "extract_1_1740823200" := Jobs.Json (Jobs.job_data_of finished) ]};
     Api.isoformat := fun _ => Ok "2025-03-01T10:00:00" |}.

(** The storage directory after the first save of the submitted job. *)
Definition before_save : gmap string Jobs.file_content :=
  {[ Jobs.job_file "extract_1_1740823200" := Jobs.Json (Jobs.job_data_of submitted) ]}.

End Scenario.


(** ** [data_extraction_agent.py]: the availability probe *)

Module Probe.

(** [test_result.get("status") == "connected"] inside its [try]: a raised
    exception, a result that is not a dictionary, and any other status all
    count as not connected. *)
Definition is_connected (test_result : Res pyval) : bool :=
  match test_result with
  | Ok r =>
      match py_get r "status" PNone with
      | Ok (PStr s) => String.eqb s "connected"
      | _ => false
      end
  | Raise _ => false
  end.

(** [_test_model_availability]: [github] and [local] are what the two
    [test_connection()] calls give.  DeepSeek is not probed: it copies the
    entry of GPT-4o ("same endpoint"). *)
Definition _test_model_availability (self : Agent.DataExtractionAgent)
  (github local : Res pyval) : Agent.DataExtractionAgent :=
  let availability : gmap string bool := ∅ in
  let availability := <[Agent.gpt4o := is_connected github]> availability in
  let availability :=
    <[Agent.deepseek := default false (availability !! Agent.gpt4o)]> availability in
  let availability := <[Agent.llama := is_connected local]> availability in
  {| Agent.model_strategies := Agent.model_strategies self;
     Agent.fallback_chain := Agent.fallback_chain self;
     Agent.schemas := Agent.schemas self;
     Agent.performance_stats := Agent.performance_stats self;
     Agent.model_availability := availability |}.

End Probe.

(** ** [data_extraction_agent.py]: the performance statistics *)

Module Stats.

(** [self.performance_stats] as [__init__] sets it. *)
Definition initial : Agent.PerformanceStats :=
  {| Agent.total_extractions := 0;
     Agent.successful_extractions := 0;
     Agent.strategy_usage := ∅;
     Agent.model_usage := ∅;
     Agent.total_cost := PrimFloat.zero;
     Agent.average_processing_time := PrimFloat.zero |}.

(** The statistics after [_update_performance_stats] was called with each
    of [results], in order. *)
Definition record_all (results : list Agent.ExtractionResult)
  (st : Agent.PerformanceStats) : Agent.PerformanceStats :=
  List.fold_left (fun st r => Agent.record_result r st) results st.

(** The success rate that [get_performance_report] adds to a copy of the
    statistics: the quotient of the two counters, as the number that the
    division of the two integers denotes. *)
Definition success_rate (st : Agent.PerformanceStats) : Q :=
  if Agent.total_extractions st >? 0
  then (inject_Z (Agent.successful_extractions st)
        / inject_Z (Agent.total_extractions st))%Q
  else 0%Q.

(** Reference values for the statements. *)
Definition count_where (p : Agent.ExtractionResult → bool)
  (results : list Agent.ExtractionResult) : Z :=
  Z.of_nat (List.length (List.filter p results)).

(** The sum of a list of floats as a loop of [+=] computes it: from the
    left, every addition rounded. *)
Definition float_sum (xs : list PrimFloat.float) : PrimFloat.float :=
  List.fold_left PrimFloat.add xs PrimFloat.zero.

(** A successful result of the local model that took [seconds] and is
    estimated at [cost]. *)
Definition timed (seconds cost : PrimFloat.float) : Agent.ExtractionResult :=
  {| Agent.stakeholders := [];
     Agent.metadata := PDict [];
     Agent.success := true;
     Agent.strategy_used := "ollama_structured";
     Agent.model_used := Agent.llama;
     Agent.processing_time := seconds;
     Agent.extraction_confidence := float_lit 9 10;
     Agent.cost_estimate := cost;
     Agent.errors := None |}.

End Stats.

(** ** Notions used in the further statements *)

(** [os.path.join(a, b)] for two strings. *)
Definition posix_join (a b : string) : string :=
  if startswith b "/" then b
  else if String.eqb a "" || endswith a "/" then (a ++ b)%string
  else (a ++ "/" ++ b)%string.

(** The paths that [extract_stakeholders_from_jsonld_metadata] may look at
    for a file name, in the order in which it tries them. *)
Definition jsonld_candidates (dir filename : string) : list string :=
  (posix_join dir filename
   :: (if endswith filename ".json" then []
       else [posix_join dir (filename ++ ".json")%string]))
  ++ (if endswith filename ".ttl"
      then [posix_join dir (replace filename ".ttl" "" ++ ".json")%string]
      else []).

(** The entries of a result dictionary that the statements read. *)
Definition result_stakeholders (r : pyval) : Res pyval :=
  py_get r "stakeholders" PNone.

Definition result_total (r : pyval) : Res pyval :=
  summary ← py_get r "extractionSummary" PNone;
  py_get summary "totalStakeholders" PNone.

(** *** Further notions about runs *)

Definition progress_in_range (j : Jobs.ExtractionJob) : bool :=
  (0 <=? Jobs.progress j) && (Jobs.progress j <=? 100).

(** From one observed state to the next the progress does not decrease,
    except in a state whose status is error. *)
Fixpoint progress_steps (p : Z) (l : list Jobs.ExtractionJob) : bool :=
  match l with
  | [] => true
  | j :: l' =>
      (String.eqb (Jobs.status j) "error" || (p <=? Jobs.progress j))
      && progress_steps (Jobs.progress j) l'
  end.

(** The attributes that identify a job and its input. *)
Definition same_inputs (job j : Jobs.ExtractionJob) : Prop :=
  Jobs.job_id j = Jobs.job_id job ∧
  Jobs.filename j = Jobs.filename job ∧
  Jobs.priority j = Jobs.priority job ∧
  Jobs.options j = Jobs.options job ∧
  Jobs.start_time j = Jobs.start_time job.

Definition model_of_priority (job j : Jobs.ExtractionJob) : Prop :=
  Jobs.model_used j = None ∨
  (Some <$> Jobs.get_model_for_priority (Jobs.priority job)) = Ok (Jobs.model_used j).

(** The events of the handler of [run_extraction_job], started in state
    [j0] with the exception [e]: the status, then the error, are assigned;
    the job is saved; the progress is reset. *)
Definition handler_events (e : exn) (j0 : Jobs.ExtractionJob) : list Jobs.event :=
  let failed := Jobs.set_error (Some e) (Jobs.set_status "error" j0) in
  [Jobs.Mem (Jobs.set_status "error" j0); Jobs.Mem failed; Jobs.Saved failed;
   Jobs.Mem (Jobs.set_progress 0 failed)].

(** The events of a run before its last four, and the state of the job
    after them. *)
Definition events_before_handler (o : Jobs.outcome unit) : list Jobs.event :=
  List.firstn (List.length (Jobs.trace o) - 4) (Jobs.trace o).

Definition state_at_failure (job : Jobs.ExtractionJob) (o : Jobs.outcome unit)
  : Jobs.ExtractionJob :=
  List.last (List.map Jobs.ev_job (events_before_handler o)) job.

Definition active_b (j : Jobs.ExtractionJob) : bool :=
  String.eqb (Jobs.status j) "pending" || String.eqb (Jobs.status j) "running".

(** The step text that line 180 sets after the metadata file was written. *)
Definition metadata_created (j : Jobs.ExtractionJob) : bool :=
  String.eqb (Jobs.current_step j) "✅ Document metadata created".

(** More of what holds of every run of [run_extraction_job] on a new job. *)
Definition run_facts_more (w : Jobs.World) (job : Jobs.ExtractionJob) : Prop :=
  let o := Jobs.run_extraction_job w job in
  forallb progress_in_range (observed job o) = true ∧
  progress_steps 0 (observed job o) = true ∧
  Forall (same_inputs job) (observed job o) ∧
  Forall (model_of_priority job) (observed job o) ∧
  (truthy (Jobs.create_document_metadata_from_source w (Jobs.filename job)) = false →
   existsb metadata_created (observed job o) = false) ∧
  match run_failure w job with
  | Ok _ =>
      last_saved o = Some (Jobs.final o) ∧
      Jobs.progress (Jobs.final o) = 100
  | Raise e =>
      (Jobs.set_progress 0 <$> last_saved o) = Some (Jobs.final o) ∧
      Jobs.progress (Jobs.final o) = 0 ∧
      (Jobs.status <$> last_saved o) = Some "error" ∧
      Jobs.trace o
        = (events_before_handler o ++ handler_events e (state_at_failure job o))%list ∧
      active_b (state_at_failure job o) = true
  end.

(** ** [persistent_jobs.py] and [extraction_utils.py]: reloading the store *)

Module Persist.
Import Jobs.

(** [storage_dir.glob("*.json")] keeps the names that end in ".json". *)
Definition matches_json (name : string) : bool := endswith name ".json".

(** [job_file.stem] of such a name: the name without its suffix ".json";
    the name ".json" itself is a hidden file without suffix. *)
Definition stem (name : string) : string :=
  if (5 <? String.length name)%nat
  then String.substring 0 (String.length name - 5) name
  else name.

(** [get_all_jobs]; [listing] is the content of the storage directory in
    the order in which [glob] yields it.  A file that does not load, or
    that holds an empty dictionary, is left out. *)
Definition get_all_jobs (listing : list string) (store : gmap string file_content)
  : list (string * JobData) :=
  List.fold_left
    (fun jobs name =>
       let job_id := stem name in
       match load_job store job_id with
       | Some job_data =>
           if Api.nonempty job_data then assoc_set job_id job_data jobs else jobs
       | None => jobs
       end)
    (List.filter matches_json listing) [].

(** The loop of [load_jobs_from_persistence]: an exception (a missing key)
    ends it, and with it the whole [try]. *)
Fixpoint restore_each (w : Api.World) (items : list (string * JobData))
  (extraction_jobs : list (string * ExtractionJob)) : list (string * ExtractionJob) :=
  match items with
  | [] => extraction_jobs
  | (job_id, job_data) :: rest =>
      match Api.restore_job w job_data with
      | Ok job => restore_each w rest (assoc_set job_id job extraction_jobs)
      | Raise _ => extraction_jobs
      end
  end.

Definition load_jobs_from_persistence (w : Api.World) (listing : list string)
  (extraction_jobs : list (string * ExtractionJob)) : list (string * ExtractionJob) :=
  restore_each w (get_all_jobs listing (Api.store w)) extraction_jobs.

End Persist.

(** What the store gives for a job id: its record, if the file loads and
    the record is not empty. *)
Definition readable (store : gmap string Jobs.file_content) (id : string)
  : option Jobs.JobData :=
  match Jobs.load_job store id with
  | Some d => if Api.nonempty d then Some d else None
  | None => None
  end.

(** Some listed file matches "*.json" and has the stem [id]. *)
Definition listed (listing : list string) (id : string) : bool :=
  existsb (fun name => Persist.matches_json name && String.eqb (Persist.stem name) id)
          listing.

(** A record that lacks one of the keys that the constructor call reads. *)
Definition incomplete (d : Jobs.JobData) : Prop :=
  Jobs.jd_job_id d = None ∨ Jobs.jd_filename d = None ∨
  Jobs.jd_priority d = None ∨ Jobs.jd_options d = None.

(** A stored record without the key "filename". *)
Definition record_without_filename : Jobs.JobData :=
  {| Jobs.jd_job_id := Some "extract_2_1740823300";
     Jobs.jd_filename := None;
     Jobs.jd_priority := Some (PStr "cost");
     Jobs.jd_options := Some [];
     Jobs.jd_status := Some "pending";
     Jobs.jd_progress := Some 0;
     Jobs.jd_current_step := None;
     Jobs.jd_substep := None;
     Jobs.jd_start_time := None;
     Jobs.jd_model_used := None;
     Jobs.jd_cost_estimate := None;
     Jobs.jd_results := None;
     Jobs.jd_error := None |}.

(** ** [agent_api.py]: the edit route *)

Module Routes.
Import Jobs.

Inductive method : Type := GET | POST.

(** Lines 899-911 of [edit_extraction_results]: the job object rebuilt from
    a stored record.  Only status, results, model_used, start_time and
    cost_estimate are restored; the other attributes keep what the
    constructor gives. *)
Definition restore_for_edit (w : Api.World) (job_data : JobData) : Res ExtractionJob :=
  id ← Api.getitem "job_id" (jd_job_id job_data);
  fn ← Api.getitem "filename" (jd_filename job_data);
  pr ← Api.getitem "priority" (jd_priority job_data);
  op ← Api.getitem "options" (jd_options job_data);
  let job := new_job (Api.now w) id fn pr op in
  let job := set_status (default "pending" (jd_status job_data)) job in
  let job := set_results (jd_results job_data) job in
  let job := set_model_used (jd_model_used job_data) job in
  let job := set_start_time (default (Api.now w) (jd_start_time job_data)) job in
  let job := set_cost_estimate (default 0%Q (jd_cost_estimate job_data)) job in
  Ok job.

Definition edit_error (e : exn) : Api.response :=
  Api.Http 500 (PDict [("error", PStr ("Edit error: " ++ e))]).

(** [job.results.get(key, dflt) if job.results else dflt] *)
Definition results_entry (job : ExtractionJob) (key : string) (dflt : pyval) : Res pyval :=
  if truthy (Api.opt_val (results job))
  then py_get (Api.opt_val (results job)) key dflt
  else Ok dflt.

(** Lines 917-928, the GET branch. *)
Definition edit_get (id : string) (job : ExtractionJob) : Api.response :=
  if negb (String.eqb (status job) "complete")
  then Api.Http 400 (PDict [("error", PStr "Job not completed")])
  else
    match
      (found ← results_entry job "stakeholders" (PList []);
       extraction_metadata ← results_entry job "extraction_metadata" (PDict []);
       Ok (PDict [("job_id", PStr id);
                  ("filename", filename job);
                  ("stakeholders", found);
                  ("extraction_metadata", extraction_metadata);
                  ("editable", PBool true)]))
    with
    | Ok body => Api.Http 200 body
    | Raise e => edit_error e
    end.

(** Lines 930-950, the POST branch: the response, the job object as the
    branch leaves it, and the storage directory.  The job object is the one
    in the registry, so what is assigned before an exception stays. *)
Definition edit_post (o : write_outcome) (edited_data : Res pyval)
  (store : gmap string file_content) (job : ExtractionJob)
  : Api.response * ExtractionJob * gmap string file_content :=
  match edited_data with
  | Raise e => (edit_error e, job, store)
  | Ok edited =>
      if negb (truthy edited)
      then (Api.Http 400 (PDict [("error", PStr "No edited data provided")]), job, store)
      else
        let job :=
          if truthy (Api.opt_val (results job)) then job
          else set_results (Some (PDict [])) job in
        match py_get edited "stakeholders" (PList []) with
        | Raise e => (edit_error e, job, store)
        | Ok edited_stakeholders =>
            match results job with
            | Some (PDict d) =>
                let job :=
                  set_results (Some (PDict (assoc_set "stakeholders" edited_stakeholders d)))
                              job in
                let store := fst (save_job o job store) in
                match py_len edited_stakeholders with
                | Ok n =>
                    (Api.Http 200 (PDict [
                       ("status", PStr "updated");
                       ("message", PStr "Extraction results updated successfully");
                       ("stakeholder_count", PInt n)]),
                     job, store)
                | Raise e => (edit_error e, job, store)
                end
            | _ => (edit_error "object does not support item assignment", job, store)
            end
        end
  end.

(** [GET|POST /extract/<job_id>/edit]: the response, the registry and the
    storage directory that the request leaves. *)
Definition edit_extraction_results (w : Api.World) (o : write_outcome) (m : method)
  (edited_data : Res pyval) (extraction_jobs : list (string * ExtractionJob))
  (id : string)
  : Api.response * list (string * ExtractionJob) * gmap string file_content :=
  let found :=
    match assoc id extraction_jobs with
    | Some job => inr (job, extraction_jobs)
    | None =>
        match load_job (Api.store w) id with
        | Some job_data =>
            if Api.nonempty job_data then
              match restore_for_edit w job_data with
              | Ok job => inr (job, assoc_set id job extraction_jobs)
              | Raise e => inl (edit_error e)
              end
            else inl Api.not_found
        | None => inl Api.not_found
        end
    end in
  match found with
  | inl response => (response, extraction_jobs, Api.store w)
  | inr (job, extraction_jobs) =>
      match m with
      | GET => (edit_get id job, extraction_jobs, Api.store w)
      | POST =>
          match edit_post o edited_data (Api.store w) job with
          | (response, job, store) => (response, assoc_set id job extraction_jobs, store)
          end
      end
  end.

End Routes.

(** The world of a later request: the same clock, the storage directory as
    an earlier request left it. *)
Definition with_store (w : Api.World) (store : gmap string Jobs.file_content)
  : Api.World :=
  {| Api.now := Api.now w; Api.store := store; Api.isoformat := Api.isoformat w |}.

(** The entries of a job's results when they are a dictionary. *)
Definition results_dict (job : Jobs.ExtractionJob) : list (string * pyval) :=
  match Jobs.results job with
  | Some (PDict d) => d
  | _ => []
  end.

(** A failed job as the store holds it. *)
Definition failed_job : Jobs.ExtractionJob :=
  Jobs.set_progress 10
    (Jobs.set_error (Some "No module named 'app.routes'")
       (Jobs.set_status "error" Scenario.submitted)).

Definition holding_failed_job : Api.World :=
  {| Api.now := 1740823500;
     Api.store := {[ Jobs.job_file "extract_1_1740823200"
                       := Jobs.Json (Jobs.job_data_of failed_job) ]};
     Api.isoformat := fun _ => Ok "2025-03-01T10:00:00" |}.

(** The characters of a string. *)
Definition has_char (c : ascii) (s : string) : Prop := In c (list_ascii_of_string s).

From Stdlib Require DecimalString DecimalPos DecimalZ.

(** ** [agent_api.py]: submitting a job *)

Module Start.
Import Jobs.

(** [str(n)] of an integer: its decimal digits, with a leading minus sign
    when negative. *)
Definition str_of_int (n : Z) : string :=
  DecimalString.NilZero.string_of_int (Z.to_int n).

(** [int(x)] of a float: truncation toward zero. *)
Definition int_of_float (x : Q) : Z :=
  if Qle_bool 0 x then Qfloor x else Qceiling x.

(** What [start_extraction] reads from outside the registry: the request
    body, the application configuration ([APP_DIR] with its default, the
    directory of [agent_api.py]), the clock at line 109 and in the job's
    constructor, and whether the executor accepts the job. *)
Record World : Type := {
  get_json : Res pyval;
  config_jsonld_dir : pyval;
  config_app_dir : pyval;
  time_for_id : Q;
  time_for_job : Q;
  submit : Res unit
}.

Definition bad_request (message : string) : Api.response :=
  Api.Http 400 (PDict [("error", PStr message)]).

Definition internal_error (e : exn) : Api.response :=
  Api.server_error ("Internal server error: " ++ e).

Definition code (r : Api.response) : Z := match r with Api.Http c _ => c end.

(** Lines 101-104. *)
Definition configured_jsonld_dir (w : World) : Res pyval :=
  if truthy (config_jsonld_dir w) then Ok (config_jsonld_dir w)
  else
    p ← os_path_join_all (config_app_dir w) [".."; "database"; "jsonld"];
    Ok (PStr p).

(** Line 109. *)
Definition new_job_id (job_counter : Z) (t : Q) : string :=
  "extract_" ++ str_of_int job_counter ++ "_" ++ str_of_int (int_of_float t).

(** Lines 137-143: the body of the answer to an accepted request. *)
Definition started (job_id : string) (priority : pyval) : Res pyval :=
  estimated_duration ← get_estimated_duration priority;
  model ← get_model_for_priority priority;
  Ok (PDict [("job_id", PStr job_id);
             ("status", PStr "started");
             ("estimated_duration", PInt estimated_duration);
             ("model", PStr model);
             ("message", PStr "Extraction job started successfully")]).

(** [start_extraction]: the response, the job counter and the registry as
    the call leaves them.  The file name is only tested for truth and the
    priority is not tested at all; the job is registered, and handed to the
    executor, before the answer is built. *)
Definition start_extraction (w : World) (job_counter : Z)
  (extraction_jobs : list (string * ExtractionJob))
  : Api.response * Z * list (string * ExtractionJob) :=
  match get_json w with
  | Raise e => (internal_error e, job_counter, extraction_jobs)
  | Ok data =>
      if negb (truthy data)
      then (bad_request "No JSON data provided", job_counter, extraction_jobs)
      else
        match
          (filename ← py_get data "filename" PNone;
           priority ← py_get data "priority" (PStr "cost");
           use_context ← py_get data "use_context" (PBool true);
           detailed_output ← py_get data "detailed_output" (PBool true);
           Ok (filename, priority, use_context, detailed_output))
        with
        | Raise e => (internal_error e, job_counter, extraction_jobs)
        | Ok (filename, priority, use_context, detailed_output) =>
            if negb (truthy filename)
            then (bad_request "Filename is required", job_counter, extraction_jobs)
            else
              match configured_jsonld_dir w with
              | Raise e => (internal_error e, job_counter, extraction_jobs)
              | Ok jsonld_dir =>
                  let job_counter := job_counter + 1 in
                  let job_id := new_job_id job_counter (time_for_id w) in
                  let job :=
                    new_job (time_for_job w) job_id filename priority
                      [("use_context", use_context);
                       ("detailed_output", detailed_output);
                       ("jsonld_dir", jsonld_dir)] in
                  let extraction_jobs := assoc_set job_id job extraction_jobs in
                  match submit w with
                  | Raise e =>
                      (Api.server_error ("Failed to start background job: " ++ e),
                       job_counter, extraction_jobs)
                  | Ok _ =>
                      match started job_id priority with
                      | Ok body => (Api.Http 200 body, job_counter, extraction_jobs)
                      | Raise e => (internal_error e, job_counter, extraction_jobs)
                      end
                  end
              end
        end
  end.

End Start.

(** A request for [report.pdf] at quality priority, on an application
    without a configured JSON-LD directory. *)
Definition quality_request : Start.World :=
  {| Start.get_json := Ok (PDict [("filename", PStr "report.pdf"); ("priority", PStr "quality")]);
     Start.config_jsonld_dir := PNone;
     Start.config_app_dir := PStr "/srv/docex/app";
     Start.time_for_id := 1740823200 + (1 # 4);
     Start.time_for_job := 1740823200 + (1 # 2);
     Start.submit := Ok tt |}.

(** The same request with a JSON array as its priority. *)
Definition list_priority_request : Start.World :=
  {| Start.get_json := Ok (PDict [("filename", PStr "report.pdf"); ("priority", PList [])]);
     Start.config_jsonld_dir := PNone;
     Start.config_app_dir := PStr "/srv/docex/app";
     Start.time_for_id := 1740823200 + (1 # 4);
     Start.time_for_job := 1740823200 + (1 # 2);
     Start.submit := Ok tt |}.
(** * Properties *)

Section Selection.
Import Agent.

Lemma given_nonempty (s : string) : s ≠ "" → given (Some s) = Some s.
Proof.
  intros Hs. unfold given.
  destruct (String.eqb_spec s ""); [contradiction | reflexivity].
Qed.

Lemma str_in_filter (x : string) (f : string → bool) (l : list string) :
  str_in x l = true → f x = true → str_in x (List.filter f l) = true.
Proof.
  unfold str_in. rewrite !existsb_exists.
  intros (y & Hy & Heq) Hf. apply String.eqb_eq in Heq. subst y.
  exists x. split; [| apply String.eqb_refl].
  apply filter_In. by split.
Qed.
End Selection.

(** C5, as stated, fails: an explicit pair whose model is marked
    unavailable is used all the same, although the priority ranking would
    have chosen the local model. *)
Lemma explicit_pair_used_when_unavailable :
  Agent.available Examples.local_only "gpt-4o" = false ∧
  Agent.select Examples.local_only "cost" (Some "native_structured") (Some "gpt-4o")
    = Ok ("native_structured", "gpt-4o") ∧
  Agent.select Examples.local_only "cost" None None
    = Ok ("ollama_structured", "llama3.1:8b-instruct-q8_0").
Proof. repeat split; vm_compute; reflexivity. Qed.

(** C5, amended: when both an explicit strategy and an explicit model are
    given, the selected pair is exactly that pair, whatever the availability
    map says about the model. *)
Theorem explicit_pair_always_selected
  (self : Agent.DataExtractionAgent) (priority strategy model : string) :
  strategy ≠ "" → model ≠ "" →
  Agent.select self priority (Some strategy) (Some model) = Ok (strategy, model).
Proof.
  intros Hs Hm. unfold Agent.select.
  rewrite (given_nonempty _ Hs), (given_nonempty _ Hm). reflexivity.
Qed.

Lemma explicit_pair_always_selected_witness :
  "native_structured" ≠ "" ∧ "gpt-4o" ≠ "" ∧
  Agent.select Examples.local_only "cost" (Some "native_structured") (Some "gpt-4o")
    = Ok ("native_structured", "gpt-4o").
Proof.
  split; [discriminate |]. split; [discriminate |].
  apply (explicit_pair_always_selected Examples.local_only "cost"
           "native_structured" "gpt-4o"); discriminate.
Defined.

(** C6: under priority = privacy, with the local model not answering, the
    selector chooses a remote strategy and a remote model, although
    [extract_stakeholders_with_privacy], which only passes this priority,
    promises local processing only. *)
Lemma privacy_selects_remote_model :
  Agent.available Examples.remote_only Agent.llama = false ∧
  Agent.select Examples.remote_only "privacy" None None
    = Ok ("json_mode_guided", "deepseek/DeepSeek-V3-0324").
Proof. split; vm_compute; reflexivity. Qed.

(** What the selection does under priority = privacy: if the local model
    is marked available (and the configuration lists it for
    ollama_structured) the selection is the single pair (ollama_structured,
    local model), whatever else is available; if it is not, the selection
    falls through to json_mode_guided, native_structured or
    guided_json_prompting and takes whichever model [_select_model] finds
    there. *)
Lemma privacy_selection (self : Agent.DataExtractionAgent) (models : list string) :
  assoc "ollama_structured" (Agent.model_strategies self) = Some models →
  Agent.str_in Agent.llama models = true →
  Agent.select self "privacy" None None =
    if Agent.available self Agent.llama
    then Ok ("ollama_structured", Agent.llama)
    else m ← Agent._select_model self (privacy_without_local self) "privacy";
         Ok (privacy_without_local self, m).
Proof.
  intros Hcfg Hin. unfold Agent.select, Agent._select_strategy, privacy_without_local.
  cbn [Agent.given String.eqb Ascii.eqb Bool.eqb andb Agent.str_in existsb orb].
  destruct (Agent.available self Agent.llama) eqn:Hl; [| reflexivity].
  unfold Agent._select_model. rewrite Hcfg.
  pose proof (str_in_filter _ (Agent.available self) _ Hin Hl) as Hf.
  destruct (List.filter (Agent.available self) models) as [| first rest] eqn:Hfl;
    [discriminate Hf |].
  cbn [String.eqb Ascii.eqb Bool.eqb andb]. rewrite Hf. reflexivity.
Qed.

Lemma privacy_selection_witness :
  assoc "ollama_structured" (Agent.model_strategies Examples.local_only)
    = Some ["llama3.1:8b-instruct-q8_0"] ∧
  Agent.str_in Agent.llama ["llama3.1:8b-instruct-q8_0"] = true ∧
  Agent.select Examples.local_only "privacy" None None =
    if Agent.available Examples.local_only Agent.llama
    then Ok ("ollama_structured", Agent.llama)
    else m ← Agent._select_model Examples.local_only
               (privacy_without_local Examples.local_only) "privacy";
         Ok (privacy_without_local Examples.local_only, m).
Proof.
  split; [reflexivity |]. split; [reflexivity |].
  apply (privacy_selection Examples.local_only ["llama3.1:8b-instruct-q8_0"]);
    reflexivity.
Defined.

(** C9: the selection reads the agent's availability map and its strategy
    table and nothing else, so two calls with the same priority, explicit
    strategy, explicit model and availability return the same pair, also
    when the agent's statistics changed in between. *)
Theorem selection_deterministic
  (a1 a2 : Agent.DataExtractionAgent) (priority : string) (strategy model : option string) :
  Agent.model_availability a1 = Agent.model_availability a2 →
  Agent.model_strategies a1 = Agent.model_strategies a2 →
  Agent.select a1 priority strategy model = Agent.select a2 priority strategy model.
Proof.
  intros Ha Hs.
  assert (Hav : Agent.available a1 = Agent.available a2).
  { unfold Agent.available. by rewrite Ha. }
  unfold Agent.select, Agent._select_strategy, Agent._select_model.
  rewrite Hav, Hs. reflexivity.
Qed.

Lemma selection_deterministic_witness :
  Agent.model_availability Examples.local_only
    = Agent.model_availability
        (Agent._update_performance_stats Examples.local_only Examples.one_result) ∧
  Agent.model_strategies Examples.local_only
    = Agent.model_strategies
        (Agent._update_performance_stats Examples.local_only Examples.one_result) ∧
  Agent.select Examples.local_only "speed" None None
    = Agent.select (Agent._update_performance_stats Examples.local_only Examples.one_result)
        "speed" None None.
Proof.
  split; [reflexivity |]. split; [reflexivity |].
  apply (selection_deterministic Examples.local_only
           (Agent._update_performance_stats Examples.local_only Examples.one_result)
           "speed" None None); reflexivity.
Defined.

(** ** The store and the two reads *)

Lemma restore_saved_job (w : Api.World) (job : Jobs.ExtractionJob) :
  Api.restore_job w (Jobs.job_data_of job) = Ok job.
Proof. destruct job. reflexivity. Qed.

Lemma results_read_ignores_store (w : Api.World)
  (extraction_jobs : list (string * Jobs.ExtractionJob)) (id : string) :
  assoc id extraction_jobs = None →
  Api.get_extraction_results w extraction_jobs id = (Api.not_found, extraction_jobs).
Proof. intros H. unfold Api.get_extraction_results. by rewrite H. Qed.

Lemma status_read_rehydrates (w : Api.World)
  (extraction_jobs : list (string * Jobs.ExtractionJob)) (id : string)
  (job : Jobs.ExtractionJob) :
  assoc id extraction_jobs = None →
  Api.store w !! Jobs.job_file id = Some (Jobs.Json (Jobs.job_data_of job)) →
  Api.get_extraction_status w extraction_jobs id =
    (Api.status_response w (assoc_set id job extraction_jobs) id job,
     assoc_set id job extraction_jobs).
Proof.
  intros Hmem Hfile. unfold Api.get_extraction_status, Jobs.load_job.
  rewrite Hmem, Hfile, restore_saved_job. reflexivity.
Qed.

Lemma status_read_not_found (w : Api.World)
  (extraction_jobs : list (string * Jobs.ExtractionJob)) (id : string) :
  fst (Api.get_extraction_status w extraction_jobs id) = Api.not_found →
  assoc id extraction_jobs = None ∧
  (Jobs.load_job (Api.store w) id = None ∨
   ∃ d, Jobs.load_job (Api.store w) id = Some d ∧ Api.nonempty d = false).
Proof.
  unfold Api.get_extraction_status.
  destruct (assoc id extraction_jobs) as [job |] eqn:Hmem.
  - unfold Api.status_response, Api.not_found. cbn [fst]. intros H. inversion H.
  - destruct (Jobs.load_job (Api.store w) id) as [d |] eqn:Hload; [| by auto].
    destruct (Api.nonempty d) eqn:Hne; [| by eauto].
    destruct (Api.restore_job w d); cbn [fst].
    + unfold Api.status_response, Api.not_found. intros H. inversion H.
    + unfold Api.server_error, Api.not_found. intros H. inversion H.
Qed.

(** C7: the job is absent from the registry and present in the store.  The
    status read loads it, puts it back into the registry and answers 200;
    the results read answers 404 "Job not found" and leaves the registry
    empty. *)
Theorem results_read_misses_persisted_job :
  assoc "extract_1_1740823200" ([] : list (string * Jobs.ExtractionJob)) = None ∧
  Jobs.load_job (Api.store Scenario.after_restart) "extract_1_1740823200"
    = Some (Jobs.job_data_of Scenario.finished) ∧
  Jobs.status Scenario.finished = "complete" ∧
  Api.get_extraction_status Scenario.after_restart [] "extract_1_1740823200"
    = (Api.status_response Scenario.after_restart
         [("extract_1_1740823200", Scenario.finished)]
         "extract_1_1740823200" Scenario.finished,
       [("extract_1_1740823200", Scenario.finished)]) ∧
  Api.get_extraction_results Scenario.after_restart [] "extract_1_1740823200"
    = (Api.Http 404 (PDict [("error", PStr "Job not found")]), []).
Proof.
  assert (Hfile : Api.store Scenario.after_restart
                    !! Jobs.job_file "extract_1_1740823200"
                  = Some (Jobs.Json (Jobs.job_data_of Scenario.finished))).
  { apply lookup_singleton_eq. }
  split; [reflexivity |].
  split; [unfold Jobs.load_job; by rewrite Hfile |].
  split; [vm_compute; reflexivity |].
  split.
  - by rewrite (status_read_rehydrates _ _ _ Scenario.finished).
  - reflexivity.
Qed.

Lemma load_job_insert (store : gmap string Jobs.file_content) (id : string)
  (c : Jobs.file_content) :
  Jobs.load_job (<[Jobs.job_file id := c]> store) id =
    match c with Jobs.Json d => Some d | Jobs.Torn => None end.
Proof. unfold Jobs.load_job. rewrite lookup_insert_eq. by destruct c. Qed.

(** C4, as stated, fails: while the finished job is being saved over its
    earlier version, the file is first truncated, and a reader of that state
    gets neither the earlier version nor the new one. *)
Lemma save_job_is_not_atomic :
  ¬ atomic_replace Jobs.WriteOk Scenario.finished Scenario.before_save.
Proof.
  unfold atomic_replace. intros H.
  apply Forall_inv in H.
  replace (Jobs.job_id Scenario.finished) with "extract_1_1740823200" in H
    by (vm_compute; reflexivity).
  rewrite load_job_insert in H.
  unfold Scenario.before_save, Jobs.load_job in H.
  rewrite lookup_singleton_eq in H.
  destruct H as [H | H]; discriminate H.
Qed.

(** C4, amended: [save_job] overwrites the job's own file in place.  A
    successful save goes through two states of the storage directory: in
    the first the file is truncated and [load_job] returns nothing, in the
    second it holds the full new record.  No other path of the directory
    changes (no temporary file, no rename), and after the save [load_job]
    returns the new record. *)
Theorem save_job_overwrites_in_place
  (job : Jobs.ExtractionJob) (store : gmap string Jobs.file_content) :
  List.map (fun s => Jobs.load_job s (Jobs.job_id job))
           (Jobs.save_job_steps Jobs.WriteOk job store)
    = [None; Some (Jobs.job_data_of job)] ∧
  Forall (fun s => ∀ path, path ≠ Jobs.job_file (Jobs.job_id job) →
                           s !! path = store !! path)
         (Jobs.save_job_steps Jobs.WriteOk job store) ∧
  Jobs.load_job (fst (Jobs.save_job Jobs.WriteOk job store)) (Jobs.job_id job)
    = Some (Jobs.job_data_of job) ∧
  snd (Jobs.save_job Jobs.WriteOk job store) = true.
Proof.
  unfold Jobs.save_job, Jobs.save_job_steps. cbn [List.map List.last fst snd].
  rewrite !load_job_insert.
  split; [reflexivity |].
  split; [| by split].
  repeat constructor; intros path Hne; by rewrite lookup_insert_ne.
Qed.

(** ** The bridge *)

Lemma res_bind_Ok {A B} (c : Res A) (k : A → Res B) (b : B) :
  (c ≫= k) = Ok b → ∃ a, c = Ok a ∧ k a = Ok b.
Proof. destruct c as [a | e]; [by exists a | discriminate]. Qed.

Lemma generate_error_result_shape (w : Bridge.World) (filename msg : string) :
  ∃ d, Bridge.generate_error_result w (PStr filename) msg = Ok (PDict d) ∧
       assoc "stakeholders" d = Some (PList []) ∧
       error_shaped (PDict d).
Proof. eexists. split; [reflexivity |]. split; [reflexivity |]. split; reflexivity. Qed.

Lemma generate_error_result_raises (w : Bridge.World) (filename : pyval) (msg : string) :
  (∀ name, filename ≠ PStr name) →
  ∃ e, Bridge.generate_error_result w filename msg = Raise e.
Proof.
  intros Hns. unfold Bridge.generate_error_result, py_replace.
  destruct filename; try (by eexists). by destruct (Hns s).
Qed.

Lemma create_extraction_result_Ok (w : Bridge.World) (stakeholders : list pyval)
  (filename : string) (metadata r : pyval) :
  Bridge.create_extraction_result w stakeholders filename metadata = Ok r →
  ∃ d, r = PDict d ∧ assoc "stakeholders" d = Some (PList stakeholders).
Proof.
  unfold Bridge.create_extraction_result. intros H.
  apply res_bind_Ok in H as (avg & _ & H).
  apply res_bind_Ok in H as (types & _ & H).
  apply res_bind_Ok in H as (typeset & _ & H).
  apply res_bind_Ok in H as (method & _ & H).
  injection H as <-. eexists. split; reflexivity.
Qed.

(** What the body of the [try] returns is a dictionary whose
    ["stakeholders"] entry is a list. *)
Lemma extraction_body_Ok (w : Bridge.World) (filename : string) (jsonld_dir r : pyval) :
  Bridge.extraction_body w filename jsonld_dir = Ok r →
  ∃ d l, r = PDict d ∧ assoc "stakeholders" d = Some (PList l).
Proof.
  unfold Bridge.extraction_body. intros H.
  apply res_bind_Ok in H as (path & _ & H).
  destruct (negb (Bridge.path_exists w path)).
  - apply res_bind_Ok in H as (_ & _ & H).
    destruct (generate_error_result_shape w filename
                ("JSON-LD file not found: " ++ path)) as (d & Hd & Hs & _).
    rewrite Hd in H. injection H as <-. by eexists _, _.
  - apply res_bind_Ok in H as (metadata & _ & H).
    apply res_bind_Ok in H as (content & _ & H).
    apply res_bind_Ok in H as (structure & _ & H).
    apply res_bind_Ok in H as (paragraphs & _ & H).
    apply res_bind_Ok in H as (n & _ & H).
    apply res_bind_Ok in H as (stakeholders & _ & H).
    apply create_extraction_result_Ok in H as (d & -> & Hd). by eexists _, _.
Qed.

Lemma extract_stakeholders_enhanced_dict (w : Bridge.World) (filename : string)
  (jsonld_dir : pyval) :
  ∃ d l, Bridge.extract_stakeholders_enhanced w (PStr filename) jsonld_dir = Ok (PDict d) ∧
         assoc "stakeholders" d = Some (PList l).
Proof.
  unfold Bridge.extract_stakeholders_enhanced,
    Bridge.extract_stakeholders_from_jsonld_metadata, try_except.
  destruct (Bridge.extraction_body w filename jsonld_dir) as [r | e] eqn:Hbody.
  - apply extraction_body_Ok in Hbody as (d & l & -> & Hd). by exists d, l.
  - destruct (generate_error_result_shape w filename e) as (d & Hd & Hs & _).
    exists d, []. by split.
Qed.

Lemma extract_stakeholders_enhanced_raises (w : Bridge.World) (filename jsonld_dir : pyval) :
  (∀ name, filename ≠ PStr name) →
  ∃ e, Bridge.extract_stakeholders_enhanced w filename jsonld_dir = Raise e.
Proof.
  intros Hns.
  unfold Bridge.extract_stakeholders_enhanced,
    Bridge.extract_stakeholders_from_jsonld_metadata, try_except.
  destruct filename; try (by apply generate_error_result_raises).
  by destruct (Hns s).
Qed.

(** For any file name: a dictionary with a list of stakeholders, or an
    exception. *)
Lemma extract_stakeholders_enhanced_cases (w : Bridge.World) (filename jsonld_dir : pyval) :
  (∃ d l, Bridge.extract_stakeholders_enhanced w filename jsonld_dir = Ok (PDict d) ∧
          assoc "stakeholders" d = Some (PList l)) ∨
  (∃ e, Bridge.extract_stakeholders_enhanced w filename jsonld_dir = Raise e).
Proof.
  destruct filename as [| | | | name | |];
    try (right; apply extract_stakeholders_enhanced_raises; discriminate).
  left. apply extract_stakeholders_enhanced_dict.
Qed.



(** ** Runs of [run_extraction_job] *)







Lemma dict_get_hashable {V} (table : list (string * V)) (key : pyval) (dflt : V) :
  hashable key = true →
  dict_get table key dflt
    = Ok (match key with PStr k => default dflt (assoc k table) | _ => dflt end).
Proof. intros H. unfold dict_get. by rewrite H. Qed.

Lemma dict_get_unhashable {V} (table : list (string * V)) (key : pyval) (dflt : V) :
  hashable key = false →
  dict_get table key dflt = Raise ("unhashable type: '" ++ type_name key ++ "'").
Proof. intros H. unfold dict_get. by rewrite H. Qed.

(** Evaluate the run in [Ho] up to the next call into the outside world. *)
Ltac run_step Ho :=
  lazy -[Jobs.import_bridge Jobs.create_document_metadata_from_source
         Jobs.write_metadata_file Bridge.extract_stakeholders_enhanced Jobs.bridge
         Jobs.metadata_path Jobs.job_jsonld_dir truthy py_get py_len
         hashable type_name assoc] in Ho.

(** The extraction returns a dictionary with a list of stakeholders, or
    raises. *)
Ltac use_extraction Ho :=
  match type of Ho with
  | context [Bridge.extract_stakeholders_enhanced ?b ?f ?d] =>
      let dd := fresh "d" in
      let l := fresh "l" in
      let e := fresh "e" in
      let Hex := fresh "Hex" in
      let Hd := fresh "Hd" in
      destruct (extract_stakeholders_enhanced_cases b f d)
        as [(dd & l & Hex & Hd) | (e & Hex)];
      rewrite Hex in Ho |- *;
      [run_step Ho; cbn [py_get] in Ho; rewrite Hd in Ho; run_step Ho
      | run_step Ho]
  end.

(** A lookup under the priority that comes up after the first one: the
    priority is known to be hashable. *)
Ltac use_hashable Ho Hh :=
  match type of Ho with
  | context [hashable ?pr] =>
      destruct (hashable pr); [run_step Ho | discriminate Hh]
  end.

(** The run is now an explicit list of events: check the facts on it. *)
Ltac run_leaf :=
  subst; cbn [mbind res_bind];
  repeat match goal with |- _ ∧ _ => split end;
  try (vm_compute; reflexivity); try (eexists; vm_compute; reflexivity).

Lemma run_facts_hold (w : Jobs.World) (now : Q) (id : string) (fn pr : pyval)
  (opts : list (string * pyval)) :
  run_facts w (Jobs.new_job now id fn pr opts).
Proof.
  unfold run_facts, run_failure, preparation.
  remember (Jobs.run_extraction_job w (Jobs.new_job now id fn pr opts)) as o eqn:Ho.
  unfold Jobs.run_extraction_job, Jobs.try_exceptM, Jobs.run_body in Ho.
  unfold Jobs.calculate_extraction_cost, Jobs.get_model_for_priority, dict_get.
  cbn [Jobs.filename Jobs.options Jobs.priority Jobs.new_job].
  destruct (Jobs.import_bridge w) as [[] | e].
  2: { run_step Ho. run_leaf. }
  run_step Ho. cbn [mbind res_bind].
  destruct (hashable pr) eqn:Hh.
  2: { run_step Ho. run_leaf. }
  run_step Ho. cbn [mbind res_bind].
  destruct (truthy (Jobs.create_document_metadata_from_source w fn)) eqn:Hdm.
  - run_step Ho.
    destruct (Jobs.metadata_path w opts fn) as [p | e].
    2: { run_step Ho. run_leaf. }
    run_step Ho. cbn [mbind res_bind].
    destruct (Jobs.write_metadata_file w p
                (Jobs.create_document_metadata_from_source w fn)) as [[] | e].
    2: { run_step Ho. run_leaf. }
    run_step Ho. cbn [mbind res_bind]. use_extraction Ho.
    + use_hashable Ho Hh. run_leaf.
    + run_leaf.
  - run_step Ho. cbn [mbind res_bind]. use_extraction Ho.
    + use_hashable Ho Hh. run_leaf.
    + run_leaf.
Qed.















(** C8, as stated, fails: the extraction is done by the local Llama client
    (the two adapters before it raise), the job ends complete, and its cost
    estimate is the 0.008 of its priority, not zero. *)
Lemma local_extraction_is_charged :
  Bridge.try_llm_extraction Scenario.local_llama_answers
    "The council met the residents." "report"
    (PDict [("dcterms:publisher", PStr "City Council")])
    = [Scenario.llama_stakeholder] ∧
  Bridge.local_llama_candidate Scenario.local_llama_answers
    "The council met the residents." "report" = Ok [Scenario.llama_stakeholder] ∧
  (results ← Bridge.extract_stakeholders_enhanced Scenario.local_llama_answers
               (PStr "report") (PStr "/srv/docex/database/jsonld");
   py_get results "stakeholders" PNone) = Ok (PList [Scenario.llama_stakeholder]) ∧
  Jobs.status (Jobs.final (Jobs.run_extraction_job
                             (Scenario.worker Scenario.local_llama_answers)
                             Scenario.submitted)) = "complete" ∧
  Jobs.cost_estimate (Jobs.final (Jobs.run_extraction_job
                                    (Scenario.worker Scenario.local_llama_answers)
                                    Scenario.submitted)) = (8 # 1000)%Q ∧
  ¬ (Jobs.cost_estimate (Jobs.final (Jobs.run_extraction_job
                                       (Scenario.worker Scenario.local_llama_answers)
                                       Scenario.submitted)) == 0)%Q.
Proof.
  repeat split; try (vm_compute; reflexivity).
  vm_compute. discriminate.
Qed.

Lemma cost_table (job : Jobs.ExtractionJob) :
  hashable (Jobs.priority job) = true →
  Jobs.calculate_extraction_cost job =
    Ok (if str_is (Jobs.priority job) "quality" then (8 # 1000)%Q
        else if str_is (Jobs.priority job) "speed" then (2 # 1000)%Q
        else 0%Q).
Proof.
  intros Hh. unfold Jobs.calculate_extraction_cost.
  rewrite dict_get_hashable by exact Hh. f_equal.
  destruct (Jobs.priority job) as [| | | | k | |]; try reflexivity.
  cbn [assoc str_is].
  destruct (String.eqb_spec k "cost") as [-> | ?]; [reflexivity |].
  destruct (String.eqb k "quality"); [reflexivity |].
  destruct (String.eqb k "speed"); [reflexivity |].
  destruct (String.eqb k "privacy"); reflexivity.
Qed.

(** C8, amended: the cost estimate of a job that ends complete is the
    constant that [calculate_extraction_cost] gives for its priority: 0.008
    for quality, 0.002 for speed, and zero for every other priority, that
    is, exactly when the model recorded for the priority is not GPT-4o or
    DeepSeek-V3.  It depends neither on the input and output sizes nor on
    the adapter that did the extraction. *)
Theorem complete_job_cost_is_priority_constant (w : Jobs.World) (now : Q)
  (id : string) (fn pr : pyval) (opts : list (string * pyval)) :
  Jobs.status (Jobs.final (Jobs.run_extraction_job w (Jobs.new_job now id fn pr opts)))
    = "complete" →
  Jobs.cost_estimate (Jobs.final (Jobs.run_extraction_job w (Jobs.new_job now id fn pr opts)))
    = (if str_is pr "quality" then (8 # 1000)%Q
       else if str_is pr "speed" then (2 # 1000)%Q
       else 0%Q) ∧
  (Some <$> Jobs.get_model_for_priority pr)
    = Ok (Jobs.model_used
            (Jobs.final (Jobs.run_extraction_job w (Jobs.new_job now id fn pr opts)))).
Proof.
  intros Hdone.
  destruct (run_facts_hold w now id fn pr opts) as (_ & _ & _ & _ & _ & H).
  destruct (run_failure w (Jobs.new_job now id fn pr opts)).
  - destruct H as (_ & _ & _ & Hcost & Hmodel & _).
    cbn [Jobs.priority Jobs.new_job] in Hmodel. split; [| exact Hmodel].
    destruct (hashable pr) eqn:Hh.
    + rewrite cost_table in Hcost by exact Hh.
      cbn [Jobs.priority Jobs.new_job] in Hcost. congruence.
    + unfold Jobs.calculate_extraction_cost in Hcost.
      rewrite dict_get_unhashable in Hcost by exact Hh. discriminate Hcost.
  - destruct H as (Herr & _). rewrite Herr in Hdone. discriminate Hdone.
Qed.

Lemma complete_job_cost_is_priority_constant_witness :
  Jobs.status (Jobs.final (Jobs.run_extraction_job
                             (Scenario.worker Scenario.local_llama_answers)
                             Scenario.submitted)) = "complete" ∧
  Jobs.cost_estimate (Jobs.final (Jobs.run_extraction_job
                                    (Scenario.worker Scenario.local_llama_answers)
                                    Scenario.submitted)) = (8 # 1000)%Q.
Proof.
  assert (Hdone : Jobs.status (Jobs.final (Jobs.run_extraction_job
                     (Scenario.worker Scenario.local_llama_answers)
                     Scenario.submitted)) = "complete") by (vm_compute; reflexivity).
  split; [exact Hdone |].
  exact (proj1 (complete_job_cost_is_priority_constant
                  (Scenario.worker Scenario.local_llama_answers) 1740823200
                  "extract_1_1740823200" (PStr "report") (PStr "quality")
                  [("use_context", PBool true);
                   ("detailed_output", PBool true);
                   ("jsonld_dir", PStr "/srv/docex/database/jsonld")] Hdone)).
Defined.

(** The size-based cost model exists in the agent: [_calculate_cost] is zero
    for the local model and is computed from the token estimates for the
    metered ones.  It is stored in the agent's [ExtractionResult], which the
    bridge prints and drops; the job's cost estimate never reads it. *)
Lemma agent_cost_of_local_model (py_str : list pyval → string) (content : string)
  (result : Agent.ExtractionResult) :
  Agent._calculate_cost py_str Agent.llama content result = Ok PrimFloat.zero.
Proof. reflexivity. Qed.

(** * Further properties of the code *)

(** ** Selection *)

Lemma str_in_spec (x : string) (l : list string) : Agent.str_in x l = true ↔ In x l.
Proof.
  unfold Agent.str_in. rewrite existsb_exists. split.
  - intros (y & Hy & Heq). apply String.eqb_eq in Heq. by subst.
  - intros H. exists x. split; [exact H | apply String.eqb_refl].
Qed.

Lemma select_model_sound
  (self : Agent.DataExtractionAgent) (strategy priority m : string) :
  Agent._select_model self strategy priority = Ok m →
  ∃ applicable_models,
    assoc strategy (Agent.model_strategies self) = Some applicable_models ∧
    In m applicable_models ∧
    Agent.available self m = true.
Proof.
  unfold Agent._select_model.
  destruct (assoc strategy (Agent.model_strategies self)) as [models |]; [| discriminate].
  intros H. exists models. split; [reflexivity |].
  assert (Hin : In m (List.filter (Agent.available self) models)).
  { destruct (List.filter (Agent.available self) models) as [| first rest] eqn:Hf;
      [discriminate H |].
    repeat match type of H with
           | (if ?c then _ else _) = _ =>
               let E := fresh "E" in
               destruct c eqn:E;
               [injection H as <-; apply andb_true_iff in E as [_ E];
                by apply str_in_spec in E |]
           end.
      injection H as <-; by left. }
  apply filter_In in Hin. exact Hin.
Qed.

(** X1: a model that [_select_model] returns is one of the strategy's
    applicable models and is marked available; this holds for every
    priority and every configuration. *)
Theorem select_model_is_applicable_and_available
  (self : Agent.DataExtractionAgent) (strategy priority m : string) :
  Agent._select_model self strategy priority = Ok m →
  ∃ applicable_models,
    assoc strategy (Agent.model_strategies self) = Some applicable_models ∧
    In m applicable_models ∧
    Agent.available self m = true.
Proof. apply select_model_sound. Qed.

Lemma select_model_is_applicable_and_available_witness :
  Agent._select_model Examples.local_only "ollama_structured" "privacy"
    = Ok "llama3.1:8b-instruct-q8_0" ∧
  ∃ applicable_models,
    assoc "ollama_structured" (Agent.model_strategies Examples.local_only)
      = Some applicable_models ∧
    In "llama3.1:8b-instruct-q8_0" applicable_models ∧
    Agent.available Examples.local_only "llama3.1:8b-instruct-q8_0" = true.
Proof.
  assert (H : Agent._select_model Examples.local_only "ollama_structured" "privacy"
              = Ok "llama3.1:8b-instruct-q8_0") by (vm_compute; reflexivity).
  split; [exact H |].
  exact (select_model_is_applicable_and_available Examples.local_only
           "ollama_structured" "privacy" "llama3.1:8b-instruct-q8_0" H).
Defined.

(** X2: a selection made without an explicit model, with or without an
    explicit strategy, only ever yields a model that is marked available. *)
Theorem selection_without_model_is_available
  (self : Agent.DataExtractionAgent) (priority : string) (strategy : option string)
  (s m : string) :
  Agent.select self priority strategy None = Ok (s, m) →
  Agent.available self m = true.
Proof.
  unfold Agent.select. cbn [Agent.given]. intros H.
  apply res_bind_Ok in H as (m' & Hm & H). injection H as _ <-.
  by apply select_model_sound in Hm as (_ & _ & _ & Hav).
Qed.

Lemma selection_without_model_is_available_witness :
  Agent.select Examples.remote_only "speed" None None
    = Ok ("json_mode_guided", "deepseek/DeepSeek-V3-0324") ∧
  Agent.available Examples.remote_only "deepseek/DeepSeek-V3-0324" = true.
Proof.
  assert (H : Agent.select Examples.remote_only "speed" None None
              = Ok ("json_mode_guided", "deepseek/DeepSeek-V3-0324"))
    by (vm_compute; reflexivity).
  split; [exact H |].
  exact (selection_without_model_is_available Examples.remote_only "speed" None
           "json_mode_guided" "deepseek/DeepSeek-V3-0324" H).
Defined.

Lemma filter_unavailable (self : Agent.DataExtractionAgent) (models : list string) :
  (∀ m, Agent.available self m = false) →
  List.filter (Agent.available self) models = [].
Proof.
  intros Hnone. induction models as [| m models IH]; [reflexivity |].
  cbn [List.filter]. by rewrite Hnone.
Qed.

(** X3: when no model is marked available, a selection without an explicit
    model raises, for every priority and every explicit strategy: the
    default strategy guided_json_prompting is chosen, and [_select_model]
    finds no model for it (or does not know the strategy). *)
Theorem selection_raises_when_nothing_available
  (self : Agent.DataExtractionAgent) (priority : string) (strategy : option string) :
  (∀ m, Agent.available self m = false) →
  Agent._select_strategy self priority None = "guided_json_prompting" ∧
  ∃ e, Agent.select self priority strategy None = Raise e.
Proof.
  intros Hnone. split.
  - unfold Agent._select_strategy. rewrite !Hnone, !andb_false_r. reflexivity.
  - unfold Agent.select, Agent._select_model. cbn [Agent.given].
    destruct (assoc _ (Agent.model_strategies self)) as [models |].
    + rewrite (filter_unavailable _ _ Hnone). by eexists.
    + by eexists.
Qed.

Lemma selection_raises_when_nothing_available_witness :
  (∀ m, Agent.available (Examples.agent_with ∅) m = false) ∧
  Agent._select_strategy (Examples.agent_with ∅) "quality" None
    = "guided_json_prompting" ∧
  ∃ e, Agent.select (Examples.agent_with ∅) "quality" None None = Raise e.
Proof.
  assert (H : ∀ m, Agent.available (Examples.agent_with ∅) m = false).
  { intros m. unfold Agent.available, Examples.agent_with.
    cbn [Agent.model_availability]. by rewrite lookup_empty. }
  split; [exact H |].
  exact (selection_raises_when_nothing_available (Examples.agent_with ∅) "quality"
           None H).
Defined.

(** ** The availability probe *)

Lemma probed_gpt4o (self : Agent.DataExtractionAgent) (github local : Res pyval) :
  Agent.available (Probe._test_model_availability self github local) Agent.gpt4o
    = Probe.is_connected github.
Proof.
  unfold Agent.available, Probe._test_model_availability.
  cbn [Agent.model_availability].
  rewrite lookup_insert_ne by discriminate.
  rewrite lookup_insert_ne by discriminate.
  by rewrite lookup_insert_eq.
Qed.

Lemma probed_deepseek (self : Agent.DataExtractionAgent) (github local : Res pyval) :
  Agent.available (Probe._test_model_availability self github local) Agent.deepseek
    = Probe.is_connected github.
Proof.
  unfold Agent.available, Probe._test_model_availability.
  cbn [Agent.model_availability].
  rewrite lookup_insert_ne by discriminate.
  rewrite lookup_insert_eq. cbn [default].
  by rewrite lookup_insert_eq.
Qed.

Lemma probed_llama (self : Agent.DataExtractionAgent) (github local : Res pyval) :
  Agent.available (Probe._test_model_availability self github local) Agent.llama
    = Probe.is_connected local.
Proof.
  unfold Agent.available, Probe._test_model_availability.
  cbn [Agent.model_availability]. by rewrite lookup_insert_eq.
Qed.

Lemma probed_other (self : Agent.DataExtractionAgent) (github local : Res pyval)
  (m : string) :
  m ≠ Agent.gpt4o → m ≠ Agent.deepseek → m ≠ Agent.llama →
  Agent.available (Probe._test_model_availability self github local) m = false.
Proof.
  intros H1 H2 H3. unfold Agent.available, Probe._test_model_availability.
  cbn [Agent.model_availability].
  rewrite !lookup_insert_ne by done. by rewrite lookup_empty.
Qed.

Lemma probed_available
  (self : Agent.DataExtractionAgent) (github local : Res pyval) (m : string) :
  Agent.available (Probe._test_model_availability self github local) m =
    if String.eqb m Agent.gpt4o || String.eqb m Agent.deepseek
    then Probe.is_connected github
    else if String.eqb m Agent.llama then Probe.is_connected local
    else false.
Proof.
  destruct (String.eqb_spec m Agent.gpt4o) as [-> | H1]; [apply probed_gpt4o |].
  destruct (String.eqb_spec m Agent.deepseek) as [-> | H2]; [apply probed_deepseek |].
  destruct (String.eqb_spec m Agent.llama) as [-> | H3]; [apply probed_llama |].
  by apply probed_other.
Qed.

(** X4: the probe records exactly three model ids, whatever the two
    connection tests return or raise: GPT-4o is available iff the GitHub
    endpoint answers "connected", DeepSeek always has GPT-4o's value, the
    local model follows its own test, and every other model id is
    unavailable. *)
Theorem probe_records_three_models
  (self : Agent.DataExtractionAgent) (github local : Res pyval) (m : string) :
  Agent.available (Probe._test_model_availability self github local) m =
    if String.eqb m Agent.gpt4o || String.eqb m Agent.deepseek
    then Probe.is_connected github
    else if String.eqb m Agent.llama then Probe.is_connected local
    else false.
Proof. apply probed_available. Qed.

(** X5: an agent whose availability comes from the probe never selects the
    model id "openai/gpt-4o": the probe records GPT-4o under the key
    "gpt-4o", so the quality branch of [_select_model] that returns
    "openai/gpt-4o" is never taken; any model selected without an explicit
    one is among the three probed ids. *)
Theorem probed_agent_selects_probed_models
  (self : Agent.DataExtractionAgent) (github local : Res pyval)
  (priority : string) (strategy : option string) (s m : string) :
  Agent.select (Probe._test_model_availability self github local) priority strategy None
    = Ok (s, m) →
  m ≠ "openai/gpt-4o" ∧ (m = Agent.gpt4o ∨ m = Agent.deepseek ∨ m = Agent.llama).
Proof.
  unfold Agent.select. cbn [Agent.given]. intros H.
  apply res_bind_Ok in H as (m' & Hm & H).
  assert (m' = m) as -> by congruence. clear H.
  apply select_model_sound in Hm as (_ & _ & _ & Hav).
  rewrite probed_available in Hav.
  destruct (String.eqb_spec m Agent.gpt4o) as [Heq | H1];
    [rewrite Heq; split; [discriminate | auto] |].
  destruct (String.eqb_spec m Agent.deepseek) as [Heq | H2];
    [rewrite Heq; split; [discriminate | auto] |].
  destruct (String.eqb_spec m Agent.llama) as [Heq | H3];
    [rewrite Heq; split; [discriminate | auto] |].
  discriminate Hav.
Qed.

Lemma probed_agent_selects_probed_models_witness :
  Agent.select (Probe._test_model_availability (Examples.agent_with ∅)
                  (Ok (PDict [("status", PStr "connected")])) (Raise "Connection refused"))
    "quality" None None = Ok ("native_structured", "gpt-4o") ∧
  "gpt-4o" ≠ "openai/gpt-4o".
Proof.
  assert (H : Agent.select
                (Probe._test_model_availability (Examples.agent_with ∅)
                   (Ok (PDict [("status", PStr "connected")])) (Raise "Connection refused"))
                "quality" None None = Ok ("native_structured", "gpt-4o"))
    by (vm_compute; reflexivity).
  split; [exact H |].
  exact (proj1 (probed_agent_selects_probed_models (Examples.agent_with ∅)
                  (Ok (PDict [("status", PStr "connected")])) (Raise "Connection refused")
                  "quality" None "native_structured" "gpt-4o" H)).
Defined.

(** X6: on a probed agent whose GitHub endpoint is connected,
    [_select_strategy] returns native_structured for quality,
    ollama_structured for privacy, cost and speed when the local model is
    connected, and json_mode_guided in every other case; the last two
    branches of the function (premium fallback, selection by model) are
    never reached. *)
Theorem probed_strategy_when_remote_connected
  (self : Agent.DataExtractionAgent) (github local : Res pyval)
  (priority : string) (model : option string) :
  Probe.is_connected github = true →
  Agent._select_strategy (Probe._test_model_availability self github local) priority model =
    if String.eqb priority "quality" then "native_structured"
    else if Agent.str_in priority ["privacy"; "cost"; "speed"] && Probe.is_connected local
    then "ollama_structured"
    else "json_mode_guided".
Proof.
  intros Hgh. unfold Agent._select_strategy.
  rewrite probed_gpt4o, probed_deepseek, probed_llama, Hgh.
  cbn [Agent.str_in existsb]. rewrite !orb_false_r, !andb_true_r.
  destruct (String.eqb priority "quality"); [reflexivity |].
  destruct (String.eqb priority "privacy"), (Probe.is_connected local);
    cbn [andb orb]; try reflexivity;
    destruct (String.eqb priority "cost" || String.eqb priority "speed"); reflexivity.
Qed.

Lemma probed_strategy_when_remote_connected_witness :
  Probe.is_connected (Ok (PDict [("status", PStr "connected")])) = true ∧
  Agent._select_strategy
    (Probe._test_model_availability (Examples.agent_with ∅)
       (Ok (PDict [("status", PStr "connected")])) (Raise "Connection refused"))
    "privacy" None = "json_mode_guided".
Proof.
  split; [reflexivity |].
  exact (probed_strategy_when_remote_connected (Examples.agent_with ∅)
           (Ok (PDict [("status", PStr "connected")])) (Raise "Connection refused")
           "privacy" None eq_refl).
Defined.

(** ** Performance statistics *)

Lemma record_all_app (rs : list Agent.ExtractionResult) (r : Agent.ExtractionResult)
  (st : Agent.PerformanceStats) :
  Stats.record_all (rs ++ [r]) st = Agent.record_result r (Stats.record_all rs st).
Proof. unfold Stats.record_all. by rewrite fold_left_app. Qed.

Lemma count_where_app (p : Agent.ExtractionResult → bool)
  (rs : list Agent.ExtractionResult) (r : Agent.ExtractionResult) :
  Stats.count_where p (rs ++ [r]) =
    Stats.count_where p rs + (if p r then 1 else 0).
Proof.
  unfold Stats.count_where. rewrite List.filter_app, List.length_app.
  cbn [List.filter]. destruct (p r); cbn [List.length]; lia.
Qed.

Lemma count_where_bounds (p : Agent.ExtractionResult → bool)
  (rs : list Agent.ExtractionResult) :
  0 ≤ Stats.count_where p rs ≤ Z.of_nat (List.length rs).
Proof.
  unfold Stats.count_where. pose proof (List.filter_length_le p rs). lia.
Qed.

Lemma counters_after (rs : list Agent.ExtractionResult) :
  Agent.total_extractions (Stats.record_all rs Stats.initial)
    = Z.of_nat (List.length rs) ∧
  Agent.successful_extractions (Stats.record_all rs Stats.initial)
    = Stats.count_where Agent.success rs.
Proof.
  induction rs as [| r rs IH] using rev_ind; [by split |].
  rewrite record_all_app, count_where_app, List.length_app.
  destruct IH as [IHt IHs]. cbn [Agent.record_result Agent.total_extractions
    Agent.successful_extractions List.length].
  rewrite IHt, IHs. split; [lia |]. destruct (Agent.success r); lia.
Qed.

(** X7: after any sequence of recorded results, starting from the
    statistics of a new agent, total_extractions is the number of results,
    successful_extractions is the number of successful ones, so
    0 <= successful <= total, and the reported success rate lies between 0
    and 1 (it is 0 when nothing was recorded). *)
Theorem statistics_count_results (rs : list Agent.ExtractionResult) :
  Agent.total_extractions (Stats.record_all rs Stats.initial)
    = Z.of_nat (List.length rs) ∧
  Agent.successful_extractions (Stats.record_all rs Stats.initial)
    = Stats.count_where Agent.success rs ∧
  0 ≤ Agent.successful_extractions (Stats.record_all rs Stats.initial)
    ≤ Agent.total_extractions (Stats.record_all rs Stats.initial) ∧
  (0 <= Stats.success_rate (Stats.record_all rs Stats.initial) <= 1)%Q.
Proof.
  destruct (counters_after rs) as [Ht Hs].
  pose proof (count_where_bounds Agent.success rs) as Hb.
  split; [exact Ht |]. split; [exact Hs |]. split; [lia |].
  unfold Stats.success_rate. rewrite Ht, Hs.
  destruct (Z.gtb_spec (Z.of_nat (List.length rs)) 0) as [Hpos | Hzero].
  - split.
    + apply Qle_shift_div_l; [by (unfold Qlt; cbn; lia) |].
      rewrite Qmult_0_l. unfold Qle. cbn. lia.
    + apply Qle_shift_div_r; [by (unfold Qlt; cbn; lia) |].
      rewrite Qmult_1_l. unfold Qle. cbn. lia.
  - split; unfold Qle; cbn; lia.
Qed.

Lemma bump_lookup (k s : string) (usage : gmap string Z) :
  Agent.bump k usage !! s =
    if String.eqb k s then Some (default 0 (usage !! s) + 1) else usage !! s.
Proof.
  unfold Agent.bump. destruct (String.eqb_spec k s) as [-> | Hne].
  - by rewrite lookup_insert_eq.
  - by rewrite lookup_insert_ne.
Qed.

Lemma usage_after (key : Agent.ExtractionResult → string)
  (usage : Agent.PerformanceStats → gmap string Z)
  (rs : list Agent.ExtractionResult) (s : string) :
  usage Stats.initial = ∅ →
  (∀ r st, usage (Agent.record_result r st) = Agent.bump (key r) (usage st)) →
  usage (Stats.record_all rs Stats.initial) !! s =
    if Stats.count_where (fun r => String.eqb (key r) s) rs >? 0
    then Some (Stats.count_where (fun r => String.eqb (key r) s) rs)
    else None.
Proof.
  intros Hinit Hstep. induction rs as [| r rs IH] using rev_ind.
  - unfold Stats.record_all. cbn [List.fold_left]. rewrite Hinit. apply lookup_empty.
  - rewrite record_all_app, Hstep, bump_lookup, count_where_app, IH.
    pose proof (count_where_bounds (fun r => String.eqb (key r) s) rs) as Hb.
    destruct (String.eqb (key r) s).
    + destruct (Z.gtb_spec (Stats.count_where (fun r => String.eqb (key r) s) rs) 0);
        destruct (Z.gtb_spec (Stats.count_where (fun r => String.eqb (key r) s) rs + 1) 0);
        cbn [default]; try lia; f_equal; lia.
    + by rewrite Z.add_0_r.
Qed.

(** X8: after any sequence of recorded results, the usage counter of a
    strategy (of a model) is the number of recorded results that used it,
    and a strategy (a model) that no result used has no entry. *)
Theorem usage_counts_results (rs : list Agent.ExtractionResult) (s : string) :
  Agent.strategy_usage (Stats.record_all rs Stats.initial) !! s =
    (if Stats.count_where (fun r => String.eqb (Agent.strategy_used r) s) rs >? 0
     then Some (Stats.count_where (fun r => String.eqb (Agent.strategy_used r) s) rs)
     else None) ∧
  Agent.model_usage (Stats.record_all rs Stats.initial) !! s =
    (if Stats.count_where (fun r => String.eqb (Agent.model_used r) s) rs >? 0
     then Some (Stats.count_where (fun r => String.eqb (Agent.model_used r) s) rs)
     else None).
Proof.
  split.
  - by apply (usage_after Agent.strategy_used Agent.strategy_usage).
  - by apply (usage_after Agent.model_used Agent.model_usage).
Qed.

Lemma float_sum_app (xs : list PrimFloat.float) (x : PrimFloat.float) :
  Stats.float_sum (xs ++ [x]) = PrimFloat.add (Stats.float_sum xs) x.
Proof. unfold Stats.float_sum. by rewrite fold_left_app. Qed.

(** X9: the statistics are running folds in binary64 arithmetic.  After
    any sequence of recorded results total_cost is the sum of their cost
    estimates added from the left, every addition rounded, and each
    recorded result replaces the average by the value of line 538 for the
    old average, the new count and the result's processing time.  Neither
    is the exact sum or mean, and both depend on the order of the results:
    the costs or times 0.1, 0.2, 0.3 give a total above 0.6 and an average
    above 0.2, the same numbers in the other order give the total 0.6 and
    an average below 0.2. *)
Theorem statistics_are_float_folds (rs : list Agent.ExtractionResult)
  (r : Agent.ExtractionResult) :
  Agent.total_cost (Stats.record_all rs Stats.initial)
    = Stats.float_sum (List.map Agent.cost_estimate rs) ∧
  Agent.average_processing_time (Stats.record_all (rs ++ [r]) Stats.initial)
    = match Agent.new_average
              (Agent.average_processing_time (Stats.record_all rs Stats.initial))
              (Z.of_nat (List.length rs) + 1) (Agent.processing_time r) with
      | Ok new_avg => new_avg
      | Raise _ => Agent.average_processing_time (Stats.record_all rs Stats.initial)
      end ∧
  PrimFloat.ltb (float_lit 6 10)
    (Agent.total_cost
       (Stats.record_all [Stats.timed (float_lit 1 10) (float_lit 1 10);
                          Stats.timed (float_lit 2 10) (float_lit 2 10);
                          Stats.timed (float_lit 3 10) (float_lit 3 10)]
          Stats.initial)) = true ∧
  PrimFloat.eqb (float_lit 6 10)
    (Agent.total_cost
       (Stats.record_all [Stats.timed (float_lit 3 10) (float_lit 3 10);
                          Stats.timed (float_lit 2 10) (float_lit 2 10);
                          Stats.timed (float_lit 1 10) (float_lit 1 10)]
          Stats.initial)) = true ∧
  PrimFloat.ltb (float_lit 2 10)
    (Agent.average_processing_time
       (Stats.record_all [Stats.timed (float_lit 1 10) (float_lit 1 10);
                          Stats.timed (float_lit 2 10) (float_lit 2 10);
                          Stats.timed (float_lit 3 10) (float_lit 3 10)]
          Stats.initial)) = true ∧
  PrimFloat.ltb
    (Agent.average_processing_time
       (Stats.record_all [Stats.timed (float_lit 3 10) (float_lit 3 10);
                          Stats.timed (float_lit 2 10) (float_lit 2 10);
                          Stats.timed (float_lit 1 10) (float_lit 1 10)]
          Stats.initial))
    (float_lit 2 10) = true.
Proof.
  split.
  { induction rs as [| x rs IH] using rev_ind; [reflexivity |].
    rewrite record_all_app, List.map_app. cbn [List.map].
    rewrite float_sum_app. cbn [Agent.record_result Agent.total_cost].
    by rewrite IH. }
  split.
  { rewrite record_all_app. cbn [Agent.record_result Agent.average_processing_time].
    by rewrite (proj1 (counters_after rs)). }
  repeat split; vm_compute; reflexivity.
Qed.

(** ** The bridge, further *)

Lemma placeholder_for_dict (source_filename : string) (d : list (string * pyval)) :
  ∃ s, Bridge.create_placeholder_stakeholder source_filename (PDict d) = Ok [s].
Proof. unfold Bridge.create_placeholder_stakeholder. cbn. by eexists. Qed.

Lemma placeholder_Ok (source_filename : string) (metadata : pyval) (l : list pyval) :
  Bridge.create_placeholder_stakeholder source_filename metadata = Ok l → l ≠ [].
Proof.
  unfold Bridge.create_placeholder_stakeholder. intros H.
  apply res_bind_Ok in H as (p & _ & H).
  apply res_bind_Ok in H as (o & _ & H).
  injection H as <-. discriminate.
Qed.

Lemma perform_Ok_nonempty (w : Bridge.World) (content : string) (structure : pyval)
  (source_filename : string) (metadata : pyval) (l : list pyval) :
  Bridge.perform_stakeholder_extraction w content structure source_filename metadata
    = Ok l → l ≠ [].
Proof.
  unfold Bridge.perform_stakeholder_extraction, try_except.
  destruct (String.eqb content "").
  - destruct (Bridge.create_placeholder_stakeholder source_filename metadata) eqn:Hp.
    + intros [= <-]. by apply placeholder_Ok in Hp.
    + discriminate.
  - destruct (Bridge.try_llm_extraction w content source_filename metadata) as [| s rest].
    + destruct (Bridge.enhanced_pattern_extraction w content source_filename metadata)
        as [[| s rest] | e]; cbn [mbind res_bind].
      * destruct (Bridge.create_placeholder_stakeholder source_filename metadata) eqn:Hp;
          [intros [= <-]; by apply placeholder_Ok in Hp | discriminate].
      * intros [= <-]. discriminate.
      * apply placeholder_Ok.
    + intros [= <-]. discriminate.
Qed.

(** X10: [perform_stakeholder_extraction] never returns an empty list: what
    it returns comes from an LLM adapter, from pattern matching, or is the
    one placeholder stakeholder.  When the metadata is a dictionary it does
    not raise either, whatever the adapters and the pattern matching do. *)
Theorem perform_stakeholder_extraction_nonempty (w : Bridge.World) (content : string)
  (structure : pyval) (source_filename : string) (metadata : pyval) :
  (∀ l, Bridge.perform_stakeholder_extraction w content structure source_filename metadata
          = Ok l → l ≠ []) ∧
  ((∃ d, metadata = PDict d) →
   ∃ s l, Bridge.perform_stakeholder_extraction w content structure source_filename
            metadata = Ok (s :: l)).
Proof.
  split; [intros l; apply perform_Ok_nonempty |].
  intros [d ->].
  destruct (Bridge.perform_stakeholder_extraction w content structure source_filename
              (PDict d)) as [[| s l] | e] eqn:H.
  - by apply perform_Ok_nonempty in H.
  - by exists s, l.
  - exfalso. revert H. unfold Bridge.perform_stakeholder_extraction, try_except.
    destruct (placeholder_for_dict source_filename d) as [p Hp]. rewrite Hp.
    destruct (String.eqb content ""); [discriminate |].
    destruct (Bridge.try_llm_extraction w content source_filename (PDict d));
      [| discriminate].
    destruct (Bridge.enhanced_pattern_extraction w content source_filename (PDict d))
      as [[| ? ?] | ?]; discriminate.
Qed.

Lemma create_extraction_result_total (w : Bridge.World) (stakeholders : list pyval)
  (filename : string) (metadata r : pyval) :
  Bridge.create_extraction_result w stakeholders filename metadata = Ok r →
  (∃ d, r = PDict d) ∧
  result_stakeholders r = Ok (PList stakeholders) ∧
  result_total r = Ok (PInt (Z.of_nat (List.length stakeholders))).
Proof.
  unfold Bridge.create_extraction_result. intros H.
  apply res_bind_Ok in H as (avg & _ & H).
  apply res_bind_Ok in H as (types & _ & H).
  apply res_bind_Ok in H as (typeset & _ & H).
  apply res_bind_Ok in H as (method & _ & H).
  injection H as <-. split; [by eexists |]. split; reflexivity.
Qed.

Lemma error_result_total (w : Bridge.World) (filename msg : string) :
  ∃ d, Bridge.generate_error_result w (PStr filename) msg = Ok (PDict d) ∧
       result_stakeholders (PDict d) = Ok (PList []) ∧
       result_total (PDict d) = Ok (PInt 0).
Proof. eexists. split; [reflexivity |]. split; reflexivity. Qed.

(** X11: every dictionary that [extract_stakeholders_enhanced] returns has
    a stakeholders list and a summary whose totalStakeholders is the length
    of that list; and the list is empty exactly when the extraction failed
    (metadata file not found, or an exception inside): a result of a
    successful extraction always names at least one stakeholder. *)
Theorem result_counts_stakeholders (w : Bridge.World) (filename : string)
  (jsonld_dir : pyval) :
  ∃ d l, Bridge.extract_stakeholders_enhanced w (PStr filename) jsonld_dir
           = Ok (PDict d) ∧
         result_stakeholders (PDict d) = Ok (PList l) ∧
         result_total (PDict d) = Ok (PInt (Z.of_nat (List.length l))) ∧
         (l = [] ↔ extraction_failed w filename jsonld_dir = true).
Proof.
  unfold extraction_failed, Bridge.extract_stakeholders_enhanced,
    Bridge.extract_stakeholders_from_jsonld_metadata, try_except.
  destruct (Bridge.extraction_body w filename jsonld_dir) as [r | e] eqn:Hbody.
  2: { destruct (error_result_total w filename e) as (d & -> & Hs & Ht).
       exists d, []. split; [reflexivity |]. by repeat split. }
  unfold Bridge.extraction_body in Hbody.
  destruct (Bridge.resolve_jsonld_path w filename jsonld_dir) as [path | e];
    [| discriminate Hbody].
  cbn [mbind res_bind] in Hbody.
  destruct (Bridge.path_exists w path); cbn [negb] in Hbody |- *.
  - apply res_bind_Ok in Hbody as (metadata & _ & Hbody).
    apply res_bind_Ok in Hbody as (content & _ & Hbody).
    apply res_bind_Ok in Hbody as (structure & _ & Hbody).
    apply res_bind_Ok in Hbody as (paragraphs & _ & Hbody).
    apply res_bind_Ok in Hbody as (n & _ & Hbody).
    apply res_bind_Ok in Hbody as (stakeholders & Hperf & Hbody).
    apply perform_Ok_nonempty in Hperf.
    apply create_extraction_result_total in Hbody as ([d ->] & Hs & Ht).
    exists d, stakeholders. split; [reflexivity |]. split; [exact Hs |].
    split; [exact Ht |]. split; [contradiction | discriminate].
  - apply res_bind_Ok in Hbody as (_ & _ & Hbody).
    destruct (error_result_total w filename ("JSON-LD file not found: " ++ path))
      as (d & Hd & Hs & Ht).
    rewrite Hd in Hbody. injection Hbody as <-.
    exists d, []. split; [reflexivity |]. by repeat split.
Qed.

Lemma os_path_join_str (a b : string) : os_path_join (PStr a) b = Ok (posix_join a b).
Proof.
  unfold os_path_join, posix_join.
  destruct (startswith b "/"); [reflexivity |].
  destruct (String.eqb a "" || endswith a "/"); reflexivity.
Qed.

(** X12: for a non-empty directory string the search for the metadata file
    never raises, the path it settles on is one of the candidates (the name
    itself, the name with ".json" appended unless it already ends so, and
    for a ".ttl" name the name without ".ttl" plus ".json"), and that path is
    missing only if every candidate is missing: "file not found" is
    reported only when none of the candidates exists. *)
Theorem metadata_file_search (w : Bridge.World) (filename dir : string) :
  dir ≠ "" →
  ∃ p, Bridge.resolve_jsonld_path w filename (PStr dir) = Ok p ∧
       In p (jsonld_candidates dir filename) ∧
       (Bridge.path_exists w p = false →
        Forall (fun c => Bridge.path_exists w c = false) (jsonld_candidates dir filename)).
Proof.
  intros Hdir. unfold Bridge.resolve_jsonld_path, Bridge.effective_jsonld_dir,
    jsonld_candidates.
  cbn [truthy]. destruct (String.eqb_spec dir "") as [-> | _]; [contradiction |].
  cbn [negb]. rewrite !os_path_join_str. cbn [mbind res_bind].
  destruct (Bridge.path_exists w (posix_join dir filename)) eqn:H0.
  { eexists. split; [reflexivity |]. split; [by left |]. congruence. }
  destruct (endswith filename ".json"); cbn [mbind res_bind].
  - rewrite H0. cbn [negb andb].
    destruct (endswith filename ".ttl"); cbn [app].
    + eexists. split; [reflexivity |]. split; [right; by left |].
      intros H2. by repeat constructor.
    + eexists. split; [reflexivity |]. split; [by left |].
      intros _. by repeat constructor.
  - destruct (Bridge.path_exists w (posix_join dir (filename ++ ".json"))) eqn:H1;
      cbn [negb andb].
    + eexists. split; [reflexivity |]. split; [right; by left |]. congruence.
    + destruct (endswith filename ".ttl"); cbn [app].
      * eexists. split; [reflexivity |]. split; [right; right; by left |].
        intros H2. by repeat constructor.
      * eexists. split; [reflexivity |]. split; [right; by left |].
        intros _. by repeat constructor.
Qed.

Lemma metadata_file_search_witness :
  "/srv/docex/database/jsonld" ≠ "" ∧
  ∃ p, Bridge.resolve_jsonld_path Scenario.adapters_down "report"
         (PStr "/srv/docex/database/jsonld") = Ok p ∧
       In p (jsonld_candidates "/srv/docex/database/jsonld" "report") ∧
       (Bridge.path_exists Scenario.adapters_down p = false →
        Forall (fun c => Bridge.path_exists Scenario.adapters_down c = false)
               (jsonld_candidates "/srv/docex/database/jsonld" "report")).
Proof.
  assert (H : "/srv/docex/database/jsonld" ≠ "") by discriminate.
  split; [exact H |].
  exact (metadata_file_search Scenario.adapters_down "report"
           "/srv/docex/database/jsonld" H).
Defined.

(** ** Runs of [run_extraction_job], further *)

Ltac run_leaf_more :=
  subst; cbn [mbind res_bind];
  split; [vm_compute; reflexivity |];
  split; [vm_compute; reflexivity |];
  unfold observed; cbn [List.map Jobs.trace Jobs.ev_job];
  split; [repeat (apply List.Forall_cons; [repeat split; reflexivity |]);
          apply List.Forall_nil |];
  split; [repeat (apply List.Forall_cons;
                  [first [left; reflexivity | right; reflexivity] |]);
          apply List.Forall_nil |];
  split; [let H := fresh in
          intros H; first [discriminate H | vm_compute; reflexivity] |];
  repeat match goal with |- _ ∧ _ => split end; vm_compute; reflexivity.

Lemma run_facts_more_hold (w : Jobs.World) (now : Q) (id : string) (fn pr : pyval)
  (opts : list (string * pyval)) :
  run_facts_more w (Jobs.new_job now id fn pr opts).
Proof.
  unfold run_facts_more, run_failure, preparation, model_of_priority.
  remember (Jobs.run_extraction_job w (Jobs.new_job now id fn pr opts)) as o eqn:Ho.
  unfold Jobs.run_extraction_job, Jobs.try_exceptM, Jobs.run_body in Ho.
  unfold Jobs.get_model_for_priority, dict_get.
  cbn [Jobs.filename Jobs.options Jobs.priority Jobs.new_job].
  destruct (Jobs.import_bridge w) as [[] | e].
  2: { run_step Ho. run_leaf_more. }
  run_step Ho. cbn [mbind res_bind].
  destruct (hashable pr) eqn:Hh.
  2: { run_step Ho. run_leaf_more. }
  run_step Ho. cbn [mbind res_bind].
  destruct (truthy (Jobs.create_document_metadata_from_source w fn)) eqn:Hdm.
  - run_step Ho.
    destruct (Jobs.metadata_path w opts fn) as [p | e].
    2: { run_step Ho. run_leaf_more. }
    run_step Ho. cbn [mbind res_bind].
    destruct (Jobs.write_metadata_file w p
                (Jobs.create_document_metadata_from_source w fn)) as [[] | e].
    2: { run_step Ho. run_leaf_more. }
    run_step Ho. cbn [mbind res_bind]. use_extraction Ho.
    + use_hashable Ho Hh. run_leaf_more.
    + run_leaf_more.
  - run_step Ho. cbn [mbind res_bind]. use_extraction Ho.
    + use_hashable Ho Hh. run_leaf_more.
    + run_leaf_more.
Qed.

Lemma progress_steps_adjacent (p : Z) (l1 l2 : list Jobs.ExtractionJob)
  (j j' : Jobs.ExtractionJob) :
  progress_steps p (l1 ++ j :: j' :: l2) = true →
  Jobs.status j' ≠ "error" → Jobs.progress j ≤ Jobs.progress j'.
Proof.
  revert p. induction l1 as [| x l1 IH]; intros p H Hne.
  - cbn [app progress_steps] in H.
    apply andb_true_iff in H as [_ H]. apply andb_true_iff in H as [H _].
    apply orb_true_iff in H as [H | H].
    + apply String.eqb_eq in H. contradiction.
    + by apply Z.leb_le.
  - cbn [app progress_steps] in H. apply andb_true_iff in H as [_ H].
    by apply (IH _ H).
Qed.

(** X13: in every state that a run on a new job makes observable, the
    progress is between 0 and 100, and from one state to the next it never
    decreases unless the next state has status error (the handler resets
    it to 0 after the failure). *)
Theorem run_progress_is_monotone (w : Jobs.World) (now : Q) (id : string)
  (fn pr : pyval) (opts : list (string * pyval)) :
  Forall (fun j => 0 ≤ Jobs.progress j ≤ 100)
    (observed (Jobs.new_job now id fn pr opts)
       (Jobs.run_extraction_job w (Jobs.new_job now id fn pr opts))) ∧
  ∀ (before after : list Jobs.ExtractionJob) (j j' : Jobs.ExtractionJob),
    observed (Jobs.new_job now id fn pr opts)
      (Jobs.run_extraction_job w (Jobs.new_job now id fn pr opts))
      = (before ++ j :: j' :: after)%list →
    Jobs.status j' ≠ "error" →
    Jobs.progress j ≤ Jobs.progress j'.
Proof.
  destruct (run_facts_more_hold w now id fn pr opts) as (Hrange & Hsteps & _).
  split.
  - apply Forall_forall. intros j Hj. rewrite forallb_forall in Hrange.
    apply list_elem_of_In in Hj. specialize (Hrange j Hj).
    unfold progress_in_range in Hrange. apply andb_true_iff in Hrange as [H1 H2].
    apply Z.leb_le in H1, H2. lia.
  - intros before after j j' Hsplit Hne. rewrite Hsplit in Hsteps.
    by apply (progress_steps_adjacent _ _ _ _ _ Hsteps).
Qed.

(** X14: a run never changes what identifies the job and its input: in
    every observable state job_id, filename, priority, options and
    start_time are those of the submitted job; and model_used is either
    still unset or the display name that [get_model_for_priority] gives for
    the job's priority, whichever adapter does the extraction. *)
Theorem run_keeps_job_inputs (w : Jobs.World) (now : Q) (id : string) (fn pr : pyval)
  (opts : list (string * pyval)) :
  Forall (same_inputs (Jobs.new_job now id fn pr opts))
    (observed (Jobs.new_job now id fn pr opts)
       (Jobs.run_extraction_job w (Jobs.new_job now id fn pr opts))) ∧
  Forall (model_of_priority (Jobs.new_job now id fn pr opts))
    (observed (Jobs.new_job now id fn pr opts)
       (Jobs.run_extraction_job w (Jobs.new_job now id fn pr opts))).
Proof.
  destruct (run_facts_more_hold w now id fn pr opts) as (_ & _ & Hin & Hmodel & _).
  by split.
Qed.







(** ** The store, further *)

Lemma string_app_list (s t : string) :
  list_ascii_of_string (s ++ t) = (list_ascii_of_string s ++ list_ascii_of_string t)%list.
Proof.
  induction s as [| c s IH]; [reflexivity |].
  change (String c s ++ t)%string with (String c (s ++ t)).
  cbn [list_ascii_of_string]. by rewrite IH.
Qed.

Lemma string_app_inv_tail (s1 s2 t : string) : (s1 ++ t = s2 ++ t)%string → s1 = s2.
Proof.
  intros H. apply (f_equal list_ascii_of_string) in H.
  rewrite !string_app_list in H. apply List.app_inv_tail in H.
  apply (f_equal string_of_list_ascii) in H.
  by rewrite !string_of_list_ascii_of_string in H.
Qed.

Lemma string_length_app (s t : string) :
  String.length (s ++ t) = (String.length s + String.length t)%nat.
Proof.
  induction s as [| c s IH]; [reflexivity |].
  change (String c s ++ t)%string with (String c (s ++ t)).
  cbn [String.length]. by rewrite IH.
Qed.

Lemma substring_all (t : string) : String.substring 0 (String.length t) t = t.
Proof. induction t as [| c t IH]; [reflexivity |]. cbn. by rewrite IH. Qed.

Lemma substring_app_tail (s t : string) :
  String.substring (String.length s) (String.length t) (s ++ t) = t.
Proof.
  induction s as [| c s IH]; [apply substring_all |].
  change (String c s ++ t)%string with (String c (s ++ t)). exact IH.
Qed.

Lemma substring_app_head (s t : string) :
  String.substring 0 (String.length s) (s ++ t) = s.
Proof.
  induction s as [| c s IH]; [by destruct t |].
  change (String c s ++ t)%string with (String c (s ++ t)).
  cbn [String.length String.substring]. by rewrite IH.
Qed.

Lemma endswith_app (s t : string) : endswith (s ++ t) t = true.
Proof.
  unfold endswith. rewrite string_length_app.
  destruct (Nat.leb_spec (String.length t) (String.length s + String.length t)); [| lia].
  replace (String.length s + String.length t - String.length t)%nat
    with (String.length s) by lia.
  rewrite substring_app_tail. apply String.eqb_refl.
Qed.

Lemma job_file_inj (id1 id2 : string) : Jobs.job_file id1 = Jobs.job_file id2 → id1 = id2.
Proof. apply string_app_inv_tail. Qed.

Lemma stem_job_file (id : string) : id ≠ "" → Persist.stem (Jobs.job_file id) = id.
Proof.
  intros Hid. unfold Persist.stem, Jobs.job_file. rewrite string_length_app.
  cbn [String.length].
  destruct id as [| c id]; [contradiction |].
  destruct (Nat.ltb_spec 5 (String.length (String c id) + 5)) as [_ | H];
    [| cbn [String.length] in H; lia].
  replace (String.length (String c id) + 5 - 5)%nat
    with (String.length (String c id)) by lia.
  apply substring_app_head.
Qed.

(** X17: [save_job] touches only the job's own file: whatever way the write
    ends, loading any other job gives what it gave before.  If the file
    cannot be opened the store is unchanged; if the dump fails after the
    file was opened, the job no longer loads at all, also when an earlier
    version of it was stored; in both cases [save_job] returns False. *)
Theorem save_job_touches_one_file (job : Jobs.ExtractionJob)
  (store : gmap string Jobs.file_content) :
  (∀ (o : Jobs.write_outcome) (other : string),
     other ≠ Jobs.job_id job →
     Jobs.load_job (fst (Jobs.save_job o job store)) other = Jobs.load_job store other) ∧
  Jobs.save_job Jobs.OpenFails job store = (store, false) ∧
  Jobs.load_job (fst (Jobs.save_job Jobs.DumpFails job store)) (Jobs.job_id job) = None ∧
  snd (Jobs.save_job Jobs.DumpFails job store) = false.
Proof.
  split; [| split; [reflexivity | split; [| reflexivity]]].
  - intros o other Hne.
    assert (Hfile : Jobs.job_file (Jobs.job_id job) ≠ Jobs.job_file other).
    { intros H. apply job_file_inj in H. congruence. }
    unfold Jobs.load_job.
    destruct o; cbn [Jobs.save_job Jobs.save_job_steps List.last fst];
      by rewrite ?lookup_insert_ne.
  - cbn [Jobs.save_job Jobs.save_job_steps List.last fst]. apply load_job_insert.
Qed.

Lemma assoc_assoc_set {V} (k k' : string) (v : V) (d : list (string * V)) :
  assoc k (assoc_set k' v d) = if String.eqb k k' then Some v else assoc k d.
Proof.
  induction d as [| [k0 v0] d IH]; cbn [assoc assoc_set]; [reflexivity |].
  destruct (String.eqb_spec k' k0) as [-> | Hne]; cbn [assoc].
  - destruct (String.eqb k k0); reflexivity.
  - rewrite IH. destruct (String.eqb_spec k k0) as [-> | ?]; [| reflexivity].
    destruct (String.eqb_spec k0 k'); [congruence | reflexivity].
Qed.

Lemma get_all_jobs_lookup (names : list string) (store : gmap string Jobs.file_content)
  (id : string) :
  assoc id
    (List.fold_left
       (fun jobs name =>
          match Jobs.load_job store (Persist.stem name) with
          | Some job_data =>
              if Api.nonempty job_data
              then assoc_set (Persist.stem name) job_data jobs else jobs
          | None => jobs
          end) names [])
  = if existsb (fun name => String.eqb (Persist.stem name) id) names
    then readable store id else None.
Proof.
  induction names as [| name names IH] using rev_ind; [reflexivity |].
  rewrite fold_left_app, existsb_app. cbn [List.fold_left existsb].
  rewrite orb_false_r. unfold readable in *.
  destruct (String.eqb_spec (Persist.stem name) id) as [<- | Hne].
  - rewrite orb_true_r.
    destruct (Jobs.load_job store (Persist.stem name)) as [d |] eqn:Hload.
    + destruct (Api.nonempty d) eqn:Hd.
      * by rewrite assoc_assoc_set, String.eqb_refl.
      * rewrite IH. by destruct (existsb _ names).
    + rewrite IH. by destruct (existsb _ names).
  - rewrite orb_false_r.
    destruct (Jobs.load_job store (Persist.stem name)) as [d |]; [| exact IH].
    destruct (Api.nonempty d); [| exact IH].
    rewrite assoc_assoc_set.
    destruct (String.eqb_spec id (Persist.stem name)); [congruence | exact IH].
Qed.

Lemma existsb_filter {A} (p q : A → bool) (l : list A) :
  existsb q (List.filter p l) = existsb (fun x => p x && q x) l.
Proof.
  induction l as [| x l IH]; [reflexivity |]. cbn [List.filter existsb].
  destruct (p x); cbn [existsb andb]; by rewrite IH.
Qed.

(** X18: [get_all_jobs] returns, for every job id, the stored record of
    that id exactly when a listed file "*.json" has that stem, the file
    loads, and the record is not empty.  A file that does not load (torn,
    missing) or holds an empty dictionary is skipped and does not keep any
    other job from being returned. *)
Theorem get_all_jobs_returns_readable_records (listing : list string)
  (store : gmap string Jobs.file_content) (id : string) :
  assoc id (Persist.get_all_jobs listing store) =
    if listed listing id then readable store id else None.
Proof.
  unfold Persist.get_all_jobs, listed. cbn zeta.
  rewrite get_all_jobs_lookup. by rewrite existsb_filter.
Qed.

Lemma assoc_None {V} (k : string) (d : list (string * V)) :
  assoc k d = None ↔ ¬ In k (List.map fst d).
Proof.
  induction d as [| [k0 v0] d IH]; cbn [assoc List.map fst In]; [tauto |].
  destruct (String.eqb_spec k k0) as [-> | Hne].
  - split; [discriminate | intros H; exfalso; apply H; by left].
  - rewrite IH. split; [intros H [? | ?]; [congruence | contradiction] | tauto].
Qed.

Lemma assoc_set_keys {V} (k : string) (v : V) (d : list (string * V)) :
  List.map fst (assoc_set k v d) =
    match assoc k d with
    | Some _ => List.map fst d
    | None => (List.map fst d ++ [k])%list
    end.
Proof.
  induction d as [| [k0 v0] d IH]; cbn [assoc assoc_set List.map fst]; [reflexivity |].
  destruct (String.eqb k k0); cbn [List.map fst]; [reflexivity |].
  rewrite IH. by destruct (assoc k d).
Qed.

Lemma assoc_set_NoDup {V} (k : string) (v : V) (d : list (string * V)) :
  List.NoDup (List.map fst d) → List.NoDup (List.map fst (assoc_set k v d)).
Proof.
  intros Hd. rewrite assoc_set_keys.
  destruct (assoc k d) eqn:Hk; [exact Hd |].
  apply assoc_None in Hk. apply NoDup_ListNoDup. apply NoDup_ListNoDup in Hd.
  apply NoDup_app. split; [exact Hd |]. split.
  - intros x Hx Hx'. apply list_elem_of_In in Hx.
    apply list_elem_of_singleton in Hx'. congruence.
  - apply NoDup_singleton.
Qed.

Lemma get_all_jobs_NoDup (listing : list string) (store : gmap string Jobs.file_content) :
  List.NoDup (List.map fst (Persist.get_all_jobs listing store)).
Proof.
  unfold Persist.get_all_jobs. cbn zeta.
  induction (List.filter Persist.matches_json listing) as [| name names IH] using rev_ind;
    [constructor |].
  rewrite fold_left_app. cbn [List.fold_left].
  destruct (Jobs.load_job store (Persist.stem name)) as [d |]; [| exact IH].
  destruct (Api.nonempty d); [| exact IH].
  by apply assoc_set_NoDup.
Qed.

Lemma assoc_of_In {V} (k : string) (v : V) (d : list (string * V)) :
  List.NoDup (List.map fst d) → In (k, v) d → assoc k d = Some v.
Proof.
  induction d as [| [k0 v0] d IH]; cbn [assoc List.map fst In]; [contradiction |].
  intros Hnd [Heq | Hin].
  - injection Heq as -> ->. by rewrite String.eqb_refl.
  - inversion Hnd as [| ? ? Hnotin Hnd']; subst.
    destruct (String.eqb_spec k k0) as [-> | _]; [| by apply IH].
    exfalso. apply Hnotin. change k0 with (fst (k0, v)). by apply List.in_map.
Qed.

Lemma In_of_assoc {V} (k : string) (v : V) (d : list (string * V)) :
  assoc k d = Some v → ∃ k', k' = k ∧ In (k', v) d.
Proof.
  induction d as [| [k0 v0] d IH]; cbn [assoc In]; [discriminate |].
  destruct (String.eqb_spec k k0) as [-> | _].
  - intros [= ->]. exists k0. split; [reflexivity | by left].
  - intros H. destruct (IH H) as (k' & -> & Hin). exists k. split; [reflexivity | by right].
Qed.

Lemma restore_each_lookup (w : Api.World) (items : list (string * Jobs.JobData))
  (extraction_jobs : list (string * Jobs.ExtractionJob)) (id : string) :
  List.NoDup (List.map fst items) →
  Forall (fun item => ∃ job, Api.restore_job w (snd item) = Ok job) items →
  assoc id (Persist.restore_each w items extraction_jobs) =
    match assoc id items with
    | Some d => match Api.restore_job w d with Ok job => Some job | Raise _ => None end
    | None => assoc id extraction_jobs
    end.
Proof.
  revert extraction_jobs.
  induction items as [| [k d] items IH]; intros extraction_jobs Hnd Hall; [reflexivity |].
  cbn [List.map fst] in Hnd. inversion Hnd as [| ? ? Hnotin Hnd']; subst.
  apply Forall_cons in Hall as [[job Hjob] Hall]. cbn [snd] in Hjob.
  cbn [Persist.restore_each assoc]. rewrite Hjob, (IH _ Hnd' Hall).
  destruct (String.eqb_spec id k) as [-> | Hne].
  - apply assoc_None in Hnotin. by rewrite Hnotin, assoc_assoc_set, String.eqb_refl, Hjob.
  - destruct (assoc id items); [reflexivity |].
    rewrite assoc_assoc_set. by destruct (String.eqb_spec id k).
Qed.

(** X19: crash recovery round trip.  If every listed "*.json" file holds a
    record written by [save_job], then after [load_jobs_from_persistence]
    on an empty registry the job saved under a non-empty id is in the
    registry with every attribute as it was saved. *)
Theorem saved_jobs_are_restored (w : Api.World) (listing : list string) (id : string)
  (job : Jobs.ExtractionJob) :
  id ≠ "" →
  In (Jobs.job_file id) listing →
  Api.store w !! Jobs.job_file id = Some (Jobs.Json (Jobs.job_data_of job)) →
  (∀ name, In name listing → Persist.matches_json name = true →
     ∀ c, Api.store w !! Jobs.job_file (Persist.stem name) = Some c →
          ∃ j, c = Jobs.Json (Jobs.job_data_of j)) →
  assoc id (Persist.load_jobs_from_persistence w listing []) = Some job.
Proof.
  intros Hid Hlisted Hfile Hsaved. unfold Persist.load_jobs_from_persistence.
  assert (Hall : Forall (fun item => ∃ j, Api.restore_job w (snd item) = Ok j)
                   (Persist.get_all_jobs listing (Api.store w))).
  { apply Forall_forall. intros [k d] Hin. apply list_elem_of_In in Hin.
    apply assoc_of_In in Hin; [| apply get_all_jobs_NoDup].
    unfold Persist.get_all_jobs in Hin. cbn zeta in Hin.
    rewrite get_all_jobs_lookup, existsb_filter in Hin.
    destruct (existsb _ listing) eqn:Hex; [| discriminate Hin].
    apply existsb_exists in Hex as (name & Hname & Hmatch).
    apply andb_true_iff in Hmatch as [Hmatch Hstem]. apply String.eqb_eq in Hstem.
    unfold readable, Jobs.load_job in Hin.
    destruct (Api.store w !! Jobs.job_file k) as [c |] eqn:Hc; [| discriminate Hin].
    rewrite <- Hstem in Hc. destruct (Hsaved name Hname Hmatch c Hc) as [j ->].
    destruct (Api.nonempty (Jobs.job_data_of j)); [| discriminate Hin].
    injection Hin as <-. exists j. apply restore_saved_job. }
  rewrite (restore_each_lookup _ _ _ _ (get_all_jobs_NoDup _ _) Hall).
  unfold Persist.get_all_jobs. cbn zeta. rewrite get_all_jobs_lookup, existsb_filter.
  assert (Hex : existsb (fun name => Persist.matches_json name
                                     && String.eqb (Persist.stem name) id) listing = true).
  { apply existsb_exists. exists (Jobs.job_file id). split; [exact Hlisted |].
    apply andb_true_iff. split.
    - apply endswith_app.
    - apply String.eqb_eq. by apply stem_job_file. }
  rewrite Hex. unfold readable, Jobs.load_job. rewrite Hfile.
  replace (Api.nonempty (Jobs.job_data_of job)) with true by (by destruct job).
  by rewrite restore_saved_job.
Qed.

Lemma saved_jobs_are_restored_witness :
  "extract_1_1740823200" ≠ "" ∧
  assoc "extract_1_1740823200"
    (Persist.load_jobs_from_persistence Scenario.after_restart
       ["extract_1_1740823200.json"; "notes.txt"] [])
    = Some Scenario.finished.
Proof.
  assert (Hid : "extract_1_1740823200" ≠ "") by discriminate.
  split; [exact Hid |].
  apply (saved_jobs_are_restored Scenario.after_restart
           ["extract_1_1740823200.json"; "notes.txt"] "extract_1_1740823200"
           Scenario.finished Hid).
  - by left.
  - apply lookup_singleton_eq.
  - intros name [<- | [<- | []]] Hmatch c Hc.
    + unfold Scenario.after_restart, Api.store in Hc.
      change (Jobs.job_file (Persist.stem "extract_1_1740823200.json"))
        with (Jobs.job_file "extract_1_1740823200") in Hc.
      rewrite lookup_singleton_eq in Hc. injection Hc as <-. by eexists.
    + discriminate Hmatch.
Defined.

Lemma restore_incomplete (w : Api.World) (d : Jobs.JobData) :
  incomplete d → ∃ e, Api.restore_job w d = Raise e.
Proof.
  unfold Api.restore_job, Api.getitem.
  intros [H | [H | [H | H]]]; rewrite H;
    repeat match goal with
           | |- context [match ?x with Some _ => _ | None => _ end] => destruct x
           end; cbn [mbind res_bind]; by eexists.
Qed.

(** X20: one incomplete record ends the restore.  If a stored record lacks
    one of the keys job_id, filename, priority or options, the loop of
    [load_jobs_from_persistence] stops at it: the registry is left as it was
    after the records before it, and no record after it is restored. *)
Theorem incomplete_record_ends_restore (w : Api.World)
  (before after : list (string * Jobs.JobData)) (id : string) (d : Jobs.JobData)
  (extraction_jobs : list (string * Jobs.ExtractionJob)) :
  incomplete d →
  Persist.restore_each w (before ++ (id, d) :: after) extraction_jobs
    = Persist.restore_each w before extraction_jobs.
Proof.
  intros Hd. destruct (restore_incomplete w d Hd) as [e He].
  revert extraction_jobs.
  induction before as [| [k d'] before IH]; intros extraction_jobs;
    cbn [app Persist.restore_each].
  - by rewrite He.
  - destruct (Api.restore_job w d'); [apply IH | reflexivity].
Qed.

Lemma incomplete_record_ends_restore_witness :
  incomplete record_without_filename ∧
  Persist.restore_each Scenario.after_restart
    [("extract_2_1740823300", record_without_filename);
     ("extract_1_1740823200", Jobs.job_data_of Scenario.finished)] []
    = [].
Proof.
  assert (H : incomplete record_without_filename) by (right; by left).
  split; [exact H |].
  exact (incomplete_record_ends_restore Scenario.after_restart []
           [("extract_1_1740823200", Jobs.job_data_of Scenario.finished)]
           "extract_2_1740823300" record_without_filename [] H).
Defined.

(** ** The routes *)

(** X21: the status read answers 404 exactly when the job is neither in the
    registry nor readable from the store (no file, a file that does not
    load, or an empty record); and then it leaves the registry as it was. *)
Theorem status_read_not_found_iff (w : Api.World)
  (extraction_jobs : list (string * Jobs.ExtractionJob)) (id : string) :
  (fst (Api.get_extraction_status w extraction_jobs id) = Api.not_found ↔
   assoc id extraction_jobs = None ∧ readable (Api.store w) id = None) ∧
  (fst (Api.get_extraction_status w extraction_jobs id) = Api.not_found →
   snd (Api.get_extraction_status w extraction_jobs id) = extraction_jobs).
Proof.
  split; [split |].
  - intros H. apply status_read_not_found in H as [Hmem Hstore].
    split; [exact Hmem |]. unfold readable.
    destruct Hstore as [-> | (d & -> & ->)]; reflexivity.
  - intros [Hmem Hstore]. unfold Api.get_extraction_status, readable in *.
    rewrite Hmem. destruct (Jobs.load_job (Api.store w) id) as [d |]; [| reflexivity].
    destruct (Api.nonempty d); [discriminate Hstore | reflexivity].
  - intros H. apply status_read_not_found in H as [Hmem Hstore].
    unfold Api.get_extraction_status. rewrite Hmem.
    destruct Hstore as [-> | (d & -> & ->)]; reflexivity.
Qed.


(** X23: once a status read has brought a complete job back from the store
    into the registry, the results read finds it: it answers 200 and its
    body carries the stored results. *)
Theorem results_read_after_status_read (w : Api.World)
  (extraction_jobs : list (string * Jobs.ExtractionJob)) (id stamp : string)
  (job : Jobs.ExtractionJob) :
  assoc id extraction_jobs = None →
  Api.store w !! Jobs.job_file id = Some (Jobs.Json (Jobs.job_data_of job)) →
  Jobs.status job = "complete" →
  Api.isoformat w (Jobs.start_time job) = Ok stamp →
  ∃ body,
    fst (Api.get_extraction_results w
           (snd (Api.get_extraction_status w extraction_jobs id)) id)
      = Api.Http 200 (PDict body) ∧
    assoc "results" body = Some (Api.opt_val (Jobs.results job)).
Proof.
  intros Hmem Hfile Hdone Hstamp.
  rewrite (status_read_rehydrates _ _ _ job Hmem Hfile). cbn [snd].
  unfold Api.get_extraction_results.
  rewrite assoc_assoc_set, String.eqb_refl, Hdone, Hstamp.
  cbn [String.eqb Ascii.eqb Bool.eqb negb fst]. eexists. split; reflexivity.
Qed.

Lemma results_read_after_status_read_witness :
  assoc "extract_1_1740823200" ([] : list (string * Jobs.ExtractionJob)) = None ∧
  Jobs.status Scenario.finished = "complete" ∧
  ∃ body,
    fst (Api.get_extraction_results Scenario.after_restart
           (snd (Api.get_extraction_status Scenario.after_restart []
                   "extract_1_1740823200")) "extract_1_1740823200")
      = Api.Http 200 (PDict body) ∧
    assoc "results" body = Some (Api.opt_val (Jobs.results Scenario.finished)).
Proof.
  assert (Hdone : Jobs.status Scenario.finished = "complete") by (vm_compute; reflexivity).
  split; [reflexivity |]. split; [exact Hdone |].
  apply (results_read_after_status_read Scenario.after_restart []
           "extract_1_1740823200" "2025-03-01T10:00:00" Scenario.finished
           eq_refl).
  - apply lookup_singleton_eq.
  - exact Hdone.
  - reflexivity.
Defined.

Lemma nonempty_saved (job : Jobs.ExtractionJob) :
  Api.nonempty (Jobs.job_data_of job) = true.
Proof. by destruct job. Qed.

(** X24: editing (POST) a job that is only in the store rewrites its
    record without what the edit route does not restore: whatever the
    stored progress, step texts and error were, the record saved by the
    edit has progress 0, the initial step texts and no error; status is
    kept, and the results are the stored ones with the stakeholders entry
    replaced.  The route does not test the status, so this also happens
    to a failed or a running job. *)
Theorem edit_of_stored_job_resets_unrestored_fields (w : Api.World)
  (extraction_jobs : list (string * Jobs.ExtractionJob)) (id : string)
  (job : Jobs.ExtractionJob) (edited edited_stakeholders : pyval) :
  assoc id extraction_jobs = None →
  Api.store w !! Jobs.job_file id = Some (Jobs.Json (Jobs.job_data_of job)) →
  Jobs.job_id job = id →
  (∀ r, Jobs.results job = Some r → ∃ d, r = PDict d) →
  truthy edited = true →
  py_get edited "stakeholders" (PList []) = Ok edited_stakeholders →
  ∃ d,
    Jobs.load_job
      (snd (Routes.edit_extraction_results w Jobs.WriteOk Routes.POST (Ok edited)
              extraction_jobs id)) id = Some d ∧
    Jobs.jd_status d = Some (Jobs.status job) ∧
    Jobs.jd_progress d = Some 0 ∧
    Jobs.jd_current_step d = Some "Initializing..." ∧
    Jobs.jd_substep d = Some "" ∧
    Jobs.jd_error d = None ∧
    Jobs.jd_results d
      = Some (PDict (assoc_set "stakeholders" edited_stakeholders (results_dict job))).
Proof.
  intros Hmem Hfile Hid Hres Htruthy Hget.
  assert (Hload : Jobs.load_job (Api.store w) id = Some (Jobs.job_data_of job)).
  { unfold Jobs.load_job. by rewrite Hfile. }
  unfold Routes.edit_extraction_results.
  rewrite Hmem, Hload, nonempty_saved. clear Hload Hfile.
  unfold Routes.edit_post. rewrite Htruthy. cbn [negb].
  destruct job as [jid fn pr op st pg cs ss stt mu ce rs er].
  cbn [Jobs.job_id] in Hid. subst jid.
  unfold results_dict.
  cbn [Routes.restore_for_edit Jobs.job_data_of Api.getitem mbind res_bind
       Jobs.jd_job_id Jobs.jd_filename Jobs.jd_priority Jobs.jd_options
       Jobs.jd_status Jobs.jd_results Jobs.jd_model_used Jobs.jd_start_time
       Jobs.jd_cost_estimate default Jobs.results Jobs.status].
  destruct rs as [r |].
  - destruct (Hres r eq_refl) as [d ->].
    destruct d as [| kv d]; cbn; rewrite Hget; cbn;
      destruct (py_len edited_stakeholders); cbn;
      rewrite load_job_insert; eexists; repeat split; reflexivity.
  - cbn. rewrite Hget. cbn.
    destruct (py_len edited_stakeholders); cbn;
      rewrite load_job_insert; eexists; repeat split; reflexivity.
Qed.

Lemma edit_of_stored_job_resets_unrestored_fields_witness :
  Jobs.jd_progress (Jobs.job_data_of failed_job) = Some 10 ∧
  Jobs.jd_error (Jobs.job_data_of failed_job) = Some "No module named 'app.routes'" ∧
  ∃ d,
    Jobs.load_job
      (snd (Routes.edit_extraction_results holding_failed_job Jobs.WriteOk Routes.POST
              (Ok (PDict [("stakeholders", PList [Scenario.llama_stakeholder])]))
              [] "extract_1_1740823200")) "extract_1_1740823200" = Some d ∧
    Jobs.jd_status d = Some "error" ∧
    Jobs.jd_progress d = Some 0 ∧
    Jobs.jd_error d = None.
Proof.
  split; [reflexivity |]. split; [reflexivity |].
  destruct (edit_of_stored_job_resets_unrestored_fields holding_failed_job []
              "extract_1_1740823200" failed_job
              (PDict [("stakeholders", PList [Scenario.llama_stakeholder])])
              (PList [Scenario.llama_stakeholder]))
    as (d & Hload & Hstatus & Hprogress & _ & _ & Herror & _).
  - reflexivity.
  - apply lookup_singleton_eq.
  - reflexivity.
  - intros r Hr. discriminate Hr.
  - reflexivity.
  - reflexivity.
  - exists d. split; [exact Hload |]. split; [exact Hstatus |]. by split.
Defined.

Lemma assoc_set_nonempty {V} (k : string) (v : V) (d : list (string * V)) :
  assoc_set k v d ≠ [].
Proof. destruct d as [| [k0 v0] d]; cbn [assoc_set]; [| destruct (String.eqb k k0)]; discriminate. Qed.

(** X25: edit round trip.  For a complete job in the registry whose
    results are a dictionary, a POST with a stakeholders list answers 200
    with the number of stakeholders, and a following GET returns exactly
    the posted stakeholders; the other entries of the results are kept. *)
Theorem edit_post_then_get (w : Api.World) (o : Jobs.write_outcome)
  (extraction_jobs : list (string * Jobs.ExtractionJob)) (id : string)
  (job : Jobs.ExtractionJob) (d : list (string * pyval)) (edited : pyval)
  (posted : list pyval) :
  assoc id extraction_jobs = Some job →
  Jobs.status job = "complete" →
  Jobs.results job = Some (PDict d) →
  truthy edited = true →
  py_get edited "stakeholders" (PList []) = Ok (PList posted) →
  fst (fst (Routes.edit_extraction_results w o Routes.POST (Ok edited) extraction_jobs id))
    = Api.Http 200 (PDict [("status", PStr "updated");
                           ("message", PStr "Extraction results updated successfully");
                           ("stakeholder_count", PInt (Z.of_nat (List.length posted)))]) ∧
  fst (fst (Routes.edit_extraction_results
              (with_store w (snd (Routes.edit_extraction_results w o Routes.POST
                                    (Ok edited) extraction_jobs id)))
              o Routes.GET (Ok PNone)
              (snd (fst (Routes.edit_extraction_results w o Routes.POST (Ok edited)
                           extraction_jobs id))) id))
    = Api.Http 200 (PDict [("job_id", PStr id);
                           ("filename", Jobs.filename job);
                           ("stakeholders", PList posted);
                           ("extraction_metadata",
                            default (PDict []) (assoc "extraction_metadata" d));
                           ("editable", PBool true)]).
Proof.
  intros Hmem Hdone Hres Htruthy Hget.
  assert (Hpost :
    Routes.edit_extraction_results w o Routes.POST (Ok edited) extraction_jobs id =
      (Api.Http 200 (PDict [("status", PStr "updated");
                            ("message", PStr "Extraction results updated successfully");
                            ("stakeholder_count", PInt (Z.of_nat (List.length posted)))]),
       assoc_set id
         (Jobs.set_results (Some (PDict (assoc_set "stakeholders" (PList posted) d))) job)
         extraction_jobs,
       fst (Jobs.save_job o
              (Jobs.set_results (Some (PDict (assoc_set "stakeholders" (PList posted) d)))
                 job) (Api.store w)))).
  { unfold Routes.edit_extraction_results, Routes.edit_post.
    rewrite Hmem, Htruthy. cbn [negb]. rewrite Hres. cbn [Api.opt_val truthy].
    destruct d as [| kv d']; rewrite ?Hres; cbn [Jobs.results Jobs.set_results];
      rewrite Hget; reflexivity. }
  rewrite Hpost. cbn [fst snd]. split; [reflexivity |].
  unfold Routes.edit_extraction_results.
  rewrite assoc_assoc_set, String.eqb_refl.
  unfold Routes.edit_get, Routes.results_entry.
  cbn [Jobs.status Jobs.set_results Jobs.results Jobs.filename Api.opt_val truthy].
  rewrite Hdone. cbn [String.eqb Ascii.eqb Bool.eqb negb].
  destruct (assoc_set "stakeholders" (PList posted) d) as [| kv rest] eqn:Hset;
    [by apply assoc_set_nonempty in Hset |].
  rewrite <- Hset. cbn [py_get mbind res_bind].
  rewrite !assoc_assoc_set. reflexivity.
Qed.

Lemma edit_post_then_get_witness :
  assoc "extract_1_1740823200" [("extract_1_1740823200", Scenario.finished)]
    = Some Scenario.finished ∧
  Jobs.status Scenario.finished = "complete" ∧
  fst (fst (Routes.edit_extraction_results Scenario.after_restart Jobs.WriteOk Routes.POST
              (Ok (PDict [("stakeholders", PList [Scenario.llama_stakeholder])]))
              [("extract_1_1740823200", Scenario.finished)] "extract_1_1740823200"))
    = Api.Http 200 (PDict [("status", PStr "updated");
                           ("message", PStr "Extraction results updated successfully");
                           ("stakeholder_count", PInt 1)]).
Proof.
  assert (Hdone : Jobs.status Scenario.finished = "complete") by (vm_compute; reflexivity).
  assert (Hres : Jobs.results Scenario.finished
                 = Some (PDict (results_dict Scenario.finished)))
    by (vm_compute; reflexivity).
  split; [reflexivity |]. split; [exact Hdone |].
  exact (proj1 (edit_post_then_get Scenario.after_restart Jobs.WriteOk
                  [("extract_1_1740823200", Scenario.finished)] "extract_1_1740823200"
                  Scenario.finished (results_dict Scenario.finished)
                  (PDict [("stakeholders", PList [Scenario.llama_stakeholder])])
                  [Scenario.llama_stakeholder] eq_refl Hdone Hres eq_refl eq_refl)).
Defined.

Lemma bridge_result_for_edit (w : Bridge.World) (filename : string) (jsonld_dir r : pyval) :
  Bridge.extract_stakeholders_enhanced w (PStr filename) jsonld_dir = Ok r →
  ∃ l, truthy r = true ∧
       py_get r "stakeholders" (PList []) = Ok (PList l) ∧
       py_get r "extraction_metadata" (PDict []) = Ok (PDict []) ∧
       (extraction_failed w filename jsonld_dir = false →
        ∃ m, py_get r "extractionMetadata" (PDict []) = Ok (PDict m) ∧ m ≠ []).
Proof.
  unfold extraction_failed, Bridge.extract_stakeholders_enhanced,
    Bridge.extract_stakeholders_from_jsonld_metadata, try_except.
  destruct (Bridge.extraction_body w filename jsonld_dir) as [r' | e] eqn:Hbody.
  2: { intros [= <-]. exists []. by repeat split. }
  intros [= ->]. unfold Bridge.extraction_body in Hbody.
  destruct (Bridge.resolve_jsonld_path w filename jsonld_dir) as [path | e];
    [| discriminate Hbody].
  cbn [mbind res_bind] in Hbody.
  destruct (negb (Bridge.path_exists w path)).
  - apply res_bind_Ok in Hbody as (_ & _ & Hbody). injection Hbody as <-.
    exists []. by repeat split.
  - apply res_bind_Ok in Hbody as (metadata & _ & Hbody).
    apply res_bind_Ok in Hbody as (content & _ & Hbody).
    apply res_bind_Ok in Hbody as (structure & _ & Hbody).
    apply res_bind_Ok in Hbody as (paragraphs & _ & Hbody).
    apply res_bind_Ok in Hbody as (n & _ & Hbody).
    apply res_bind_Ok in Hbody as (stakeholders & _ & Hbody).
    unfold Bridge.create_extraction_result in Hbody.
    apply res_bind_Ok in Hbody as (avg & _ & Hbody).
    apply res_bind_Ok in Hbody as (types & _ & Hbody).
    apply res_bind_Ok in Hbody as (typeset & _ & Hbody).
    apply res_bind_Ok in Hbody as (method & _ & Hbody).
    injection Hbody as <-. exists stakeholders.
    split; [reflexivity |]. split; [reflexivity |]. split; [reflexivity |].
    intros _. eexists. split; [reflexivity | discriminate].
Qed.

(** X26: the GET branch of the edit route never shows the extraction
    metadata of a result that the bridge produced: it reads the key
    extraction_metadata, while the bridge writes extractionMetadata.  For a
    complete job whose results come from [extract_stakeholders_enhanced]
    the response is 200 with the result's stakeholders and an empty
    extraction_metadata, although after a successful extraction the results
    do hold a non-empty extractionMetadata entry. *)
Theorem edit_get_shows_no_extraction_metadata (w : Bridge.World) (filename : string)
  (jsonld_dir r : pyval) (id : string) (job : Jobs.ExtractionJob) :
  Bridge.extract_stakeholders_enhanced w (PStr filename) jsonld_dir = Ok r →
  Jobs.status job = "complete" →
  Jobs.results job = Some r →
  ∃ l,
    Routes.edit_get id job
      = Api.Http 200 (PDict [("job_id", PStr id);
                             ("filename", Jobs.filename job);
                             ("stakeholders", PList l);
                             ("extraction_metadata", PDict []);
                             ("editable", PBool true)]) ∧
    (extraction_failed w filename jsonld_dir = false →
     ∃ m, py_get r "extractionMetadata" (PDict []) = Ok (PDict m) ∧ m ≠ []).
Proof.
  intros Hex Hdone Hres.
  apply bridge_result_for_edit in Hex as (l & Htruthy & Hst & Hmeta & Hreal).
  exists l. split; [| exact Hreal].
  unfold Routes.edit_get, Routes.results_entry.
  rewrite Hdone, Hres. cbn [String.eqb Ascii.eqb Bool.eqb negb Api.opt_val].
  rewrite Htruthy, Hst. cbn [mbind res_bind]. by rewrite Hmeta.
Qed.

Lemma edit_get_shows_no_extraction_metadata_witness :
  Jobs.status Scenario.finished = "complete" ∧
  ∃ l,
    Routes.edit_get "extract_1_1740823200" Scenario.finished
      = Api.Http 200 (PDict [("job_id", PStr "extract_1_1740823200");
                             ("filename", Jobs.filename Scenario.finished);
                             ("stakeholders", PList l);
                             ("extraction_metadata", PDict []);
                             ("editable", PBool true)]).
Proof.
  assert (Hdone : Jobs.status Scenario.finished = "complete") by (vm_compute; reflexivity).
  split; [exact Hdone |].
  destruct (edit_get_shows_no_extraction_metadata Scenario.adapters_down "report"
              (PStr "/srv/docex/database/jsonld")
              (Api.opt_val (Jobs.results Scenario.finished))
              "extract_1_1740823200" Scenario.finished) as (l & Hget & _).
  - vm_compute. reflexivity.
  - exact Hdone.
  - vm_compute. reflexivity.
  - by exists l.
Defined.

(** ** File names *)

Lemma has_char_app (c : ascii) (s t : string) :
  has_char c (s ++ t) ↔ has_char c s ∨ has_char c t.
Proof. unfold has_char. rewrite string_app_list. apply List.in_app_iff. Qed.

Lemma replace_char_step (c a : ascii) (new s : string) :
  replace_from (String c "") new 0 (String a s) =
    if Ascii.eqb c a then (new ++ replace_from (String c "") new 0 s)%string
    else String a (replace_from (String c "") new 0 s).
Proof.
  cbn [replace_from String.prefix String.length Nat.sub].
  destruct (ascii_dec c a) as [-> | Hne].
  - rewrite Ascii.eqb_refl. by destruct s.
  - apply Ascii.eqb_neq in Hne. by rewrite Hne.
Qed.

(** After [s.replace(c, new)] with a one-character [c]: a character that is
    neither in [s] (other than as [c]) nor in [new] is not in the result. *)
Lemma replace_char_absent (c x : ascii) (new s : string) :
  ¬ has_char x new → (has_char x s → x = c) →
  ¬ has_char x (replace s (String c "") new).
Proof.
  intros Hnew. unfold replace. induction s as [| a s IH]; intros Hs.
  - cbn. tauto.
  - rewrite replace_char_step.
    assert (Hs' : has_char x s → x = c).
    { intros H. apply Hs. unfold has_char. cbn. by right. }
    destruct (Ascii.eqb_spec c a) as [<- | Hne].
    + rewrite has_char_app. intros [H | H]; [by apply Hnew | by apply IH].
    + unfold has_char. cbn [list_ascii_of_string In]. intros [<- | H].
      * apply Hne. symmetry. apply Hs. unfold has_char. cbn. by left.
      * by apply IH.
Qed.

Lemma safe_chars (fn : string) (x : ascii) :
  x = " "%char ∨ x = "/"%char ∨ x = "\"%char →
  ¬ has_char x (replace (replace (replace fn " " "_") "/" "_") "\" "_").
Proof.
  assert (Hnew : ∀ y, y = " "%char ∨ y = "/"%char ∨ y = "\"%char → ¬ has_char y "_").
  { intros y [-> | [-> | ->]] [H | []]; discriminate H. }
  intros Hx.
  assert (H1 : ¬ has_char " " (replace fn " " "_")).
  { apply replace_char_absent; [apply Hnew; auto | done]. }
  assert (H2 : ¬ has_char " " (replace (replace fn " " "_") "/" "_")).
  { apply replace_char_absent; [apply Hnew; auto | intros H; contradiction]. }
  assert (H3 : ¬ has_char "/" (replace (replace fn " " "_") "/" "_")).
  { apply replace_char_absent; [apply Hnew; auto | done]. }
  destruct Hx as [-> | [-> | ->]].
  - apply replace_char_absent; [apply Hnew; auto | intros H; contradiction].
  - apply replace_char_absent; [apply Hnew; auto | intros H; contradiction].
  - apply replace_char_absent; [apply Hnew; auto | done].
Qed.

(** X27: the name under which a run writes the document metadata always
    ends in ".json" and contains no space, no slash and no backslash,
    whatever the job's file name is; joined to a directory it therefore
    names a file directly inside that directory. *)
Theorem metadata_file_name_is_safe (fn dir : string) :
  endswith (Jobs.safe_filename fn) ".json" = true ∧
  (∀ x, x = " "%char ∨ x = "/"%char ∨ x = "\"%char →
        ¬ has_char x (Jobs.safe_filename fn)) ∧
  (os_path_join (PStr dir) (Jobs.safe_filename fn)
     = Ok (dir ++ Jobs.safe_filename fn)%string ∨
   os_path_join (PStr dir) (Jobs.safe_filename fn)
     = Ok (dir ++ "/" ++ Jobs.safe_filename fn)%string).
Proof.
  assert (Hchars : ∀ x, x = " "%char ∨ x = "/"%char ∨ x = "\"%char →
                        ¬ has_char x (Jobs.safe_filename fn)).
  { intros x Hx. unfold Jobs.safe_filename. cbn zeta.
    destruct (endswith (replace _ "\" "_") ".json"); [by apply safe_chars |].
    rewrite has_char_app. intros [H | H]; [by apply (safe_chars fn x) |].
    destruct Hx as [-> | [-> | ->]];
      repeat (destruct H as [H | H]; [discriminate H |]); destruct H. }
  split; [| split; [exact Hchars |]].
  - unfold Jobs.safe_filename. cbn zeta.
    set (safe := replace (replace (replace fn " " "_") "/" "_") "\" "_").
    destruct (endswith safe ".json") eqn:H; [exact H | apply endswith_app].
  - unfold os_path_join, startswith.
    destruct (Jobs.safe_filename fn) as [| a s] eqn:Hsafe.
    + cbn [String.prefix]. destruct (String.eqb dir "" || endswith dir "/"); auto.
    + cbn [String.prefix].
      destruct (ascii_dec "/" a) as [<- | Hne].
      * exfalso. apply (Hchars "/"%char); [auto |]. by left.
      * destruct (String.eqb dir "" || endswith dir "/"); auto.
Qed.

(** ** Submitting a job *)

Lemma digits_have_no_underscore (d : Decimal.uint) :
  ¬ has_char "_" (DecimalString.NilEmpty.string_of_uint d).
Proof.
  unfold has_char.
  induction d; cbn [DecimalString.NilEmpty.string_of_uint list_ascii_of_string In];
    [tauto | | | | | | | | | |]; intros [H | H]; (discriminate H || by apply IHd).
Qed.

Lemma str_of_int_no_underscore (n : Z) : ¬ has_char "_" (Start.str_of_int n).
Proof.
  unfold Start.str_of_int, DecimalString.NilZero.string_of_int.
  assert (H : ∀ d, ¬ has_char "_" (DecimalString.NilZero.string_of_uint d)).
  { intros d. destruct d; try apply digits_have_no_underscore.
    unfold has_char. cbn. intros [H | []]; discriminate H. }
  destruct (Z.to_int n) as [d | d]; [apply H |].
  unfold has_char. cbn [list_ascii_of_string In].
  intros [Hc | Hc]; [discriminate Hc | by apply (H d)].
Qed.

Lemma str_of_int_inj (a b : Z) : Start.str_of_int a = Start.str_of_int b → a = b.
Proof.
  unfold Start.str_of_int. intros H.
  assert (Hn : ∀ z, DecimalString.NilZero.int_of_string
                      (DecimalString.NilZero.string_of_int (Z.to_int z))
                    = Some (Z.to_int z)).
  { intros z. apply DecimalString.NilZero.isi; destruct z as [| p | p]; try done;
      cbn; intros [= Hp]; by apply (DecimalPos.Unsigned.to_uint_nonnil p). }
  apply DecimalZ.to_int_inj.
  pose proof (Hn a) as Ha. rewrite H, Hn in Ha. congruence.
Qed.

(** Two strings cut at the first occurrence of a character. *)
Lemma split_at_char (c : ascii) (s1 s2 r1 r2 : string) :
  ¬ has_char c s1 → ¬ has_char c s2 →
  (s1 ++ String c r1 = s2 ++ String c r2)%string → s1 = s2 ∧ r1 = r2.
Proof.
  revert s2. induction s1 as [| a s1 IH]; intros [| b s2] H1 H2 H.
  - injection H as ->. done.
  - change (String b s2 ++ String c r2)%string with (String b (s2 ++ String c r2)) in H.
    change ("" ++ String c r1)%string with (String c r1) in H.
    injection H as -> _. exfalso. apply H2. by left.
  - change (String a s1 ++ String c r1)%string with (String a (s1 ++ String c r1)) in H.
    change ("" ++ String c r2)%string with (String c r2) in H.
    injection H as -> _. exfalso. apply H1. by left.
  - change (String a s1 ++ String c r1)%string with (String a (s1 ++ String c r1)) in H.
    change (String b s2 ++ String c r2)%string with (String b (s2 ++ String c r2)) in H.
    injection H as -> H.
    destruct (IH s2) as [-> ->]; [| | exact H | done].
    + intros Hc. apply H1. by right.
    + intros Hc. apply H2. by right.
Qed.

Lemma new_job_id_inj (c1 c2 : Z) (t1 t2 : Q) :
  Start.new_job_id c1 t1 = Start.new_job_id c2 t2 →
  c1 = c2 ∧ Start.int_of_float t1 = Start.int_of_float t2.
Proof.
  unfold Start.new_job_id. intros H.
  apply (f_equal (fun s => String.substring 8 (String.length s - 8) s)) in H.
  assert (Hcut : ∀ s, String.substring 8 (String.length ("extract_" ++ s) - 8)
                        ("extract_" ++ s) = s).
  { intros s. change (String.length ("extract_" ++ s)) with (8 + String.length s)%nat.
    replace (8 + String.length s - 8)%nat with (String.length s) by lia.
    change (String.substring 8 (String.length s) ("extract_" ++ s))
      with (String.substring 0 (String.length s) s).
    induction s as [| a s IH]; [reflexivity |].
    cbn [String.length String.substring]. by rewrite IH. }
  rewrite !Hcut in H.
  apply split_at_char in H as [Hc Ht]; try apply str_of_int_no_underscore.
  split; by apply str_of_int_inj.
Qed.

Lemma configured_jsonld_dir_truthy (w : Start.World) (d : pyval) :
  Start.configured_jsonld_dir w = Ok d → truthy d = true.
Proof.
  unfold Start.configured_jsonld_dir.
  destruct (truthy (Start.config_jsonld_dir w)) eqn:Hc; [by intros [= <-] |].
  cbn [os_path_join_all].
  destruct (os_path_join (Start.config_app_dir w) "..") as [p1 | e]; [| discriminate].
  cbn [mbind res_bind].
  destruct (os_path_join (PStr p1) "database") as [p2 | e]; [| discriminate].
  cbn [mbind res_bind].
  unfold os_path_join, startswith. cbn [String.prefix].
  destruct (ascii_dec "/" "j") as [Heq | _]; [discriminate Heq |].
  assert (Hne : ∀ s t : string, t ≠ "" → String.eqb (s ++ t) "" = false).
  { intros s t Ht. apply String.eqb_neq. destruct s; [done | discriminate]. }
  destruct (String.eqb p2 "" || endswith p2 "/"); cbn [mbind res_bind];
    intros [= <-]; cbn [truthy]; rewrite Hne; done.
Qed.

Lemma started_cases (job_id : string) (priority : pyval) :
  (hashable priority = true ∧ ∃ body, Start.started job_id priority = Ok body) ∨
  (hashable priority = false ∧
   Start.started job_id priority
     = Raise ("unhashable type: '" ++ type_name priority ++ "'")).
Proof.
  unfold Start.started, Jobs.get_estimated_duration, Jobs.get_model_for_priority,
    dict_get.
  destruct (hashable priority); [left | right]; (split; [reflexivity |]);
    cbn [mbind res_bind]; [by eexists | reflexivity].
Qed.

(** The two ways a call of [start_extraction] ends: before the counter is
    touched, with 400 or 500; or with the job registered, answered by 200
    or by 500. *)
Lemma start_extraction_cases (w : Start.World) (c c' : Z)
  (jobs jobs' : list (string * Jobs.ExtractionJob)) (resp : Api.response) :
  Start.start_extraction w c jobs = (resp, c', jobs') →
  (c' = c ∧ jobs' = jobs ∧ (Start.code resp = 400 ∨ Start.code resp = 500)) ∨
  (c' = c + 1 ∧
   ∃ fn pr opts,
     truthy fn = true ∧
     truthy (Jobs.given_jsonld_dir opts) = true ∧
     jobs' = assoc_set (Start.new_job_id (c + 1) (Start.time_for_id w))
               (Jobs.new_job (Start.time_for_job w)
                  (Start.new_job_id (c + 1) (Start.time_for_id w)) fn pr opts)
               jobs ∧
     (Start.code resp = 200 ∧ Start.submit w = Ok tt ∧ hashable pr = true ∨
      Start.code resp = 500 ∧
      ((∃ e, Start.submit w = Raise e) ∨
       Start.submit w = Ok tt ∧ hashable pr = false ∧
       resp = Start.internal_error ("unhashable type: '" ++ type_name pr ++ "'")))).
Proof.
  unfold Start.start_extraction.
  destruct (Start.get_json w) as [data | e]; [| intros [= <- <- <-]; left; auto].
  destruct (truthy data); cbn [negb]; [| intros [= <- <- <-]; left; auto].
  destruct data as [| | | | | | d]; cbn [py_get mbind res_bind];
    try (intros [= <- <- <-]; left; by auto).
  set (fn := default PNone (assoc "filename" d)).
  set (pr := default (PStr "cost") (assoc "priority" d)).
  destruct (truthy fn) eqn:Hfn; cbn [negb]; [| intros [= <- <- <-]; left; auto].
  destruct (Start.configured_jsonld_dir w) as [dir | e] eqn:Hdir;
    [| intros [= <- <- <-]; left; auto].
  apply configured_jsonld_dir_truthy in Hdir.
  cbn zeta.
  match goal with |- context [Jobs.new_job _ _ _ _ ?o] => set (opts := o) end.
  destruct (Start.submit w) as [[] | e].
  - destruct (started_cases (Start.new_job_id (c + 1) (Start.time_for_id w)) pr)
      as [(Hh & body & ->) | (Hh & ->)];
      intros [= <- <- <-]; right; (split; [reflexivity |]);
      exists fn, pr, opts; (split; [exact Hfn |]); (split; [exact Hdir |]);
      (split; [reflexivity |]); [left | right]; auto.
  - intros [= <- <- <-]. right. split; [reflexivity |].
    exists fn, pr, opts. split; [exact Hfn |]. split; [exact Hdir |].
    split; [reflexivity |]. right. split; [reflexivity |]. left. by eexists.
Qed.

(** X28: what a call of [start_extraction] does to the job counter and the
    registry, for any request body.  The counter never decreases and moves
    by at most one; when it stays, the registry is the one before the call.
    A 400 answer changes nothing.  When the counter moved, the registry
    holds, under the identifier built from the new counter, a pending job
    without results whose file name is truthy and whose options name a
    JSON-LD directory (neither the file name nor the priority need be a
    string), and the answer is 200 or 500.  It is 200 exactly when the
    executor accepted the job and the priority is hashable; so a 500
    answer does not mean that no job runs: for an unhashable priority (a
    JSON array or object) the job is registered and submitted, and only
    then the lookup of the estimated duration raises. *)
Theorem start_extraction_effects (w : Start.World) (c c' : Z)
  (jobs jobs' : list (string * Jobs.ExtractionJob)) (resp : Api.response) :
  Start.start_extraction w c jobs = (resp, c', jobs') →
  (c' = c ∨ c' = c + 1) ∧
  (c' = c → jobs' = jobs) ∧
  (Start.code resp = 400 → c' = c) ∧
  (c' = c + 1 →
   ∃ job,
     assoc (Start.new_job_id (c + 1) (Start.time_for_id w)) jobs' = Some job ∧
     Jobs.job_id job = Start.new_job_id (c + 1) (Start.time_for_id w) ∧
     Jobs.status job = "pending" ∧
     Jobs.results job = None ∧
     truthy (Jobs.filename job) = true ∧
     truthy (Jobs.given_jsonld_dir (Jobs.options job)) = true ∧
     (Start.code resp = 200 ∨ Start.code resp = 500) ∧
     (Start.code resp = 200 ↔
      Start.submit w = Ok tt ∧ hashable (Jobs.priority job) = true) ∧
     (Start.submit w = Ok tt → hashable (Jobs.priority job) = false →
      resp = Start.internal_error
               ("unhashable type: '" ++ type_name (Jobs.priority job) ++ "'"))).
Proof.
  intros H. apply start_extraction_cases in H.
  destruct H as [(-> & -> & Hcode)
                | (-> & fn & pr & opts & Hfn & Hdir & -> & Hcode)].
  - split; [by left |]. split; [done |]. split; [done |]. lia.
  - split; [by right |]. split; [lia |].
    split.
    { destruct Hcode as [(Hc & _) | (Hc & _)]; rewrite Hc; discriminate. }
    intros _. eexists. rewrite assoc_assoc_set, String.eqb_refl.
    split; [reflexivity |].
    cbn [Jobs.job_id Jobs.status Jobs.results Jobs.options Jobs.filename
         Jobs.priority Jobs.new_job].
    split; [reflexivity |]. split; [reflexivity |]. split; [reflexivity |].
    split; [exact Hfn |]. split; [exact Hdir |].
    destruct Hcode as [(Hc & Hs & Hh) | (Hc & [[e He] | (Hs & Hh & Hr)])].
    + split; [by left |]. split; [done |]. intros _ Hh'. congruence.
    + split; [by right |]. split.
      * split; [rewrite Hc; discriminate | intros [Hs _]; congruence].
      * intros Hs. congruence.
    + split; [by right |]. split.
      * split; [rewrite Hc; discriminate | intros [_ Hh']; congruence].
      * intros _ _. exact Hr.
Qed.

Lemma start_extraction_effects_witness :
  Start.start_extraction list_priority_request 0 []
    = (Api.Http 500
         (PDict [("error", PStr "Internal server error: unhashable type: 'list'")]),
       1,
       [("extract_1_1740823200",
         Jobs.new_job (1740823200 + (1 # 2)) "extract_1_1740823200" (PStr "report.pdf")
           (PList [])
           [("use_context", PBool true); ("detailed_output", PBool true);
            ("jsonld_dir", PStr "/srv/docex/app/../database/jsonld")])]) ∧
  Start.submit list_priority_request = Ok tt ∧
  (1 = 0 ∨ 1 = 0 + 1).
Proof.
  split; [vm_compute; reflexivity |]. split; [reflexivity |].
  refine (proj1 (start_extraction_effects list_priority_request 0 1 [] _ _ _)).
  vm_compute. reflexivity.
Defined.

(** X29: a call of [start_extraction] writes the registry only under an
    identifier built from the counter value it has just taken; an entry
    under an identifier built from any other counter value, such as the
    job of an earlier request of the same process, is left as it was. *)
Theorem start_extraction_keeps_earlier_jobs (w : Start.World) (c c' : Z)
  (jobs jobs' : list (string * Jobs.ExtractionJob)) (resp : Api.response)
  (k : Z) (t : Q) :
  Start.start_extraction w c jobs = (resp, c', jobs') →
  k ≠ c + 1 →
  assoc (Start.new_job_id k t) jobs' = assoc (Start.new_job_id k t) jobs.
Proof.
  intros H Hk. apply start_extraction_cases in H.
  destruct H as [(_ & -> & _) | (_ & fn & pr & opts & _ & _ & -> & _)];
    [reflexivity |].
  rewrite assoc_assoc_set.
  destruct (String.eqb_spec (Start.new_job_id k t)
              (Start.new_job_id (c + 1) (Start.time_for_id w))) as [Heq | _];
    [| reflexivity].
  apply new_job_id_inj in Heq as [Heq _]. contradiction.
Qed.

Lemma start_extraction_keeps_earlier_jobs_witness :
  ∃ first second,
    Start.start_extraction quality_request 0 [] = first ∧
    Start.start_extraction quality_request first.1.2 first.2 = second ∧
    assoc "extract_1_1740823200" second.2 = assoc "extract_1_1740823200" first.2 ∧
    is_Some (assoc "extract_1_1740823200" second.2).
Proof.
  eexists _, _. split; [vm_compute; reflexivity |].
  split; [vm_compute; reflexivity |].
  split; [| vm_compute; by eexists].
  refine (start_extraction_keeps_earlier_jobs quality_request 1 _ _ _ _
            1 1740823200 _ _); [vm_compute; reflexivity | lia].
Defined.



